(** * ninjabot: the Binance broker (package [exchange])

    A shallow embedding of [pkg/exchange/binance.go]: the asset constraint
    table, order validation, price and quantity formatting, OCO submission
    and the parsing of venue responses, with the venue modelled as an
    oracle that answers a log of requests.

    Go's [float64] is Rocq's primitive binary64 [float]; [int64] is [Z] with
    its wrap-around written out; [map[string]T] is [gmap string T]. *)

From Stdlib Require Import ZArith Lia Bool List Ascii String Floats.
From stdpp Require Import base option gmap strings.
Import ListNotations.

#[local] Open Scope string_scope.
#[local] Open Scope Z_scope.
#[local] Set Warnings "-inexact-float".

(** ** Go runtime: integers and characters *)

Module Go.

(** [int64] arithmetic wraps modulo 2^64 into [-2^63, 2^63). *)
Definition wrap64 (z : Z) : Z := (z + 2^63) mod 2^64 - 2^63.

Definition byteOf (c : ascii) : Z := Z.of_N (N_of_ascii c).
Definition charOf (b : Z) : ascii := ascii_of_N (Z.to_N b).

(** [lower(c) = c | ('x' - 'X')] of package strconv. *)
Definition lower (c : ascii) : Z := Z.lor (byteOf c) 32.

Definition isDigit (c : ascii) : bool := (48 <=? byteOf c) && (byteOf c <=? 57).
Definition isHexLetter (c : ascii) : bool := (97 <=? lower c) && (lower c <=? 102).

Definition digitChar (d : Z) : ascii := charOf (48 + d).

(** [n / d] rounded to the nearest integer, ties to even ([0 <= n], [0 < d]). *)
Definition roundHalfEven (n d : Z) : Z :=
  let q := n / d in
  match 2 * (n mod d) ?= d with
  | Lt => q
  | Gt => q + 1
  | Eq => if Z.even q then q else q + 1
  end.

(** A non-negative rational [n / d] scaled by a power of a base. *)
Definition scale (b : Z) (nd : Z * Z) (k : Z) : Z * Z :=
  if 0 <=? k then (fst nd * b ^ k, snd nd) else (fst nd, snd nd * b ^ (- k)).

(** Comparison of two fractions with positive denominators. *)
Definition cmpRatio (x y : Z * Z) : comparison :=
  fst x * snd y ?= fst y * snd x.

(** ** Go runtime: float64 *)

(** The binary64 value nearest to [n / d] ([0 <= n], [0 < d]), ties to even;
    overflow gives an infinity.  This is the rounding of [strconv.ParseFloat]
    and of the conversion [float64(i)] of an integer. *)
Definition nearestFloat (neg : bool) (n d : Z) : float :=
  if n <=? 0 then (if neg then neg_zero else zero) else
  let e0 := Z.log2 n - Z.log2 d in
  let e := match cmpRatio (n, d) (scale 2 (1, 1) e0) with Lt => e0 - 1 | _ => e0 end in
  let q := Z.max (e - 52) (-1074) in
  let s := scale 2 (n, d) (- q) in
  let m := roundHalfEven (fst s) (snd s) in
  let f := Z.ldexp (of_uint63 (Uint63.of_Z m)) q in
  if neg then (- f)%float else f.

(** [float64(i)] for an [int64] [i]. *)
Definition float64OfInt (i : Z) : float := nearestFloat (i <? 0) (Z.abs i) 1.

(** [!math.IsNaN(f) && !math.IsInf(f, 0)] *)
Definition isFinite (f : float) : bool :=
  match Prim2SF f with
  | S754_zero _ | S754_finite _ _ _ => true
  | _ => false
  end.

End Go.

(** ** Go runtime: package strconv *)

Module strconv.
Import Go.

(** *** FormatFloat(f, 'f', prec, 64) *)

(** The [w] low decimal digits of [n], most significant first, before [acc]. *)
Fixpoint fixedDigits (w : nat) (n : Z) (acc : string) : string :=
  match w with
  | O => acc
  | S w' => fixedDigits w' (n / 10) (String (digitChar (n mod 10)) acc)
  end.

(** The decimal digits of [n >= 0], without leading zeros, before [acc]. *)
Fixpoint utoaFuel (fuel : nat) (n : Z) (acc : string) : string :=
  match fuel with
  | O => acc
  | S fuel' =>
      let acc' := String (digitChar (n mod 10)) acc in
      if n <? 10 then acc' else utoaFuel fuel' (n / 10) acc'
  end.

Definition utoa (n : Z) (acc : string) : string :=
  utoaFuel (S (Z.to_nat (Z.log2 n))) n acc.

(** The layout of [%f]: sign, integer part, and [prec] fractional digits
    after a point when [prec > 0]; [N] is the value scaled by [10^prec]. *)
Definition fmtF (neg : bool) (N : Z) (prec : nat) : string :=
  let p := 10 ^ Z.of_nat prec in
  let frac := match prec with
              | O => ""
              | S _ => String "." (fixedDigits prec (N mod p) "")
              end in
  (if neg then "-" else "") +:+ utoa (N / p) frac.

(** [m * 2^e * 10^p] rounded to an integer, ties to even. *)
Definition scaled (m : positive) (e : Z) (p : Z) : Z :=
  let s := scale 2 (Z.pos m * 10 ^ p, 1) e in
  roundHalfEven (fst s) (snd s).

(** The decimal exponent [k] with [10^k <= m * 2^e < 10^(k+1)]. *)
Definition log10Floor (m : positive) (e : Z) : Z :=
  let v := scale 2 (Z.pos m, 1) e in
  let k := (Z.log2 (Z.pos m) + e) * 30103 / 100000 in
  let up k := match cmpRatio v (scale 10 (1, 1) (k + 1)) with Lt => k | _ => k + 1 end in
  let down k := match cmpRatio v (scale 10 (1, 1) k) with Lt => k - 1 | _ => k end in
  down (down (up (up k))).

(** Drop trailing zeros of [D] while there are fractional digits ([s > 0]). *)
Fixpoint trimZeros (fuel : nat) (D s : Z) : Z * Z :=
  match fuel with
  | O => (D, s)
  | S fuel' =>
      if (0 <? s) && (D mod 10 =? 0) && negb (D =? 0)
      then trimZeros fuel' (D / 10) (s - 1) else (D, s)
  end.

(** The shortest decimal [D * 10^(-s)] that parses back to the float
    [m * 2^e]: the least digit count for which one exists, and for that
    count the one nearest to the value. *)
Fixpoint shortestFrom (fuel : nat) (n : Z) (m : positive) (e : Z) (k10 : Z) : Z * Z :=
  let s := n - 1 - k10 in
  let v := scale 10 (scale 2 (Z.pos m, 1) e) s in
  let lo := fst v / snd v in
  let r := fst v mod snd v in
  let f := Z.ldexp (of_uint63 (Uint63.of_Z (Z.pos m))) e in
  let back D := let x := scale 10 (D, 1) (- s) in
                PrimFloat.eqb (nearestFloat false (fst x) (snd x)) f in
  let next := match fuel with
              | O => (roundHalfEven (fst v) (snd v), s)
              | S fuel' => shortestFrom fuel' (n + 1) m e k10
              end in
  if r =? 0 then (lo, s)
  else match back lo, back (lo + 1) with
       | true, true => (roundHalfEven (fst v) (snd v), s)
       | true, false => (lo, s)
       | false, true => (lo + 1, s)
       | false, false => next
       end.

Definition shortest (m : positive) (e : Z) : Z * Z :=
  let '(D, s) := shortestFrom 16 1 m e (log10Floor m e) in
  trimZeros 400 D s.

(** [strconv.FormatFloat(f, 'f', prec, 64)]; a negative [prec] asks for the
    fewest digits that identify [f]. *)
Definition FormatFloat (f : float) (prec : Z) : string :=
  match Prim2SF f with
  | S754_nan => "NaN"
  | S754_infinity s => if s then "-Inf" else "+Inf"
  | S754_zero s => fmtF s 0 (Z.to_nat prec)
  | S754_finite s m e =>
      if prec <? 0 then
        let '(D, sc) := shortest m e in
        if sc <=? 0 then fmtF s (D * 10 ^ (- sc)) 0 else fmtF s D (Z.to_nat sc)
      else fmtF s (scaled m e prec) (Z.to_nat prec)
  end.

(** *** ParseFloat(s, 64) *)

(** The [Err] field of the [*NumError] that [ParseFloat] returns. *)
Inductive NumError := ErrSyntax | ErrRange.

Fixpoint commonPrefixLenIgnoreCase (s prefix : string) : Z :=
  match s, prefix with
  | String c s', String p prefix' =>
      let c' := if (65 <=? byteOf c) && (byteOf c <=? 90) then byteOf c + 32 else byteOf c in
      if c' =? byteOf p then 1 + commonPrefixLenIgnoreCase s' prefix' else 0
  | _, _ => 0
  end.

Definition len (s : string) : Z := Z.of_nat (String.length s).

(** [special]: the infinities and NaN, with the number of bytes consumed. *)
Definition special (s : string) : option (float * Z) :=
  let inf (neg : bool) (nsign : Z) (s : string) :=
    let n := commonPrefixLenIgnoreCase s "infinity" in
    let n := if (3 <? n) && (n <? 8) then 3 else n in
    if (n =? 3) || (n =? 8)
    then Some (if neg then neg_infinity else infinity, nsign + n) else None in
  match s with
  | EmptyString => None
  | String c rest =>
      if byteOf c =? 43 then inf false 1 rest
      else if byteOf c =? 45 then inf true 1 rest
      else if (byteOf c =? 105) || (byteOf c =? 73) then inf false 0 s
      else if (byteOf c =? 110) || (byteOf c =? 78) then
        if commonPrefixLenIgnoreCase s "nan" =? 3 then Some (nan, 3) else None
      else None
  end.

(** What the digit loop of [readFloat] has seen: the digits read as one
    integer, how many of them follow the point, and the flags. *)
Record scan := {
  mant : Z;
  frac : Z;
  sawdot : bool;
  sawdigits : bool;
  underscores : bool
}.

Definition pushDigit (base d : Z) (st : scan) : scan :=
  {| mant := mant st * base + d;
     frac := if sawdot st then frac st + 1 else frac st;
     sawdot := sawdot st; sawdigits := true; underscores := underscores st |}.

Fixpoint readMantissa (hex : bool) (s : string) (st : scan) : scan * string :=
  match s with
  | EmptyString => (st, s)
  | String c rest =>
      if byteOf c =? 95 then
        readMantissa hex rest
          {| mant := mant st; frac := frac st; sawdot := sawdot st;
             sawdigits := sawdigits st; underscores := true |}
      else if byteOf c =? 46 then
        if sawdot st then (st, s)
        else readMantissa hex rest
          {| mant := mant st; frac := frac st; sawdot := true;
             sawdigits := sawdigits st; underscores := underscores st |}
      else if isDigit c then
        readMantissa hex rest (pushDigit (if hex then 16 else 10) (byteOf c - 48) st)
      else if hex && isHexLetter c then
        readMantissa hex rest (pushDigit 16 (lower c - 97 + 10) st)
      else (st, s)
  end.

(** The digits of the exponent: [e] stops growing at 10000. *)
Fixpoint readExpDigits (s : string) (e : Z) (us : bool) : Z * bool * string :=
  match s with
  | EmptyString => (e, us, s)
  | String c rest =>
      if isDigit c then
        readExpDigits rest (if e <? 10000 then e * 10 + (byteOf c - 48) else e) us
      else if byteOf c =? 95 then readExpDigits rest e true
      else (e, us, s)
  end.

(** The optional exponent; [None] when it is malformed, or missing in a
    hexadecimal literal. *)
Definition readExponent (hex : bool) (s : string) : option (Z * bool * string) :=
  match s with
  | String c rest =>
      if lower c =? (if hex then 112 else 101) then
        match rest with
        | EmptyString => None
        | String c1 rest1 =>
            let '(esign, digits) :=
              if byteOf c1 =? 43 then (1, rest1)
              else if byteOf c1 =? 45 then (-1, rest1)
              else (1, rest) in
            match digits with
            | String d _ =>
                if isDigit d then
                  let '(e, us, tl) := readExpDigits digits 0 false in
                  Some (e * esign, us, tl)
                else None
            | EmptyString => None
            end
        end
      else if hex then None else Some (0, false, s)
  | EmptyString => if hex then None else Some (0, false, s)
  end.

Inductive sawKind := sawStart | sawDigit | sawUnderscore | sawOther.

Fixpoint underscoreLoop (hex : bool) (s : string) (saw : sawKind) : bool :=
  match s with
  | EmptyString => match saw with sawUnderscore => false | _ => true end
  | String c rest =>
      if isDigit c || (hex && isHexLetter c) then underscoreLoop hex rest sawDigit
      else if byteOf c =? 95 then
        match saw with
        | sawDigit => underscoreLoop hex rest sawUnderscore
        | _ => false
        end
      else match saw with
           | sawUnderscore => false
           | _ => underscoreLoop hex rest sawOther
           end
  end.

(** Underscores may only separate digits, or a base prefix from a digit. *)
Definition underscoreOK (s : string) : bool :=
  let s := match s with
           | String c rest => if (byteOf c =? 45) || (byteOf c =? 43) then rest else s
           | EmptyString => s
           end in
  match s with
  | String c0 (String c1 rest) =>
      if (byteOf c0 =? 48) && ((lower c1 =? 98) || (lower c1 =? 111) || (lower c1 =? 120))
      then underscoreLoop (lower c1 =? 120) rest sawDigit
      else underscoreLoop false s sawStart
  | _ => underscoreLoop false s sawStart
  end.

(** [readFloat] on a whole string: sign, digits as an integer, the exponent
    of the base (10, or 2 for a hexadecimal literal); [None] when [s] is not
    a number from its first to its last byte. *)
Definition readFloat (s : string) : option (bool * Z * Z * bool) :=
  match s with
  | EmptyString => None
  | String c rest =>
      let '(neg, body) :=
        if byteOf c =? 43 then (false, rest)
        else if byteOf c =? 45 then (true, rest)
        else (false, s) in
      let '(hex, digits) :=
        match body with
        | String c0 (String c1 (String c2 rest2)) =>
            if (byteOf c0 =? 48) && (lower c1 =? 120)
            then (true, String c2 rest2) else (false, body)
        | _ => (false, body)
        end in
      let '(st, tl) := readMantissa hex digits
                         {| mant := 0; frac := 0; sawdot := false;
                            sawdigits := false; underscores := false |} in
      if negb (sawdigits st) then None else
      match readExponent hex tl with
      | None => None
      | Some (e, us, tl') =>
          match tl' with
          | String _ _ => None
          | EmptyString =>
              if (underscores st || us) && negb (underscoreOK s) then None
              else Some (neg, mant st, (if hex then e - 4 * frac st else e - frac st), hex)
          end
      end
  end.

(** [strconv.ParseFloat(s, 64)]: the value and the error.  A string that is
    not a number gives [0] and [ErrSyntax]; a number beyond the largest
    float gives an infinity and [ErrRange]. *)
Definition ParseFloat (s : string) : float * option NumError :=
  match special s with
  | Some (f, n) => if n =? len s then (f, None) else (zero, Some ErrSyntax)
  | None =>
      match readFloat s with
      | None => (zero, Some ErrSyntax)
      | Some (neg, m, e, hex) =>
          let x := scale (if hex then 2 else 10) (m, 1) e in
          let f := nearestFloat neg (fst x) (snd x) in
          if is_infinity f then (f, Some ErrRange) else (f, None)
      end
  end.

End strconv.

(** ** Errors *)

(** Go's [error] values of this package.  [wrapError before err after] is
    the result of [fmt.Errorf] with one [%w] verb: the wrapped error, and the
    text printed before and after its message. *)
Inductive error :=
| ErrInvalidAsset
| ErrInvalidQuantity
| ErrInsufficientFunds
| wrapError (before : string) (err : error) (after : string)
| apiError (msg : string).

(** Go's [(T, error)] results. *)
Inductive result (A : Type) :=
| Ok (a : A)
| Err (e : error).
Arguments Ok {A} a.
Arguments Err {A} e.

Fixpoint error_eqb (x y : error) : bool :=
  match x, y with
  | ErrInvalidAsset, ErrInvalidAsset => true
  | ErrInvalidQuantity, ErrInvalidQuantity => true
  | ErrInsufficientFunds, ErrInsufficientFunds => true
  | wrapError b1 e1 a1, wrapError b2 e2 a2 =>
      String.eqb b1 b2 && error_eqb e1 e2 && String.eqb a1 a2
  | apiError m1, apiError m2 => String.eqb m1 m2
  | _, _ => false
  end.

(** [errors.Is]: the error or one it wraps is the target. *)
Fixpoint errorsIs (err target : error) : bool :=
  error_eqb err target ||
  match err with
  | wrapError _ inner _ => errorsIs inner target
  | _ => false
  end.

(** ** Package model *)

Module model.
Import Go strconv.

(** Modelled from the spec: the package [model] is not part of the sources;
    [SideType], [OrderType] and [OrderStatusType] are Go strings (the code
    converts the venue's strings to them), and an order's side is buy or
    sell. *)
Definition SideType := string.
Definition SideTypeBuy : SideType := "BUY".
Definition SideTypeSell : SideType := "SELL".

(** Modelled from the spec: the order types market, limit, limit-maker,
    stop-loss, stop-loss-limit and take-profit of package [model], with the
    venue's spelling. *)
Definition OrderType := string.
Definition OrderTypeLimit : OrderType := "LIMIT".
Definition OrderTypeMarket : OrderType := "MARKET".
Definition OrderTypeLimitMaker : OrderType := "LIMIT_MAKER".
Definition OrderTypeStopLoss : OrderType := "STOP_LOSS".
Definition OrderTypeStopLossLimit : OrderType := "STOP_LOSS_LIMIT".
Definition OrderTypeTakeProfit : OrderType := "TAKE_PROFIT".

Definition OrderStatusType := string.

Module Candle.
(** Modelled from the spec: Candle is {symbol, open-time, open, high, low,
    close, volume, trade-count, complete-flag}; [Time] is in nanoseconds. *)
Record t := {
  Symbol : string;
  Time : Z;
  Open : float;
  Close : float;
  Low : float;
  High : float;
  Volume : float;
  Trades : Z;
  Complete : bool
}.
End Candle.

Module Order.
(** Modelled from the spec: Order is {exchange id, symbol, side, type,
    status, price, quantity, stop price (optional), timestamp, group id
    (optional)}. *)
Record t := {
  ExchangeID : Z;
  Date : Z;
  Symbol : string;
  Side : SideType;
  Type_ : OrderType;
  Status : OrderStatusType;
  Price : float;
  Quantity : float;
  Stop : option float;
  GroupID : option Z
}.

(** The zero value [model.Order{}]. *)
Definition zero : t :=
  {| ExchangeID := 0; Date := 0; Symbol := ""; Side := ""; Type_ := "";
     Status := ""; Price := PrimFloat.zero; Quantity := PrimFloat.zero;
     Stop := None; GroupID := None |}.
End Order.

Module Balance.
(** Modelled from the spec: Balance is {asset tick, free amount, locked
    amount}. *)
Record t := {
  Tick : string;
  Free : float;
  Lock : float
}.

Definition zero : t := {| Tick := ""; Free := PrimFloat.zero; Lock := PrimFloat.zero |}.
End Balance.

Module Account.
Record t := { Balances : list Balance.t }.

(** Modelled from the spec: [Account.Balance(tick)] is not part of the
    sources; an account is a collection of balances, one per asset, and the
    balance of an asset the account does not hold is the zero balance. *)
Fixpoint find (balances : list Balance.t) (tick : string) : Balance.t :=
  match balances with
  | [] => Balance.zero
  | b :: rest => if String.eqb (Balance.Tick b) tick then b else find rest tick
  end.

Definition Balance (a : t) (tick : string) : Balance.t := find (Balances a) tick.
End Account.

(** The number of bytes of [s] after its first point, if it has one. *)
Fixpoint afterPoint (s : string) : option Z :=
  match s with
  | EmptyString => None
  | String c rest => if byteOf c =? 46 then Some (len rest) else afterPoint rest
  end.

(** Modelled from the spec: [NumDecPlaces] is not part of the sources; the
    precision of a step or tick size is its number of decimal places, read
    off its shortest decimal form. *)
Definition NumDecPlaces (v : float) : Z :=
  match afterPoint (FormatFloat v (-1)) with
  | Some n => n
  | None => 0
  end.

End model.

(** ** The venue client (package binance) *)

Module binance.

(** A decoded JSON value ([interface{}]) of a symbol filter. *)
Inductive any :=
| anyNil
| anyString (s : string)
| anyFloat64 (f : float)
| anyBool (b : bool).

Definition SymbolFilterTypeLotSize : string := "LOT_SIZE".
Definition SymbolFilterTypePriceFilter : string := "PRICE_FILTER".
Definition TimeInForceTypeGTC : string := "GTC".
Definition OrderTypeLimit : string := "LIMIT".
Definition OrderTypeMarket : string := "MARKET".
Definition NewOrderRespTypeFULL : string := "FULL".

Module Balance.
Record t := { Asset : string; Free : string; Locked : string }.
End Balance.

Module Account.
Record t := {
  MakerCommission : Z;
  TakerCommission : Z;
  Balances : list Balance.t
}.
End Account.

Module Symbol.
Record t := {
  Symbol : string;
  BaseAsset : string;
  QuoteAsset : string;
  Filters : list (gmap string any)
}.
End Symbol.

Module ExchangeInfo.
Record t := { Symbols : list Symbol.t }.
End ExchangeInfo.

Module Kline.
Record t := {
  OpenTime : Z;
  Open : string;
  High : string;
  Low : string;
  Close : string;
  Volume : string;
  TradeNum : Z
}.
End Kline.

Module WsKline.
Record t := {
  StartTime : Z;
  Open : string;
  Close : string;
  High : string;
  Low : string;
  Volume : string;
  TradeNum : Z;
  IsFinal : bool
}.
End WsKline.

Module Order.
Record t := {
  Symbol : string;
  OrderID : Z;
  Price : string;
  OrigQuantity : string;
  ExecutedQuantity : string;
  CummulativeQuoteQuantity : string;
  Status : string;
  Type_ : string;
  Side : string;
  Time : Z
}.
End Order.

Module CreateOrderResponse.
Record t := {
  Symbol : string;
  OrderID : Z;
  TransactTime : Z;
  Price : string;
  OrigQuantity : string;
  ExecutedQuantity : string;
  CummulativeQuoteQuantity : string;
  Status : string;
  Type_ : string;
  Side : string
}.
End CreateOrderResponse.

Module OCOOrderReport.
Record t := {
  OrderID : Z;
  OrderListID : Z;
  Price : string;
  OrigQuantity : string;
  Side : string;
  Type_ : string;
  Status : string
}.
End OCOOrderReport.

Module CreateOCOResponse.
Record t := {
  TransactionTime : Z;
  OrderReports : list OCOOrderReport.t
}.
End CreateOCOResponse.

(** The requests the broker sends, with the parameters it sets. *)
Inductive Request :=
| PingRequest
| GetAccountRequest
| ExchangeInfoRequest
| KlinesRequest (symbol interval : string) (limit : option Z)
    (startTime endTime : option Z)
| CreateOCORequest (side quantity price stopPrice stopLimitPrice
    stopLimitTimeInForce symbol : string)
| CreateOrderRequest (symbol type : string) (timeInForce : option string)
    (side quantity : string) (price newOrderRespType : option string)
| CancelOrderRequest (symbol : string) (orderID : Z)
| ListOrdersRequest (symbol : string) (limit : Z)
| GetOrderRequest (symbol : string) (orderID : Z).

(** A request that places an order. *)
Definition placesOrder (r : Request) : bool :=
  match r with
  | CreateOCORequest _ _ _ _ _ _ _ | CreateOrderRequest _ _ _ _ _ _ _ => true
  | _ => false
  end.

(** The venue behind a [*binance.Client]: the answer to the last request of
    a log, which may depend on all the requests before it. *)
Record Client := {
  PingService : list Request -> option error;
  GetAccountService : list Request -> result Account.t;
  ExchangeInfoService : list Request -> result ExchangeInfo.t;
  KlinesService : list Request -> result (list Kline.t);
  CreateOCOService : list Request -> result CreateOCOResponse.t;
  CreateOrderService : list Request -> result CreateOrderResponse.t;
  CancelOrderService : list Request -> option error;
  ListOrdersService : list Request -> result (list Order.t);
  GetOrderService : list Request -> result Order.t
}.

End binance.

(** ** Computations that talk to the venue *)

(** A call returns or panics. *)
Inductive outcome (A : Type) :=
| Returns (a : A)
| Panics (msg : string).
Arguments Returns {A} a.
Arguments Panics {A} msg.

(** A computation reads and extends the log of requests sent so far. *)
Definition M (A : Type) : Type := list binance.Request -> outcome A * list binance.Request.

Definition ret {A} (a : A) : M A := fun log => (Returns a, log).

Definition bind {A B} (m : M A) (k : A -> M B) : M B :=
  fun log =>
    match m log with
    | (Returns a, log') => k a log'
    | (Panics msg, log') => (Panics msg, log')
    end.

Definition panic {A} (msg : string) : M A := fun log => (Panics msg, log).

(** Send request [r] and take the venue's answer. *)
Definition send {R} (service : list binance.Request -> R) (r : binance.Request) : M R :=
  fun log => (Returns (service (log ++ [r])%list), (log ++ [r])%list).

Notation "'do' x <- m ; k" := (bind m (fun x => k))
  (at level 10, x name, m at level 100, k at level 200).

(** ** Package exchange: the Binance broker *)

Module exchange.
Import Go strconv.

Record AssetInfo := {
  BaseAsset : string;
  QuoteAsset : string;
  MinPrice : float;
  MaxPrice : float;
  MinQuantity : float;
  MaxQuantity : float;
  StepSize : float;
  TickSize : float;
  (* Number of decimal places *)
  QtyDecimalPrecision : Z;
  PriceDecimalPrecision : Z
}.

Record UserInfo := {
  MakerCommission : float;
  TakerCommission : float
}.

Record Binance := {
  client : option binance.Client;
  assetsInfo : gmap string AssetInfo;
  userInfo : UserInfo;
  APIKey : string;
  APISecret : string
}.

Definition BinanceOption := Binance -> Binance.

Definition WithBinanceCredentials (key secret : string) : BinanceOption :=
  fun b =>
    {| client := client b; assetsInfo := assetsInfo b; userInfo := userInfo b;
       APIKey := key; APISecret := secret |}.

(** [&Binance{ctx: ctx}]: every other field has its zero value. *)
Definition newBinance : Binance :=
  {| client := None; assetsInfo := ∅;
     userInfo := {| MakerCommission := zero; TakerCommission := zero |};
     APIKey := ""; APISecret := "" |}.

(** A call through [b.client]; a nil client panics. *)
Definition viaClient {R} (b : Binance) (service : binance.Client -> list binance.Request -> R)
    (r : binance.Request) : M R :=
  match client b with
  | Some c => send (service c) r
  | None => panic "invalid memory address or nil pointer dereference"
  end.

(** [filter[key].(string)]: the assertion panics unless the field is a
    string. *)
Definition fieldString (filter : gmap string binance.any) (key : string) : M string :=
  match filter !! key with
  | Some (binance.anyString s) => ret s
  | _ => panic "interface conversion: interface {} is not string"
  end.

(** The two filters that set the limits of a symbol. *)
Definition applyFilter (tradeLimits : AssetInfo) (filter : gmap string binance.any) : M AssetInfo :=
  match filter !! "filterType" with
  | None => ret tradeLimits
  | Some typ =>
      do tradeLimits <-
        match typ with
        | binance.anyString t =>
            if String.eqb t binance.SymbolFilterTypeLotSize then
              do minQty <- fieldString filter "minQty";
              do maxQty <- fieldString filter "maxQty";
              do stepSize <- fieldString filter "stepSize";
              let step := fst (ParseFloat stepSize) in
              ret {| BaseAsset := BaseAsset tradeLimits;
                     QuoteAsset := QuoteAsset tradeLimits;
                     MinPrice := MinPrice tradeLimits;
                     MaxPrice := MaxPrice tradeLimits;
                     MinQuantity := fst (ParseFloat minQty);
                     MaxQuantity := fst (ParseFloat maxQty);
                     StepSize := step;
                     TickSize := TickSize tradeLimits;
                     QtyDecimalPrecision := model.NumDecPlaces step;
                     PriceDecimalPrecision := PriceDecimalPrecision tradeLimits |}
            else ret tradeLimits
        | _ => ret tradeLimits
        end;
      match typ with
      | binance.anyString t =>
          if String.eqb t binance.SymbolFilterTypePriceFilter then
            do minPrice <- fieldString filter "minPrice";
            do maxPrice <- fieldString filter "maxPrice";
            do tickSize <- fieldString filter "tickSize";
            let tick := fst (ParseFloat tickSize) in
            ret {| BaseAsset := BaseAsset tradeLimits;
                   QuoteAsset := QuoteAsset tradeLimits;
                   MinPrice := fst (ParseFloat minPrice);
                   MaxPrice := fst (ParseFloat maxPrice);
                   MinQuantity := MinQuantity tradeLimits;
                   MaxQuantity := MaxQuantity tradeLimits;
                   StepSize := StepSize tradeLimits;
                   TickSize := tick;
                   QtyDecimalPrecision := QtyDecimalPrecision tradeLimits;
                   PriceDecimalPrecision := model.NumDecPlaces tick |}
          else ret tradeLimits
      | _ => ret tradeLimits
      end
  end.

Fixpoint applyFilters (tradeLimits : AssetInfo) (filters : list (gmap string binance.any))
    : M AssetInfo :=
  match filters with
  | [] => ret tradeLimits
  | filter :: rest =>
      do tradeLimits <- applyFilter tradeLimits filter;
      applyFilters tradeLimits rest
  end.

(** The loop over [results.Symbols] that fills [assetsInfo]. *)
Fixpoint loadSymbols (symbols : list binance.Symbol.t) (infos : gmap string AssetInfo)
    : M (gmap string AssetInfo) :=
  match symbols with
  | [] => ret infos
  | info :: rest =>
      do tradeLimits <-
        applyFilters
          {| BaseAsset := binance.Symbol.BaseAsset info;
             QuoteAsset := binance.Symbol.QuoteAsset info;
             MinPrice := zero; MaxPrice := zero;
             MinQuantity := zero; MaxQuantity := zero;
             StepSize := zero; TickSize := zero;
             QtyDecimalPrecision := 0; PriceDecimalPrecision := 0 |}
          (binance.Symbol.Filters info);
      loadSymbols rest (<[binance.Symbol.Symbol info := tradeLimits]> infos)
  end.

(** [NewBinance(ctx, options...)]; [NewClient] is [binance.NewClient], the
    venue as seen with a key and a secret. *)
Definition NewBinance (NewClient : string -> string -> binance.Client)
    (options : list BinanceOption) : M (result Binance) :=
  let exchange := fold_left (fun e (option : BinanceOption) => option e) options newBinance in
  let c := NewClient (APIKey exchange) (APISecret exchange) in
  let exchange :=
    {| client := Some c; assetsInfo := assetsInfo exchange;
       userInfo := userInfo exchange;
       APIKey := APIKey exchange; APISecret := APISecret exchange |} in
  do err <- send (binance.PingService c) binance.PingRequest;
  match err with
  | Some err => ret (Err (wrapError "binance ping fail: " err ""))
  | None =>
      (* If user credentials are present *)
      do user <-
        (if negb (String.eqb (APIKey exchange) "") && negb (String.eqb (APISecret exchange) "")
         then
           (* Initialize user capabilities and fees *)
           do acc <- send (binance.GetAccountService c) binance.GetAccountRequest;
           match acc with
           | Err err => ret (Err err)
           | Ok acc =>
               ret (Ok {| MakerCommission :=
                            (float64OfInt (binance.Account.MakerCommission acc) / 10000)%float;
                          TakerCommission :=
                            (float64OfInt (binance.Account.TakerCommission acc) / 10000)%float |})
           end
         else ret (Ok (userInfo exchange)));
      match user with
      | Err err => ret (Err err)
      | Ok user =>
          do results <- send (binance.ExchangeInfoService c) binance.ExchangeInfoRequest;
          match results with
          | Err err => ret (Err err)
          | Ok results =>
              (* Initialize with orders precision and assets limits *)
              do infos <- loadSymbols (binance.ExchangeInfo.Symbols results) ∅;
              ret (Ok {| client := Some c; assetsInfo := infos; userInfo := user;
                         APIKey := APIKey exchange; APISecret := APISecret exchange |})
          end
      end
  end.

Definition CandleFromKline (symbol : string) (k : binance.Kline.t) : model.Candle.t :=
  {| model.Candle.Symbol := symbol;
     model.Candle.Time := wrap64 (binance.Kline.OpenTime k * 1000000);
     model.Candle.Open := fst (ParseFloat (binance.Kline.Open k));
     model.Candle.Close := fst (ParseFloat (binance.Kline.Close k));
     model.Candle.High := fst (ParseFloat (binance.Kline.High k));
     model.Candle.Low := fst (ParseFloat (binance.Kline.Low k));
     model.Candle.Volume := fst (ParseFloat (binance.Kline.Volume k));
     model.Candle.Trades := binance.Kline.TradeNum k;
     model.Candle.Complete := true |}.

Definition CandleFromWsKline (symbol : string) (k : binance.WsKline.t) : model.Candle.t :=
  {| model.Candle.Symbol := symbol;
     model.Candle.Time := wrap64 (binance.WsKline.StartTime k * 1000000);
     model.Candle.Open := fst (ParseFloat (binance.WsKline.Open k));
     model.Candle.Close := fst (ParseFloat (binance.WsKline.Close k));
     model.Candle.High := fst (ParseFloat (binance.WsKline.High k));
     model.Candle.Low := fst (ParseFloat (binance.WsKline.Low k));
     model.Candle.Volume := fst (ParseFloat (binance.WsKline.Volume k));
     model.Candle.Trades := binance.WsKline.TradeNum k;
     model.Candle.Complete := binance.WsKline.IsFinal k |}.

Definition CandlesByLimit (b : Binance) (symbol period : string) (limit : Z)
    : M (result (list model.Candle.t)) :=
  do data <- viaClient b binance.KlinesService
               (binance.KlinesRequest symbol period (Some limit) None None);
  match data with
  | Err err => ret (Err err)
  | Ok data => ret (Ok (map (CandleFromKline symbol) data))
  end.

(** [start] and [end] are in nanoseconds, as [UnixNano] gives them. *)
Definition CandlesByPeriod (b : Binance) (symbol period : string) (start end_ : Z)
    : M (result (list model.Candle.t)) :=
  do data <- viaClient b binance.KlinesService
               (binance.KlinesRequest symbol period None
                  (Some (Z.quot start 1000000)) (Some (Z.quot end_ 1000000)));
  match data with
  | Err err => ret (Err err)
  | Ok data => ret (Ok (map (CandleFromKline symbol) data))
  end.

(** The body of the loop over [acc.Balances]. *)
Definition balanceOf (balance : binance.Balance.t) : model.Balance.t :=
  {| model.Balance.Tick := binance.Balance.Asset balance;
     model.Balance.Free := fst (ParseFloat (binance.Balance.Free balance));
     model.Balance.Lock := fst (ParseFloat (binance.Balance.Locked balance)) |}.

Definition accountOf (acc : binance.Account.t) : model.Account.t :=
  {| model.Account.Balances := map balanceOf (binance.Account.Balances acc) |}.

Definition Account (b : Binance) : M (result model.Account.t) :=
  do acc <- viaClient b binance.GetAccountService binance.GetAccountRequest;
  match acc with
  | Err err => ret (Err err)
  | Ok acc => ret (Ok (accountOf acc))
  end.

(** [1 + maker], or [1 + taker] for the four order types that take
    liquidity. *)
Definition commissionFactor (b : Binance) (typ : model.OrderType) : float :=
  if String.eqb typ model.OrderTypeMarket || String.eqb typ model.OrderTypeLimitMaker ||
     String.eqb typ model.OrderTypeStopLoss || String.eqb typ model.OrderTypeTakeProfit
  then (1 + TakerCommission (userInfo b))%float
  else (1 + MakerCommission (userInfo b))%float.

(** [fmt.Errorf("%w: min: %f max: %f", ErrInvalidQuantity, min, max)];
    [%f] prints six decimals. *)
Definition quantityError (info : AssetInfo) : error :=
  wrapError "" ErrInvalidQuantity
    (": min: " +:+ FormatFloat (MinQuantity info) 6 +:+
     " max: " +:+ FormatFloat (MaxQuantity info) 6).

(** [validate]; [value] is the optional price ([*float64]), and the result
    is the error, [None] for nil. *)
Definition validate (b : Binance) (side : model.SideType) (typ : model.OrderType)
    (symbol : string) (quantity : float) (value : option float) : M (option error) :=
  match assetsInfo b !! symbol with
  | None => ret (Some ErrInvalidAsset)
  | Some info =>
      if (MaxQuantity info <? quantity)%float || (quantity <? MinQuantity info)%float
      then ret (Some (quantityError info))
      else
        do account <- Account b;
        match account with
        | Err err => ret (Some err)
        | Ok account =>
            let commissionFactor := commissionFactor b typ in
            do early <-
              (if String.eqb side model.SideTypeBuy then
                 do value <-
                   match value with
                   | Some v => ret (Ok v)
                   | None =>
                       do candles <- CandlesByLimit b symbol "1m" 1;
                       match candles with
                       | Err err => ret (Err err)
                       | Ok [] => panic "index out of range [0] with length 0"
                       | Ok (candle :: _) => ret (Ok (model.Candle.Close candle))
                       end
                   end;
                 match value with
                 | Err err => ret (Some err)
                 | Ok value =>
                     if (model.Balance.Free (model.Account.Balance account (QuoteAsset info))
                         <? quantity * value * commissionFactor)%float
                     then ret (Some ErrInsufficientFunds)
                     else ret None
                 end
               else ret None);
            match early with
            | Some err => ret (Some err)
            | None =>
                if String.eqb side model.SideTypeSell &&
                   (model.Balance.Free (model.Account.Balance account (BaseAsset info))
                    <? quantity * commissionFactor)%float
                then ret (Some ErrInsufficientFunds)
                else ret None
            end
        end
  end.

Definition formatPrice (b : Binance) (symbol : string) (value : float) : string :=
  let precision :=
    match assetsInfo b !! symbol with
    | Some limits => PriceDecimalPrecision limits
    | None => -1
    end in
  FormatFloat value precision.

Definition formatQuantity (b : Binance) (symbol : string) (value : float) : string :=
  let precision :=
    match assetsInfo b !! symbol with
    | Some limits => QtyDecimalPrecision limits
    | None => -1
    end in
  FormatFloat value precision.

(** One report of the OCO response as an order of the model. *)
Definition ocoItem (symbol : string) (stop : float) (transactionTime : Z)
    (order : binance.OCOOrderReport.t) : model.Order.t :=
  let price := fst (ParseFloat (binance.OCOOrderReport.Price order)) in
  let quantity := fst (ParseFloat (binance.OCOOrderReport.OrigQuantity order)) in
  let typ := binance.OCOOrderReport.Type_ order in
  {| model.Order.ExchangeID := binance.OCOOrderReport.OrderID order;
     model.Order.Date := wrap64 (transactionTime * 1000000);
     model.Order.Symbol := symbol;
     model.Order.Side := binance.OCOOrderReport.Side order;
     model.Order.Type_ := typ;
     model.Order.Status := binance.OCOOrderReport.Status order;
     model.Order.Price := price;
     model.Order.Quantity := quantity;
     model.Order.Stop :=
       if String.eqb typ model.OrderTypeStopLossLimit || String.eqb typ model.OrderTypeStopLoss
       then Some stop else None;
     model.Order.GroupID := Some (binance.OCOOrderReport.OrderListID order) |}.

Definition OrderOCO (b : Binance) (side : model.SideType) (symbol : string)
    (quantity price stop stopLimit : float) : M (result (list model.Order.t)) :=
  (* validate stop *)
  do err <- validate b side model.OrderTypeStopLossLimit symbol quantity (Some stopLimit);
  match err with
  | Some err => ret (Err err)
  | None =>
      (* validate take profit *)
      do err <- validate b side model.OrderTypeLimitMaker symbol quantity (Some price);
      match err with
      | Some err => ret (Err err)
      | None =>
          do ocoOrder <- viaClient b binance.CreateOCOService
            (binance.CreateOCORequest side
               (formatQuantity b symbol quantity)
               (formatPrice b symbol price)
               (formatPrice b symbol stop)
               (formatPrice b symbol stopLimit)
               binance.TimeInForceTypeGTC
               symbol);
          match ocoOrder with
          | Err err => ret (Err err)
          | Ok ocoOrder =>
              ret (Ok (map (ocoItem symbol stop
                              (binance.CreateOCOResponse.TransactionTime ocoOrder))
                           (binance.CreateOCOResponse.OrderReports ocoOrder)))
          end
      end
  end.

Definition OrderLimit (b : Binance) (side : model.SideType) (symbol : string)
    (quantity limit : float) : M (result model.Order.t) :=
  do err <- validate b side model.OrderTypeLimit symbol quantity (Some limit);
  match err with
  | Some err => ret (Err err)
  | None =>
      do order <- viaClient b binance.CreateOrderService
        (binance.CreateOrderRequest symbol binance.OrderTypeLimit
           (Some binance.TimeInForceTypeGTC) side
           (formatQuantity b symbol quantity)
           (Some (formatPrice b symbol limit)) None);
      match order with
      | Err err => ret (Err err)
      | Ok order =>
          let price := fst (ParseFloat (binance.CreateOrderResponse.Price order)) in
          let quantity := fst (ParseFloat (binance.CreateOrderResponse.OrigQuantity order)) in
          ret (Ok {| model.Order.ExchangeID := binance.CreateOrderResponse.OrderID order;
                     model.Order.Date :=
                       wrap64 (binance.CreateOrderResponse.TransactTime order * 1000000);
                     model.Order.Symbol := symbol;
                     model.Order.Side := binance.CreateOrderResponse.Side order;
                     model.Order.Type_ := binance.CreateOrderResponse.Type_ order;
                     model.Order.Status := binance.CreateOrderResponse.Status order;
                     model.Order.Price := price;
                     model.Order.Quantity := quantity;
                     model.Order.Stop := None;
                     model.Order.GroupID := None |})
      end
  end.

Definition OrderMarket (b : Binance) (side : model.SideType) (symbol : string)
    (quantity : float) : M (result model.Order.t) :=
  do err <- validate b side model.OrderTypeMarket symbol quantity None;
  match err with
  | Some err => ret (Err err)
  | None =>
      do order <- viaClient b binance.CreateOrderService
        (binance.CreateOrderRequest symbol binance.OrderTypeMarket None side
           (formatQuantity b symbol quantity) None
           (Some binance.NewOrderRespTypeFULL));
      match order with
      | Err err => ret (Err err)
      | Ok order =>
          let cost := fst (ParseFloat (binance.CreateOrderResponse.CummulativeQuoteQuantity order)) in
          let quantity := fst (ParseFloat (binance.CreateOrderResponse.ExecutedQuantity order)) in
          ret (Ok {| model.Order.ExchangeID := binance.CreateOrderResponse.OrderID order;
                     model.Order.Date :=
                       wrap64 (binance.CreateOrderResponse.TransactTime order * 1000000);
                     model.Order.Symbol := binance.CreateOrderResponse.Symbol order;
                     model.Order.Side := binance.CreateOrderResponse.Side order;
                     model.Order.Type_ := binance.CreateOrderResponse.Type_ order;
                     model.Order.Status := binance.CreateOrderResponse.Status order;
                     model.Order.Price := (cost / quantity)%float;
                     model.Order.Quantity := quantity;
                     model.Order.Stop := None;
                     model.Order.GroupID := None |})
      end
  end.

Definition Cancel (b : Binance) (order : model.Order.t) : M (option error) :=
  viaClient b binance.CancelOrderService
    (binance.CancelOrderRequest (model.Order.Symbol order) (model.Order.ExchangeID order)).

Definition newOrder (order : binance.Order.t) : model.Order.t :=
  let cost := fst (ParseFloat (binance.Order.CummulativeQuoteQuantity order)) in
  let quantity := fst (ParseFloat (binance.Order.ExecutedQuantity order)) in
  let '(price, quantity) :=
    if (0 <? cost)%float && (0 <? quantity)%float
    then ((cost / quantity)%float, quantity)
    else (fst (ParseFloat (binance.Order.Price order)),
          fst (ParseFloat (binance.Order.OrigQuantity order))) in
  {| model.Order.ExchangeID := binance.Order.OrderID order;
     model.Order.Date := wrap64 (binance.Order.Time order * 1000000);
     model.Order.Symbol := binance.Order.Symbol order;
     model.Order.Side := binance.Order.Side order;
     model.Order.Type_ := binance.Order.Type_ order;
     model.Order.Status := binance.Order.Status order;
     model.Order.Price := price;
     model.Order.Quantity := quantity;
     model.Order.Stop := None;
     model.Order.GroupID := None |}.

Definition Orders (b : Binance) (symbol : string) (limit : Z) : M (result (list model.Order.t)) :=
  do result <- viaClient b binance.ListOrdersService (binance.ListOrdersRequest symbol limit);
  match result with
  | Err err => ret (Err err)
  | Ok result => ret (Ok (map newOrder result))
  end.

Definition Order (b : Binance) (symbol : string) (id : Z) : M (result model.Order.t) :=
  do order <- viaClient b binance.GetOrderService (binance.GetOrderRequest symbol id);
  match order with
  | Err err => ret (Err err)
  | Ok order => ret (Ok (newOrder order))
  end.

End exchange.

(** ** Reading back what is sent *)

Module Sent.
Import Go strconv.

(** The digits of a decimal numeral, read left to right: the integer they
    spell, and how many of them follow the point ([places] is [None] before
    the point).  [digit] tells whether the byte just read was a digit: a
    point must follow one, and so must the end. *)
Fixpoint readDigits (s : string) (acc : Z) (places : option Z) (digit : bool)
    : option (Z * Z) :=
  match s with
  | EmptyString => if digit then Some (acc, default 0 places) else None
  | String c rest =>
      if isDigit c then
        readDigits rest (10 * acc + (byteOf c - 48)) (option_map (Z.add 1) places) true
      else if byteOf c =? 46 then
        match places with
        | None => if digit then readDigits rest acc (Some 0) false else None
        | Some _ => None
        end
      else None
  end.

(** [numeral s = Some (n, p)] when [s] is the decimal numeral of
    [n * 10^(-p)], an optional minus sign and digits with exactly [p] of
    them after a point, and [None] when [s] is no such numeral. *)
Definition numeral (s : string) : option (Z * Z) :=
  match s with
  | EmptyString => None
  | String c rest =>
      if byteOf c =? 45 then
        match readDigits rest 0 None false with
        | Some (n, p) => Some (- n, p)
        | None => None
        end
      else readDigits s 0 None false
  end.

(** [x = n * 10^(-p)] is an integer multiple of [y = m * 10^(-q)]. *)
Definition isMultiple (x y : Z * Z) : bool :=
  negb (fst y =? 0) &&
  ((fst x * 10 ^ snd y) mod (fst y * 10 ^ snd x) =? 0).

(** The numeral [sent] is an exact multiple of the step or tick [size], the
    size read in decimal as the venue states it. *)
Definition multipleOfSize (sent : string) (size : float) : bool :=
  match numeral sent, numeral (FormatFloat size (-1)) with
  | Some x, Some y => isMultiple x y
  | _, _ => false
  end.

End Sent.

(** ** Concrete venues *)

Module Venues.
Import exchange.

Definition lotSize (minQty maxQty stepSize : string) : gmap string binance.any :=
  <["filterType" := binance.anyString "LOT_SIZE"]>
  (<["minQty" := binance.anyString minQty]>
  (<["maxQty" := binance.anyString maxQty]>
  (<["stepSize" := binance.anyString stepSize]> ∅))).

Definition priceFilter (minPrice maxPrice tickSize : string) : gmap string binance.any :=
  <["filterType" := binance.anyString "PRICE_FILTER"]>
  (<["minPrice" := binance.anyString minPrice]>
  (<["maxPrice" := binance.anyString maxPrice]>
  (<["tickSize" := binance.anyString tickSize]> ∅))).

Definition kline (close : string) : binance.Kline.t :=
  {| binance.Kline.OpenTime := 1600000000000;
     binance.Kline.Open := "100"; binance.Kline.High := "102";
     binance.Kline.Low := "99"; binance.Kline.Close := close;
     binance.Kline.Volume := "12.5"; binance.Kline.TradeNum := 7 |}.

(** A venue with one symbol, BTCUSDT, whose step and tick sizes are given;
    the account holds 100 USDT and 2 BTC and pays 0.1% maker and taker
    commission; [klines] is the answer to every candle request. *)
Definition venue (stepSize tickSize : string) (klines : list binance.Kline.t)
    (key secret : string) : binance.Client :=
  {| binance.PingService := fun _ => None;
     binance.GetAccountService := fun _ =>
       Ok {| binance.Account.MakerCommission := 10;
             binance.Account.TakerCommission := 10;
             binance.Account.Balances :=
               [ {| binance.Balance.Asset := "USDT";
                    binance.Balance.Free := "100.00000000";
                    binance.Balance.Locked := "0.00000000" |};
                 {| binance.Balance.Asset := "BTC";
                    binance.Balance.Free := "2.00000000";
                    binance.Balance.Locked := "0.00000000" |} ] |};
     binance.ExchangeInfoService := fun _ =>
       Ok {| binance.ExchangeInfo.Symbols :=
               [ {| binance.Symbol.Symbol := "BTCUSDT";
                    binance.Symbol.BaseAsset := "BTC";
                    binance.Symbol.QuoteAsset := "USDT";
                    binance.Symbol.Filters :=
                      [ priceFilter "0.01000000" "1000000.00000000" tickSize;
                        lotSize "0.00100000" "9000.00000000" stepSize ] |} ] |};
     binance.KlinesService := fun _ => Ok klines;
     binance.CreateOCOService := fun _ => Err (apiError "rejected");
     binance.CreateOrderService := fun _ => Err (apiError "rejected");
     binance.CancelOrderService := fun _ => None;
     binance.ListOrdersService := fun _ => Ok [];
     binance.GetOrderService := fun _ => Err (apiError "unknown order") |}.

(** The client and the account of the venue with step 0.001 and tick 0.01. *)
Definition client : binance.Client :=
  venue "0.00100000" "0.01000000" [kline "101.00000000"] "key" "secret".

Definition account : binance.Account.t :=
  match binance.GetAccountService client [] with
  | Ok acc => acc
  | Err _ => {| binance.Account.MakerCommission := 0;
                binance.Account.TakerCommission := 0;
                binance.Account.Balances := [] |}
  end.

(** A client with other account and candle services. *)
Definition withServices (c : binance.Client)
    (getAccount : list binance.Request -> result binance.Account.t)
    (klines : list binance.Request -> result (list binance.Kline.t)) : binance.Client :=
  {| binance.PingService := binance.PingService c;
     binance.GetAccountService := getAccount;
     binance.ExchangeInfoService := binance.ExchangeInfoService c;
     binance.KlinesService := klines;
     binance.CreateOCOService := binance.CreateOCOService c;
     binance.CreateOrderService := binance.CreateOrderService c;
     binance.CancelOrderService := binance.CancelOrderService c;
     binance.ListOrdersService := binance.ListOrdersService c;
     binance.GetOrderService := binance.GetOrderService c |}.

(** The last request of a log satisfies [pred]. *)
Definition lastIs (pred : binance.Request -> bool) (log : list binance.Request) : bool :=
  match rev log with
  | r :: _ => pred r
  | [] => false
  end.

(** The client [c], except that the requests that satisfy [pred] fail with
    [err]. *)
Definition refusing (pred : binance.Request -> bool) (err : error) (c : binance.Client)
    : binance.Client :=
  {| binance.PingService := fun log =>
       if lastIs pred log then Some err else binance.PingService c log;
     binance.GetAccountService := fun log =>
       if lastIs pred log then Err err else binance.GetAccountService c log;
     binance.ExchangeInfoService := fun log =>
       if lastIs pred log then Err err else binance.ExchangeInfoService c log;
     binance.KlinesService := fun log =>
       if lastIs pred log then Err err else binance.KlinesService c log;
     binance.CreateOCOService := fun log =>
       if lastIs pred log then Err err else binance.CreateOCOService c log;
     binance.CreateOrderService := fun log =>
       if lastIs pred log then Err err else binance.CreateOrderService c log;
     binance.CancelOrderService := fun log =>
       if lastIs pred log then Some err else binance.CancelOrderService c log;
     binance.ListOrdersService := fun log =>
       if lastIs pred log then Err err else binance.ListOrdersService c log;
     binance.GetOrderService := fun log =>
       if lastIs pred log then Err err else binance.GetOrderService c log |}.

Definition isPing (r : binance.Request) : bool :=
  match r with binance.PingRequest => true | _ => false end.

Definition isGetAccount (r : binance.Request) : bool :=
  match r with binance.GetAccountRequest => true | _ => false end.

Definition isExchangeInfo (r : binance.Request) : bool :=
  match r with binance.ExchangeInfoRequest => true | _ => false end.

(** The venue with step 0.001 and tick 0.01, refusing some requests as
    unavailable. *)
Definition down : error := apiError "service unavailable".

Definition unavailable (pred : binance.Request -> bool) (key secret : string)
    : binance.Client :=
  refusing pred down (venue "0.00100000" "0.01000000" [kline "101.00000000"] key secret).

(** The venue with step 0.001 and tick 0.01, listing other symbols. *)
Definition listing (symbols : list binance.Symbol.t) (key secret : string)
    : binance.Client :=
  let c := venue "0.00100000" "0.01000000" [kline "101.00000000"] key secret in
  {| binance.PingService := binance.PingService c;
     binance.GetAccountService := binance.GetAccountService c;
     binance.ExchangeInfoService := fun _ =>
       Ok {| binance.ExchangeInfo.Symbols := symbols |};
     binance.KlinesService := binance.KlinesService c;
     binance.CreateOCOService := binance.CreateOCOService c;
     binance.CreateOrderService := binance.CreateOrderService c;
     binance.CancelOrderService := binance.CancelOrderService c;
     binance.ListOrdersService := binance.ListOrdersService c;
     binance.GetOrderService := binance.GetOrderService c |}.

Definition symbol (name base quote : string) (filters : list (gmap string binance.any))
    : binance.Symbol.t :=
  {| binance.Symbol.Symbol := name;
     binance.Symbol.BaseAsset := base;
     binance.Symbol.QuoteAsset := quote;
     binance.Symbol.Filters := filters |}.

(** The client [c], except that it accepts every order with the answers
    given. *)
Definition accepting (order : binance.CreateOrderResponse.t)
    (oco : binance.CreateOCOResponse.t) (c : binance.Client) : binance.Client :=
  {| binance.PingService := binance.PingService c;
     binance.GetAccountService := binance.GetAccountService c;
     binance.ExchangeInfoService := binance.ExchangeInfoService c;
     binance.KlinesService := binance.KlinesService c;
     binance.CreateOCOService := fun _ => Ok oco;
     binance.CreateOrderService := fun _ => Ok order;
     binance.CancelOrderService := binance.CancelOrderService c;
     binance.ListOrdersService := binance.ListOrdersService c;
     binance.GetOrderService := binance.GetOrderService c |}.

(** The answer to a market order that has not been filled yet. *)
Definition unfilled : binance.CreateOrderResponse.t :=
  {| binance.CreateOrderResponse.Symbol := "BTCUSDT";
     binance.CreateOrderResponse.OrderID := 28;
     binance.CreateOrderResponse.TransactTime := 1600000000000;
     binance.CreateOrderResponse.Price := "0.00000000";
     binance.CreateOrderResponse.OrigQuantity := "1.00000000";
     binance.CreateOrderResponse.ExecutedQuantity := "0.00000000";
     binance.CreateOrderResponse.CummulativeQuoteQuantity := "0.00000000";
     binance.CreateOrderResponse.Status := "NEW";
     binance.CreateOrderResponse.Type_ := "MARKET";
     binance.CreateOrderResponse.Side := "SELL" |}.

Definition report (id : Z) (price type : string) : binance.OCOOrderReport.t :=
  {| binance.OCOOrderReport.OrderID := id;
     binance.OCOOrderReport.OrderListID := 7;
     binance.OCOOrderReport.Price := price;
     binance.OCOOrderReport.OrigQuantity := "1.00000000";
     binance.OCOOrderReport.Side := "SELL";
     binance.OCOOrderReport.Type_ := type;
     binance.OCOOrderReport.Status := "NEW" |}.

(** The answer to an OCO order: a stop-loss-limit leg and a limit-maker
    leg. *)
Definition pair : binance.CreateOCOResponse.t :=
  {| binance.CreateOCOResponse.TransactionTime := 1600000000000;
     binance.CreateOCOResponse.OrderReports :=
       [report 29 "90.00000000" "STOP_LOSS_LIMIT"; report 30 "110.00000000" "LIMIT_MAKER"] |}.

(** The broker [b] talking to the venue through another client. *)
Definition through (b : Binance) (c : binance.Client) : Binance :=
  {| exchange.client := Some c; assetsInfo := assetsInfo b; userInfo := userInfo b;
     APIKey := APIKey b; APISecret := APISecret b |}.

(** The broker a run of [NewBinance] returned. *)
Definition brokerOf (run : outcome (result Binance) * list binance.Request) : Binance :=
  match run with
  | (Returns (Ok b), _) => b
  | _ => newBinance
  end.

(** Step 0.001 and tick 0.01, with credentials. *)
Definition broker : Binance :=
  brokerOf (NewBinance (venue "0.00100000" "0.01000000" [kline "101.00000000"])
              [WithBinanceCredentials "key" "secret"] []).

(** The same venue, with a key and no secret. *)
Definition anonymous : Binance :=
  brokerOf (NewBinance (venue "0.00100000" "0.01000000" [kline "101.00000000"])
              [WithBinanceCredentials "key" ""] []).

(** Step 0.5 and tick 0.05. *)
Definition coarse : Binance :=
  brokerOf (NewBinance (venue "0.50000000" "0.05000000" [kline "101.00000000"])
              [WithBinanceCredentials "key" "secret"] []).

(** A venue that answers a candle request with no candle. *)
Definition quiet : Binance :=
  brokerOf (NewBinance (venue "0.00100000" "0.01000000" [])
              [WithBinanceCredentials "key" "secret"] []).


(** The broker with step 0.001 and tick 0.01 on a venue that accepts
    orders. *)
Definition trading : Binance :=
  {| exchange.client := Some (accepting unfilled pair client);
     assetsInfo := assetsInfo broker; userInfo := userInfo broker;
     APIKey := APIKey broker; APISecret := APISecret broker |}.

End Venues.

(** ** Vocabulary of the properties *)

Module Spec.
Import exchange.

(** The verdict of a balance check: [free] against the funds needed. *)
Definition fundsVerdict (free need : float) : option error :=
  if (free <? need)%float then Some ErrInsufficientFunds else None.


(** The free balance of an asset in the venue's account. *)
Definition freeOf (acc : binance.Account.t) (asset : string) : float :=
  model.Balance.Free (model.Account.Balance (accountOf acc) asset).

(** The limits of a symbol, for a symbol of the table. *)
Definition infoOf (b : Binance) (symbol : string) : AssetInfo :=
  default
    {| BaseAsset := ""; QuoteAsset := "";
       MinPrice := PrimFloat.zero; MaxPrice := PrimFloat.zero;
       MinQuantity := PrimFloat.zero; MaxQuantity := PrimFloat.zero;
       StepSize := PrimFloat.zero; TickSize := PrimFloat.zero;
       QtyDecimalPrecision := 0; PriceDecimalPrecision := 0 |}
    (assetsInfo b !! symbol).

(** The precisions of a symbol are the decimal places of its step and tick
    sizes. *)
Definition precisionFromSizes (info : AssetInfo) : Prop :=
  QtyDecimalPrecision info = model.NumDecPlaces (StepSize info) /\
  PriceDecimalPrecision info = model.NumDecPlaces (TickSize info).

(** The exact value of a finite float as a fraction, numerator and positive
    denominator; [0] for the other floats. *)
Definition exact (f : float) : Z * Z :=
  match Prim2SF f with
  | S754_finite s m e =>
      let x := Go.scale 2 (Z.pos m, 1) e in
      (if s then - fst x else fst x, snd x)
  | _ => (0, 1)
  end.

(** [n * 10^(-p)] is within half a unit of the last decimal of [f]:
    [|n / 10^p - f| <= 10^(-p) / 2]. *)
Definition withinHalfUnit (n p : Z) (f : float) : Prop :=
  2 * Z.abs (n * snd (exact f) - fst (exact f) * 10 ^ p) <= snd (exact f).

(** The broker after the options were applied, before anything is sent. *)
Definition configured (options : list BinanceOption) : Binance :=
  fold_left (fun e (option : BinanceOption) => option e) options newBinance.

(** Both the key and the secret are set. *)
Definition hasCredentials (b : Binance) : bool :=
  negb (String.eqb (APIKey b) "") && negb (String.eqb (APISecret b) "").

(** The requests of a start that succeeds: a ping, the account when there
    are credentials, and the exchange information. *)
Definition startRequests (credentials : bool) : list binance.Request :=
  binance.PingRequest ::
  (if credentials then [binance.GetAccountRequest] else []) ++
  [binance.ExchangeInfoRequest].

Definition isString (v : option binance.any) : bool :=
  match v with
  | Some (binance.anyString _) => true
  | _ => false
  end.

(** A lot-size or price filter that lacks one of its three fields, or holds
    one that is not a string. *)
Definition malformed (filter : gmap string binance.any) : bool :=
  match filter !! "filterType" with
  | Some (binance.anyString t) =>
      (String.eqb t binance.SymbolFilterTypeLotSize &&
       negb (isString (filter !! "minQty") && isString (filter !! "maxQty") &&
             isString (filter !! "stepSize"))) ||
      (String.eqb t binance.SymbolFilterTypePriceFilter &&
       negb (isString (filter !! "minPrice") && isString (filter !! "maxPrice") &&
             isString (filter !! "tickSize")))
  | _ => false
  end.

(** The filter is not a lot-size filter. *)
Definition notLotSize (filter : gmap string binance.any) : bool :=
  match filter !! "filterType" with
  | Some (binance.anyString t) => negb (String.eqb t binance.SymbolFilterTypeLotSize)
  | _ => true
  end.

(** The limits have no quantity bounds: the zero values. *)
Definition unbounded (info : AssetInfo) : Prop :=
  MinQuantity info = PrimFloat.zero /\ MaxQuantity info = PrimFloat.zero /\
  QtyDecimalPrecision info = 0.

(** Some filter of some listed symbol is malformed. *)
Definition anyMalformed (symbols : list binance.Symbol.t) : bool :=
  existsb (fun info => existsb malformed (binance.Symbol.Filters info)) symbols.

(** Options that leave the commission rates alone, as every option of a
    caller outside the package must: [userInfo] is not exported. *)
Definition keepsUserInfo (option : BinanceOption) : Prop :=
  forall b, userInfo (option b) = userInfo b.

(** The requests of a log that place an order. *)
Definition ordersPlaced (log : list binance.Request) : list binance.Request :=
  filter (fun r => binance.placesOrder r = true) log.

End Spec.

(** * Properties *)

Import Go strconv exchange Spec.

(** ** The runtime on known values *)

(** [FormatFloat] with a precision rounds to nearest, ties to even. *)
Example FormatFloat_fixed :
  map (fun x => FormatFloat (fst x) (snd x))
    [(1%float, 5); (12%float, 5); (1.2345e6%float, 5); (0.9%float, 1); (0.09%float, 1);
     (0.0999%float, 1); (0.05%float, 1); (0.05%float, 0); (0.5%float, 1); (0.5%float, 0);
     (1.5%float, 0); (1e23%float, 17); ((-0.001)%float, 2)] =
    ["1.00000"; "12.00000"; "1234500.00000"; "0.9"; "0.1";
     "0.1"; "0.1"; "0"; "0.5"; "0";
     "2"; "99999999999999991611392.00000000000000000"; "-0.00"].
Proof. vm_compute. reflexivity. Qed.

(** [FormatFloat] with precision -1 writes the fewest digits that identify
    the float. *)
Example FormatFloat_shortest :
  map (fun x => FormatFloat x (-1))
    [0.001%float; 0.01%float; 0.5%float; 100%float; 1e23%float; 1e21%float;
     (0.1 + 0.2)%float; 123456789.125%float; 0%float; infinity; nan] =
    ["0.001"; "0.01"; "0.5"; "100"; "100000000000000000000000";
     "1000000000000000000000"; "0.30000000000000004"; "123456789.125"; "0";
     "+Inf"; "NaN"].
Proof. vm_compute. reflexivity. Qed.

(** [ParseFloat] on numbers of the forms Go accepts. *)
Example ParseFloat_numbers :
  map (fun s => let '(f, err) := ParseFloat s in ((f =? f)%float, FormatFloat f (-1), err))
    ["0.00100000"; "101"; "1e23"; "-0"; "1_23.50_0e+1_2"; "0x1p-2"; "+Inf"; "nan";
     "100000000000000016777215"] =
    [(true, "0.001", None); (true, "101", None);
     (true, "100000000000000000000000", None); (true, "-0", None);
     (true, "123500000000000", None); (true, "0.25", None); (true, "+Inf", None);
     (false, "NaN", None); (true, "100000000000000010000000", None)].
Proof. vm_compute. reflexivity. Qed.

(** [ParseFloat] on strings that are not numbers, and on a number too large
    for a float. *)
Example ParseFloat_errors :
  map (fun s => let '(f, err) := ParseFloat s in (FormatFloat f (-1), err))
    [""; "n/a"; "1x"; "1.1."; "1e"; ".e-1"; "0x"; "-_123.5e+12"; "infi"; " 1";
     "1.7976931348623159e308"; "-1e400"] =
    [("0", Some ErrSyntax); ("0", Some ErrSyntax); ("0", Some ErrSyntax);
     ("0", Some ErrSyntax); ("0", Some ErrSyntax); ("0", Some ErrSyntax);
     ("0", Some ErrSyntax); ("0", Some ErrSyntax); ("0", Some ErrSyntax);
     ("0", Some ErrSyntax); ("+Inf", Some ErrRange); ("-Inf", Some ErrRange)].
Proof. vm_compute. reflexivity. Qed.

(** The table [NewBinance] builds from a venue that states the step size
    0.00100000 and the tick size 0.01000000. *)
Example NewBinance_table :
  assetsInfo Venues.broker !! "BTCUSDT" =
    Some {| BaseAsset := "BTC"; QuoteAsset := "USDT";
            MinPrice := 0.01; MaxPrice := 1000000;
            MinQuantity := 0.001; MaxQuantity := 9000;
            StepSize := 0.001; TickSize := 0.01;
            QtyDecimalPrecision := 3; PriceDecimalPrecision := 2 |}.
Proof. vm_compute. reflexivity. Qed.

(** ** Running the calls *)

(** Split on the condition of the first conditional of the goal. *)
Ltac case_if :=
  match goal with
  | |- context [if ?c then _ else _] => destruct c eqn:?
  end.

Lemma bind_returns {A B} (m : M A) (k : A -> M B) log a log' :
  m log = (Returns a, log') -> bind m k log = k a log'.
Proof. intros H. unfold bind. now rewrite H. Qed.

Lemma bind_panics {A B} (m : M A) (k : A -> M B) log msg log' :
  m log = (Panics msg, log') -> bind m k log = (Panics msg, log').
Proof. intros H. unfold bind. now rewrite H. Qed.

Lemma viaClient_run {R} b c (service : binance.Client -> list binance.Request -> R) r log :
  client b = Some c ->
  viaClient b service r log = (Returns (service c (log ++ [r])%list), (log ++ [r])%list).
Proof. intros H. unfold viaClient. now rewrite H. Qed.

(** [Account] sends one request and converts the answer. *)
Lemma Account_run b c log :
  client b = Some c ->
  Account b log =
    (Returns match binance.GetAccountService c (log ++ [binance.GetAccountRequest])%list with
             | Ok acc => Ok (accountOf acc)
             | Err err => Err err
             end,
     (log ++ [binance.GetAccountRequest])%list).
Proof.
  intros H. unfold Account.
  rewrite (bind_returns _ _ _ _ _ (viaClient_run b c _ _ log H)).
  now destruct (binance.GetAccountService c _).
Qed.

(** [CandlesByLimit] sends one request and converts every candle. *)
Lemma CandlesByLimit_run b c symbol period limit log :
  client b = Some c ->
  let r := binance.KlinesRequest symbol period (Some limit) None None in
  CandlesByLimit b symbol period limit log =
    (Returns match binance.KlinesService c (log ++ [r])%list with
             | Ok data => Ok (map (CandleFromKline symbol) data)
             | Err err => Err err
             end,
     (log ++ [r])%list).
Proof.
  intros H r. unfold CandlesByLimit.
  rewrite (bind_returns _ _ _ _ _ (viaClient_run b c _ _ log H)).
  now destruct (binance.KlinesService c _).
Qed.

(** ** The steps of [validate] *)

Section Validate.

Variables (b : Binance) (c : binance.Client) (info : AssetInfo).
Variables (typ : model.OrderType) (symbol : string) (quantity : float).
Variables (acc : binance.Account.t) (log : list binance.Request).

Hypothesis Hclient : client b = Some c.
Hypothesis Hinfo : assetsInfo b !! symbol = Some info.
Hypothesis Hmax : (MaxQuantity info <? quantity)%float = false.
Hypothesis Hmin : (quantity <? MinQuantity info)%float = false.
Hypothesis Hacc :
  binance.GetAccountService c (log ++ [binance.GetAccountRequest])%list = Ok acc.

Let log1 := (log ++ [binance.GetAccountRequest])%list.

(** A buy at an explicit price. *)
Lemma validate_buy_priced price :
  validate b model.SideTypeBuy typ symbol quantity (Some price) log =
    (Returns (fundsVerdict (freeOf acc (QuoteAsset info))
                (quantity * price * commissionFactor b typ)%float),
     log1).
Proof.
  unfold validate. rewrite Hinfo, Hmax, Hmin. cbn [orb].
  rewrite (bind_returns _ _ _ _ _ (Account_run b c log Hclient)), Hacc.
  unfold fundsVerdict, freeOf, bind, ret. cbn. now case_if.
Qed.

(** A buy without a price, when the venue answers the candle request with
    at least one candle. *)
Lemma validate_buy_market k rest :
  let asked := (log ++ [binance.GetAccountRequest;
                        binance.KlinesRequest symbol "1m" (Some 1) None None])%list in
  binance.KlinesService c asked = Ok (k :: rest) ->
  validate b model.SideTypeBuy typ symbol quantity None log =
    (Returns (fundsVerdict (freeOf acc (QuoteAsset info))
                (quantity * fst (ParseFloat (binance.Kline.Close k))
                 * commissionFactor b typ)%float),
     asked).
Proof.
  intros asked Hk. unfold validate. rewrite Hinfo, Hmax, Hmin. cbn [orb].
  rewrite (bind_returns _ _ _ _ _ (Account_run b c log Hclient)), Hacc.
  cbn [String.eqb model.SideTypeBuy Ascii.eqb Bool.eqb].
  pose proof (CandlesByLimit_run b c symbol "1m" 1 log1 Hclient) as Hrun.
  cbn zeta in Hrun. unfold log1 in Hrun. rewrite <- app_assoc in Hrun.
  cbn [app] in Hrun. fold asked in Hrun. rewrite Hk in Hrun.
  unfold fundsVerdict, freeOf, bind, ret. rewrite Hrun. cbn. now case_if.
Qed.

(** A buy without a price, when the venue answers the candle request with
    no candle: the first element of an empty slice is read. *)
Lemma validate_buy_market_empty :
  let asked := (log ++ [binance.GetAccountRequest;
                        binance.KlinesRequest symbol "1m" (Some 1) None None])%list in
  binance.KlinesService c asked = Ok [] ->
  validate b model.SideTypeBuy typ symbol quantity None log =
    (Panics "index out of range [0] with length 0", asked).
Proof.
  intros asked Hk. unfold validate. rewrite Hinfo, Hmax, Hmin. cbn [orb].
  rewrite (bind_returns _ _ _ _ _ (Account_run b c log Hclient)), Hacc.
  cbn [String.eqb model.SideTypeBuy Ascii.eqb Bool.eqb].
  pose proof (CandlesByLimit_run b c symbol "1m" 1 log1 Hclient) as Hrun.
  cbn zeta in Hrun. unfold log1 in Hrun. rewrite <- app_assoc in Hrun.
  cbn [app] in Hrun. fold asked in Hrun. rewrite Hk in Hrun.
  unfold bind, ret, panic. now rewrite Hrun.
Qed.

(** Any side but buy: only a sell is checked, whatever the price. *)
Lemma validate_not_buy side value :
  String.eqb side model.SideTypeBuy = false ->
  validate b side typ symbol quantity value log =
    (Returns (if String.eqb side model.SideTypeSell
              then fundsVerdict (freeOf acc (BaseAsset info))
                     (quantity * commissionFactor b typ)%float
              else None),
     log1).
Proof.
  intros Hside. unfold validate. rewrite Hinfo, Hmax, Hmin. cbn [orb].
  rewrite (bind_returns _ _ _ _ _ (Account_run b c log Hclient)), Hacc, Hside.
  unfold fundsVerdict, freeOf, bind, ret. cbn.
  destruct (String.eqb side model.SideTypeSell); cbn; [|reflexivity].
  now case_if.
Qed.

Lemma validate_sell value :
  validate b model.SideTypeSell typ symbol quantity value log =
    (Returns (fundsVerdict (freeOf acc (BaseAsset info))
                (quantity * commissionFactor b typ)%float),
     log1).
Proof. now rewrite validate_not_buy. Qed.

End Validate.

Lemma fundsVerdict_insufficient free need :
  fundsVerdict free need = Some ErrInsufficientFunds <-> (free <? need)%float = true.
Proof. unfold fundsVerdict. destruct (_ <? _)%float; split; congruence. Qed.

Lemma fundsVerdict_passes free need :
  (free <? need)%float = false -> fundsVerdict free need = None.
Proof. unfold fundsVerdict. now intros ->. Qed.

(** ** Balance check *)

(** C1: once the symbol is known, the quantity is within its bounds and the
    account was fetched, a buy needs [quantity * price * commissionFactor]
    of the quote asset, at the price given or else at the close of the
    candle fetched, and a sell needs [quantity * commissionFactor] of the
    base asset; [validate] returns [ErrInsufficientFunds] exactly when the
    free balance of that asset is strictly less than the amount, and nil
    otherwise. *)
Theorem validate_insufficient_funds
    b c info typ symbol quantity value acc log :
  client b = Some c ->
  assetsInfo b !! symbol = Some info ->
  (MaxQuantity info <? quantity)%float = false ->
  (quantity <? MinQuantity info)%float = false ->
  binance.GetAccountService c (log ++ [binance.GetAccountRequest])%list = Ok acc ->
  let factor := commissionFactor b typ in
  let buy := fst (validate b model.SideTypeBuy typ symbol quantity value log) in
  let sell := fst (validate b model.SideTypeSell typ symbol quantity value log) in
  let quote := freeOf acc (QuoteAsset info) in
  let base := freeOf acc (BaseAsset info) in
  (forall price, value = Some price ->
     let need := (quantity * price * factor)%float in
     (buy = Returns (Some ErrInsufficientFunds) <-> (quote <? need)%float = true) /\
     ((quote <? need)%float = false -> buy = Returns None)) /\
  (forall k rest, value = None ->
     binance.KlinesService c
       (log ++ [binance.GetAccountRequest;
                binance.KlinesRequest symbol "1m" (Some 1) None None])%list = Ok (k :: rest) ->
     let need := (quantity * fst (ParseFloat (binance.Kline.Close k)) * factor)%float in
     (buy = Returns (Some ErrInsufficientFunds) <-> (quote <? need)%float = true) /\
     ((quote <? need)%float = false -> buy = Returns None)) /\
  (let need := (quantity * factor)%float in
   (sell = Returns (Some ErrInsufficientFunds) <-> (base <? need)%float = true) /\
   ((base <? need)%float = false -> sell = Returns None)).
Proof.
  intros Hc Hinfo Hmax Hmin Hacc factor buy sell quote base.
  assert (Hverdict : forall free need,
            (Returns (fundsVerdict free need) = Returns (Some ErrInsufficientFunds)
             <-> (free <? need)%float = true) /\
            ((free <? need)%float = false -> Returns (fundsVerdict free need) = Returns None)).
  { intros free need. split.
    - rewrite <- fundsVerdict_insufficient. split; congruence.
    - intros H. now rewrite fundsVerdict_passes. }
  split; [|split].
  - intros price -> need. subst buy.
    rewrite (validate_buy_priced b c info typ symbol quantity acc log) by assumption.
    apply Hverdict.
  - intros k rest -> Hk need. subst buy.
    rewrite (validate_buy_market b c info typ symbol quantity acc log
               Hc Hinfo Hmax Hmin Hacc k rest Hk).
    apply Hverdict.
  - intros need. subst sell.
    rewrite (validate_sell b c info typ symbol quantity acc log) by assumption.
    apply Hverdict.
Qed.

(** The example of C1: the account holds 100 USDT, the commission factor is
    1.001, and a buy of 1 at 101 is refused. *)
Lemma validate_insufficient_funds_example :
  freeOf Venues.account "USDT" = 100%float /\
  commissionFactor Venues.broker model.OrderTypeLimit = 1.001%float /\
  fst (validate Venues.broker model.SideTypeBuy model.OrderTypeLimit "BTCUSDT"
         1 (Some 101%float) []) = Returns (Some ErrInsufficientFunds).
Proof.
  split; [vm_compute; reflexivity|]. split; [vm_compute; reflexivity|].
  assert (Hc : client Venues.broker = Some Venues.client) by (vm_compute; reflexivity).
  assert (Hi : assetsInfo Venues.broker !! "BTCUSDT" = Some (infoOf Venues.broker "BTCUSDT"))
    by (vm_compute; reflexivity).
  apply (proj1 (validate_insufficient_funds Venues.broker Venues.client
                  (infoOf Venues.broker "BTCUSDT") model.OrderTypeLimit "BTCUSDT"
                  1 (Some 101%float) Venues.account [] Hc Hi
                  ltac:(vm_compute; reflexivity) ltac:(vm_compute; reflexivity)
                  ltac:(vm_compute; reflexivity))
           101%float eq_refl).
  vm_compute. reflexivity.
Defined.

(** ** Commission factor *)





(** ** Quantity bounds *)

Lemma SFcompare_Eq_sym x y : SFcompare x y = Some Eq -> SFcompare y x = Some Eq.
Proof.
  destruct x as [sx | sx | | sx mx ex], y as [sy | sy | | sy my ey]; cbn;
    try congruence;
    try (destruct sx; congruence); try (destruct sy; congruence);
    try (destruct sx, sy; congruence).
  destruct sx, sy; try congruence;
    destruct (Z.compare_spec ex ey) as [-> | |]; try congruence;
    rewrite Z.compare_refl; intros H; injection H as H.
  - apply (f_equal CompOpp) in H. rewrite CompOpp_involutive in H. cbn in H.
    apply Pos.compare_eq in H. subst. now rewrite Pos.compare_cont_refl.
  - apply Pos.compare_eq in H. subst. now rewrite Pos.compare_cont_refl.
Qed.

(** Floats that are equal ([==]) are not ordered either way. *)
Lemma float_eqb_not_ltb (x y : float) :
  (x =? y)%float = true -> (x <? y)%float = false /\ (y <? x)%float = false.
Proof.
  rewrite FloatAxioms.eqb_spec, !FloatAxioms.ltb_spec. unfold SFeqb, SFltb. intros H.
  destruct (SFcompare (Prim2SF x) (Prim2SF y)) as [[]|] eqn:Hxy; try discriminate.
  now rewrite (SFcompare_Eq_sym _ _ Hxy).
Qed.

(** C5: for a symbol of the table, a quantity above the maximum or below the
    minimum is refused at once, with an error that wraps [ErrInvalidQuantity]
    and prints both bounds; a quantity equal to a bound, and within the
    other, is not refused by this check: [validate] goes on to fetch the
    account. *)
Theorem validate_quantity_bounds b c info side typ symbol quantity value log :
  client b = Some c ->
  assetsInfo b !! symbol = Some info ->
  let rejected :=
    (Returns (Some (wrapError "" ErrInvalidQuantity
                      (": min: " +:+ FormatFloat (MinQuantity info) 6 +:+
                       " max: " +:+ FormatFloat (MaxQuantity info) 6))),
     log) in
  let run := validate b side typ symbol quantity value log in
  ((MaxQuantity info <? quantity)%float = true -> run = rejected) /\
  ((quantity <? MinQuantity info)%float = true -> run = rejected) /\
  errorsIs (quantityError info) ErrInvalidQuantity = true /\
  ((quantity =? MaxQuantity info)%float = true ->
   (quantity <? MinQuantity info)%float = false ->
   exists rest, snd run = (log ++ binance.GetAccountRequest :: rest)%list) /\
  ((quantity =? MinQuantity info)%float = true ->
   (MaxQuantity info <? quantity)%float = false ->
   exists rest, snd run = (log ++ binance.GetAccountRequest :: rest)%list).
Proof.
  intros Hc Hinfo rejected run.
  assert (Hpass : (MaxQuantity info <? quantity)%float = false ->
                  (quantity <? MinQuantity info)%float = false ->
                  exists rest, snd run = (log ++ binance.GetAccountRequest :: rest)%list).
  { intros Hmax Hmin. subst run. unfold validate. rewrite Hinfo, Hmax, Hmin. cbn [orb].
    rewrite (bind_returns _ _ _ _ _ (Account_run b c log Hc)).
    destruct (binance.GetAccountService c _) as [acc | err]; [|now exists []].
    destruct (String.eqb side model.SideTypeBuy) eqn:Hside.
    - apply String.eqb_eq in Hside. subst side.
      destruct value as [price|].
      + exists []. unfold bind, ret. cbn. now case_if.
      + exists [binance.KlinesRequest symbol "1m" (Some 1) None None].
        cbn [String.eqb model.SideTypeBuy Ascii.eqb Bool.eqb].
        pose proof (CandlesByLimit_run b c symbol "1m" 1
                      (log ++ [binance.GetAccountRequest])%list Hc) as Hrun.
        cbn zeta in Hrun. rewrite <- app_assoc in Hrun. cbn [app] in Hrun.
        destruct (binance.KlinesService c _) as [[|k ks] | err];
          unfold bind, ret, panic; rewrite Hrun; cbn; try reflexivity.
        now case_if.
    - exists []. unfold bind, ret. cbn.
      destruct (String.eqb side model.SideTypeSell); cbn; [|reflexivity].
      now case_if. }
  repeat split.
  - intros Hmax. subst run rejected. unfold validate. now rewrite Hinfo, Hmax.
  - intros Hmin. subst run rejected. unfold validate. rewrite Hinfo, Hmin.
    now rewrite orb_true_r.
  - intros Heq Hmin. apply Hpass; [|exact Hmin].
    now destruct (float_eqb_not_ltb _ _ Heq).
  - intros Heq Hmax. apply Hpass; [exact Hmax|].
    now destruct (float_eqb_not_ltb _ _ Heq).
Qed.

(** Instances of C5 on BTCUSDT, whose bounds are 0.001 and 9000: 9000.5 and
    0.0005 are refused; 9000 and 0.001 are not. *)
Lemma validate_quantity_bounds_example :
  fst (validate Venues.broker model.SideTypeSell model.OrderTypeLimit "BTCUSDT"
         9000.5 (Some 110%float) []) =
    Returns (Some (wrapError "" ErrInvalidQuantity ": min: 0.001000 max: 9000.000000")) /\
  fst (validate Venues.broker model.SideTypeSell model.OrderTypeLimit "BTCUSDT"
         0.0005 (Some 110%float) []) =
    Returns (Some (wrapError "" ErrInvalidQuantity ": min: 0.001000 max: 9000.000000")) /\
  (exists rest,
     snd (validate Venues.broker model.SideTypeSell model.OrderTypeLimit "BTCUSDT"
            9000 (Some 110%float) []) = ([] ++ binance.GetAccountRequest :: rest)%list) /\
  (exists rest,
     snd (validate Venues.broker model.SideTypeSell model.OrderTypeLimit "BTCUSDT"
            0.001 (Some 110%float) []) = ([] ++ binance.GetAccountRequest :: rest)%list).
Proof.
  assert (Hc : client Venues.broker = Some Venues.client) by (vm_compute; reflexivity).
  assert (Hi : assetsInfo Venues.broker !! "BTCUSDT" = Some (infoOf Venues.broker "BTCUSDT"))
    by (vm_compute; reflexivity).
  pose proof (fun q => validate_quantity_bounds Venues.broker Venues.client
                (infoOf Venues.broker "BTCUSDT") model.SideTypeSell model.OrderTypeLimit
                "BTCUSDT" q (Some 110%float) [] Hc Hi) as H.
  cbn zeta in H.
  split; [|split; [|split]].
  - destruct (H 9000.5%float) as (Hmax & _). rewrite Hmax; [|vm_compute; reflexivity].
    vm_compute. reflexivity.
  - destruct (H 0.0005%float) as (_ & Hmin & _). rewrite Hmin; [|vm_compute; reflexivity].
    vm_compute. reflexivity.
  - destruct (H 9000%float) as (_ & _ & _ & Hat & _).
    apply Hat; vm_compute; reflexivity.
  - destruct (H 0.001%float) as (_ & _ & _ & _ & Hat).
    apply Hat; vm_compute; reflexivity.
Defined.

(** ** OCO submission *)

(** [validate] only reads: it asks for the account and, for a buy without a
    price, for one candle. *)
Lemma validate_log b side typ symbol quantity value log :
  exists extra,
    snd (validate b side typ symbol quantity value log) = (log ++ extra)%list /\
    ordersPlaced extra = [].
Proof.
  unfold validate.
  destruct (assetsInfo b !! symbol) as [info|]; [|exists []; now rewrite app_nil_r].
  case_if; [exists []; now rewrite app_nil_r|].
  destruct (client b) as [c|] eqn:Hc.
  - rewrite (bind_returns _ _ _ _ _ (Account_run b c log Hc)).
    destruct (binance.GetAccountService c _) as [acc | err];
      [|now exists [binance.GetAccountRequest]].
    destruct (String.eqb side model.SideTypeBuy) eqn:Hside.
    + destruct value as [price|].
      * exists [binance.GetAccountRequest]. unfold bind, ret. cbn.
        case_if; cbn; [easy|]. now case_if.
      * exists [binance.GetAccountRequest;
                binance.KlinesRequest symbol "1m" (Some 1) None None].
        pose proof (CandlesByLimit_run b c symbol "1m" 1
                      (log ++ [binance.GetAccountRequest])%list Hc) as Hrun.
        cbn zeta in Hrun. rewrite <- app_assoc in Hrun. cbn [app] in Hrun.
        destruct (binance.KlinesService c _) as [[|k ks] | err];
          unfold bind, ret, panic; rewrite Hrun; cbn; try easy.
        case_if; cbn; [easy|]. now case_if.
    + exists [binance.GetAccountRequest]. unfold bind, ret. cbn. now case_if.
  - exists []. rewrite app_nil_r. unfold bind, Account, viaClient, panic.
    now rewrite Hc.
Qed.

Lemma ordersPlaced_app l1 l2 : ordersPlaced (l1 ++ l2) = (ordersPlaced l1 ++ ordersPlaced l2)%list.
Proof. apply filter_app. Qed.

Lemma validate_places_no_order b side typ symbol quantity value log :
  ordersPlaced (snd (validate b side typ symbol quantity value log)) = ordersPlaced log.
Proof.
  destruct (validate_log b side typ symbol quantity value log) as (extra & -> & Hnone).
  now rewrite ordersPlaced_app, Hnone, app_nil_r.
Qed.

(** C6: [OrderOCO] validates the stop-loss-limit leg at the stop-limit price
    and then the limit-maker leg at the take-profit price; when a leg is
    refused the submission returns that leg's error and the log holds no
    order request it did not hold before; and an order request is only sent
    once both legs have passed, as the request that follows them. *)
Theorem OrderOCO_validates_both_legs b side symbol quantity price stop stopLimit log :
  let leg1 := validate b side model.OrderTypeStopLossLimit symbol quantity (Some stopLimit) log in
  let leg2 := validate b side model.OrderTypeLimitMaker symbol quantity (Some price) (snd leg1) in
  let run := OrderOCO b side symbol quantity price stop stopLimit log in
  (forall err, fst leg1 = Returns (Some err) ->
     fst run = Returns (Err err) /\ snd run = snd leg1 /\
     ordersPlaced (snd run) = ordersPlaced log) /\
  (forall err, fst leg1 = Returns None -> fst leg2 = Returns (Some err) ->
     fst run = Returns (Err err) /\ snd run = snd leg2 /\
     ordersPlaced (snd run) = ordersPlaced log) /\
  (ordersPlaced (snd run) <> ordersPlaced log ->
     fst leg1 = Returns None /\ fst leg2 = Returns None /\
     snd run =
       (snd leg2 ++
        [binance.CreateOCORequest side
           (formatQuantity b symbol quantity) (formatPrice b symbol price)
           (formatPrice b symbol stop) (formatPrice b symbol stopLimit)
           binance.TimeInForceTypeGTC symbol])%list).
Proof.
  intros leg1 leg2 run.
  pose proof (validate_places_no_order b side model.OrderTypeStopLossLimit symbol
                quantity (Some stopLimit) log) as Hlog1.
  pose proof (validate_places_no_order b side model.OrderTypeLimitMaker symbol
                quantity (Some price) (snd leg1)) as Hlog2.
  fold leg1 in Hlog1, Hlog2. fold leg2 in Hlog2. rewrite Hlog1 in Hlog2.
  subst run. unfold OrderOCO, bind. fold leg1.
  destruct leg1 as [[[err1|] | msg1] log1] eqn:Hleg1; cbn [fst snd] in *.
  - (* the stop leg is refused *)
    unfold ret. cbn [fst snd]. split; [|split].
    + intros e [= <-]. auto.
    + intros e [=].
    + intros Hsent. now destruct Hsent.
  - fold leg2. destruct leg2 as [[[err2|] | msg2] log2] eqn:Hleg2; cbn [fst snd] in *.
    + (* the take-profit leg is refused *)
      unfold ret. cbn [fst snd]. split; [|split].
      * intros e [=].
      * intros e _ [= <-]. auto.
      * intros Hsent. now destruct Hsent.
    + (* both legs passed *)
      split; [intros e [=]|]. split; [intros e _ [=]|].
      unfold viaClient. destruct (client b) as [c|].
      * intros _. unfold send, ret. now destruct (binance.CreateOCOService c _).
      * unfold panic. cbn [fst snd]. intros Hsent. now destruct Hsent.
    + split; [intros e [=]|]. split; [intros e _ [=]|].
      cbn [fst snd]. intros Hsent. now destruct Hsent.
  - split; [intros e [=]|]. split; [intros e [=]|].
    cbn [fst snd]. intros Hsent. now destruct Hsent.
Qed.

(** Instances of C6 with 100 USDT and 2 BTC free: a buy of 1 whose stop
    leg costs 101.101 is refused on the stop leg; a buy of 1 whose stop leg
    costs 90.09 and whose take-profit leg costs 110.11 is refused on the
    take-profit leg; a sell of 1 passes both and its order is sent last. *)
Lemma OrderOCO_validates_both_legs_example :
  (fst (OrderOCO Venues.broker model.SideTypeBuy "BTCUSDT" 1 110 102 101 []) =
     Returns (Err ErrInsufficientFunds) /\
   ordersPlaced (snd (OrderOCO Venues.broker model.SideTypeBuy "BTCUSDT" 1 110 102 101 [])) =
     ordersPlaced []) /\
  (fst (OrderOCO Venues.broker model.SideTypeBuy "BTCUSDT" 1 110 91 90 []) =
     Returns (Err ErrInsufficientFunds) /\
   ordersPlaced (snd (OrderOCO Venues.broker model.SideTypeBuy "BTCUSDT" 1 110 91 90 [])) =
     ordersPlaced []) /\
  snd (OrderOCO Venues.broker model.SideTypeSell "BTCUSDT" 1 110 91 90 []) =
    [binance.GetAccountRequest; binance.GetAccountRequest;
     binance.CreateOCORequest "SELL" "1.000" "110.00" "91.00" "90.00" "GTC" "BTCUSDT"].
Proof.
  pose proof (fun side stop stopLimit =>
                OrderOCO_validates_both_legs Venues.broker side "BTCUSDT"
                  1%float 110%float stop stopLimit []) as H.
  cbn zeta in H. split; [|split].
  - destruct (H model.SideTypeBuy 102%float 101%float) as (Hstop & _).
    destruct (Hstop ErrInsufficientFunds) as (Hres & _ & Hnone);
      [vm_compute; reflexivity|]. now split.
  - destruct (H model.SideTypeBuy 91%float 90%float) as (_ & Hprofit & _).
    destruct (Hprofit ErrInsufficientFunds) as (Hres & _ & Hnone);
      try (vm_compute; reflexivity). now split.
  - destruct (H model.SideTypeSell 91%float 90%float) as (_ & _ & Hsent).
    destruct Hsent as (_ & _ & ->); [vm_compute; discriminate|].
    vm_compute. reflexivity.
Defined.

(** ** Reference price of a market buy *)

(** C7: a buy without a price asks the venue for one one-minute candle of
    the symbol, and the balance check is made at the close of the candle the
    venue answers with (the first of its answer). *)
Theorem validate_market_buy_reference_price
    b c info typ symbol quantity acc k rest log :
  client b = Some c ->
  assetsInfo b !! symbol = Some info ->
  (MaxQuantity info <? quantity)%float = false ->
  (quantity <? MinQuantity info)%float = false ->
  binance.GetAccountService c (log ++ [binance.GetAccountRequest])%list = Ok acc ->
  let asked := (log ++ [binance.GetAccountRequest;
                        binance.KlinesRequest symbol "1m" (Some 1) None None])%list in
  binance.KlinesService c asked = Ok (k :: rest) ->
  let reference := fst (ParseFloat (binance.Kline.Close k)) in
  validate b model.SideTypeBuy typ symbol quantity None log =
    (Returns (if (freeOf acc (QuoteAsset info)
                  <? quantity * reference * commissionFactor b typ)%float
              then Some ErrInsufficientFunds else None),
     asked).
Proof.
  intros Hc Hinfo Hmax Hmin Hacc asked Hk reference.
  now rewrite (validate_buy_market b c info typ symbol quantity acc log
                 Hc Hinfo Hmax Hmin Hacc k rest Hk).
Qed.

(** An instance of C7: the last candle closed at 101, so a market buy of
    0.5 needs 50.5505 USDT and passes, and a market buy of 1 is refused. *)
Lemma validate_market_buy_reference_price_example :
  validate Venues.broker model.SideTypeBuy model.OrderTypeMarket "BTCUSDT" 0.5 None [] =
    (Returns None,
     [binance.GetAccountRequest; binance.KlinesRequest "BTCUSDT" "1m" (Some 1) None None]) /\
  validate Venues.broker model.SideTypeBuy model.OrderTypeMarket "BTCUSDT" 1 None [] =
    (Returns (Some ErrInsufficientFunds),
     [binance.GetAccountRequest; binance.KlinesRequest "BTCUSDT" "1m" (Some 1) None None]).
Proof.
  pose proof (fun q H1 H2 =>
                validate_market_buy_reference_price Venues.broker Venues.client
                  (infoOf Venues.broker "BTCUSDT") model.OrderTypeMarket "BTCUSDT" q
                  Venues.account (Venues.kline "101.00000000") [] []
                  ltac:(vm_compute; reflexivity) ltac:(vm_compute; reflexivity)
                  H1 H2 ltac:(vm_compute; reflexivity) ltac:(vm_compute; reflexivity)) as H.
  cbn zeta in H. split.
  - rewrite (H 0.5%float) by (vm_compute; reflexivity). vm_compute. reflexivity.
  - rewrite (H 1%float) by (vm_compute; reflexivity). vm_compute. reflexivity.
Defined.

(** ** Malformed numbers in venue responses *)






(** ** A market buy when the venue has no candle *)

(** C9 fails on the code: whenever the candle request of a buy without a
    price succeeds with an empty answer, [validate] reads [candles[0]] of an
    empty slice and panics. *)
Theorem validate_market_buy_without_candle_panics
    b c info typ symbol quantity acc log :
  client b = Some c ->
  assetsInfo b !! symbol = Some info ->
  (MaxQuantity info <? quantity)%float = false ->
  (quantity <? MinQuantity info)%float = false ->
  binance.GetAccountService c (log ++ [binance.GetAccountRequest])%list = Ok acc ->
  let asked := (log ++ [binance.GetAccountRequest;
                        binance.KlinesRequest symbol "1m" (Some 1) None None])%list in
  binance.KlinesService c asked = Ok [] ->
  fst (CandlesByLimit b symbol "1m" 1 (log ++ [binance.GetAccountRequest])%list) =
    Returns (Ok []) /\
  validate b model.SideTypeBuy typ symbol quantity None log =
    (Panics "index out of range [0] with length 0", asked).
Proof.
  intros Hc Hinfo Hmax Hmin Hacc asked Hk. split.
  - rewrite (CandlesByLimit_run b c symbol "1m" 1 _ Hc).
    rewrite <- app_assoc. cbn [app fst]. fold asked. now rewrite Hk.
  - now apply (validate_buy_market_empty b c info typ symbol quantity acc log).
Qed.

(** The failing input of C9: a market buy of 0.5 BTCUSDT on a venue that
    answers the candle request with an empty list. *)
Lemma validate_market_buy_without_candle_panics_example :
  fst (CandlesByLimit Venues.quiet "BTCUSDT" "1m" 1 ([] ++ [binance.GetAccountRequest])%list) =
    Returns (Ok []) /\
  validate Venues.quiet model.SideTypeBuy model.OrderTypeMarket "BTCUSDT" 0.5 None [] =
    (Panics "index out of range [0] with length 0",
     ([] ++ [binance.GetAccountRequest;
             binance.KlinesRequest "BTCUSDT" "1m" (Some 1) None None])%list).
Proof.
  apply (validate_market_buy_without_candle_panics Venues.quiet
           (Venues.venue "0.00100000" "0.01000000" [] "key" "secret")
           (infoOf Venues.quiet "BTCUSDT") model.OrderTypeMarket "BTCUSDT" 0.5%float
           Venues.account []);
    vm_compute; reflexivity.
Defined.

(** ** A broker without credentials *)

Lemma WithBinanceCredentials_keepsUserInfo key secret :
  keepsUserInfo (WithBinanceCredentials key secret).
Proof. intros b. reflexivity. Qed.

Lemma options_keep_userInfo options b :
  Forall keepsUserInfo options ->
  userInfo (fold_left (fun e (option : BinanceOption) => option e) options b) = userInfo b.
Proof.
  intros H. revert b. induction H as [|option options Hkeep _ IH]; intros b; cbn.
  - reflexivity.
  - now rewrite IH, Hkeep.
Qed.

(** C10: when [NewBinance] returns a broker whose key or secret is empty,
    the account was not asked for its fees: both commission rates are 0,
    and the commission factor is exactly 1 for every order type. *)
Theorem NewBinance_without_credentials NewClient options log b log' :
  Forall keepsUserInfo options ->
  NewBinance NewClient options log = (Returns (Ok b), log') ->
  APIKey b = "" \/ APISecret b = "" ->
  MakerCommission (userInfo b) = zero /\
  TakerCommission (userInfo b) = zero /\
  forall typ, commissionFactor b typ = 1%float.
Proof.
  intros Hkeep Hrun Hempty.
  assert (Huser : userInfo b = {| MakerCommission := zero; TakerCommission := zero |}).
  { unfold NewBinance in Hrun.
    set (exchange := fold_left _ options newBinance) in Hrun.
    assert (Hzero : userInfo exchange = userInfo newBinance)
      by now apply options_keep_userInfo.
    unfold bind, send, ret in Hrun. cbn [APIKey APISecret userInfo] in Hrun.
    destruct (binance.PingService _ _); [discriminate|].
    destruct (negb (String.eqb (APIKey exchange) "") &&
              negb (String.eqb (APISecret exchange) "")) eqn:Hcreds.
    - (* with credentials the broker keeps both *)
      apply andb_true_iff in Hcreds. destruct Hcreds as [Hkey Hsecret].
      apply negb_true_iff, String.eqb_neq in Hkey, Hsecret.
      destruct (binance.GetAccountService _ _); [|discriminate].
      destruct (binance.ExchangeInfoService _ _); [|discriminate].
      destruct (loadSymbols _ _ _) as [[infos|msg] log2]; [|discriminate].
      injection Hrun as <- _. cbn in Hempty. tauto.
    - destruct (binance.ExchangeInfoService _ _); [|discriminate].
      destruct (loadSymbols _ _ _) as [[infos|msg] log2]; [|discriminate].
      injection Hrun as <- _. cbn. exact Hzero. }
  rewrite Huser. cbn. split; [reflexivity|]. split; [reflexivity|].
  intros typ. unfold commissionFactor. rewrite Huser. cbn. now case_if.
Qed.

(** An instance of C10: a broker built with a key and no secret. *)
Lemma NewBinance_without_credentials_example :
  MakerCommission (userInfo Venues.anonymous) = zero /\
  TakerCommission (userInfo Venues.anonymous) = zero /\
  commissionFactor Venues.anonymous model.OrderTypeMarket = 1%float /\
  commissionFactor Venues.anonymous model.OrderTypeLimit = 1%float.
Proof.
  destruct (NewBinance_without_credentials
              (Venues.venue "0.00100000" "0.01000000" [Venues.kline "101.00000000"])
              [WithBinanceCredentials "key" ""] [] Venues.anonymous
              [binance.PingRequest; binance.ExchangeInfoRequest]
              ltac:(repeat constructor)
              ltac:(vm_compute; reflexivity)
              (or_intror eq_refl)) as (Hmaker & Htaker & Hfactor).
  repeat split; auto.
Defined.

(** ** What the formatted numbers denote *)

Lemma digitChar_spec d :
  0 <= d < 10 ->
  isDigit (digitChar d) = true /\ byteOf (digitChar d) - 48 = d /\
  (byteOf (digitChar d) =? 45) = false.
Proof.
  intros H.
  assert (Hd : d = 0 \/ d = 1 \/ d = 2 \/ d = 3 \/ d = 4 \/
               d = 5 \/ d = 6 \/ d = 7 \/ d = 8 \/ d = 9) by lia.
  repeat (destruct Hd as [-> | Hd]); try subst d; repeat split; reflexivity.
Qed.

Lemma readDigits_digit d rest acc places digit :
  0 <= d < 10 ->
  Sent.readDigits (String (digitChar d) rest) acc places digit =
  Sent.readDigits rest (10 * acc + d) (option_map (Z.add 1) places) true.
Proof.
  intros H. destruct (digitChar_spec d H) as (Hdigit & Hval & _).
  cbn [Sent.readDigits]. now rewrite Hdigit, Hval.
Qed.

(** Reading [w] fixed digits appends them to the number read so far. *)
Lemma readDigits_fixedDigits w : forall n rest acc p digit,
  0 <= n ->
  Sent.readDigits (fixedDigits (S w) n rest) acc (Some p) digit =
  Sent.readDigits rest (acc * 10 ^ Z.of_nat (S w) + n mod 10 ^ Z.of_nat (S w))
    (Some (p + Z.of_nat (S w))) true.
Proof.
  induction w as [|w IH]; intros n rest acc p digit Hn.
  - cbn [fixedDigits]. rewrite readDigits_digit by (apply Z.mod_pos_bound; lia).
    cbn [option_map]. change (10 ^ Z.of_nat 1) with 10.
    f_equal; [lia | f_equal; lia].
  - change (fixedDigits (S (S w)) n rest)
      with (fixedDigits (S w) (n / 10) (String (digitChar (n mod 10)) rest)).
    rewrite IH by (apply Z.div_pos; lia).
    rewrite readDigits_digit by (apply Z.mod_pos_bound; lia).
    cbn [option_map]. rewrite (Nat2Z.inj_succ (S w)), Z.pow_succ_r by lia.
    rewrite (Z.rem_mul_r n 10 (10 ^ Z.of_nat (S w))) by lia.
    f_equal; [lia | f_equal; lia].
Qed.

(** Reading the digits of [n] from nothing gives [n]. *)
Lemma readDigits_utoaFuel fuel : forall n rest digit,
  0 <= n < 2 ^ Z.of_nat fuel ->
  fuel <> O ->
  Sent.readDigits (utoaFuel fuel n rest) 0 None digit = Sent.readDigits rest n None true.
Proof.
  induction fuel as [|fuel IH]; intros n rest digit Hn Hfuel; [easy|].
  cbn [utoaFuel]. rewrite Nat2Z.inj_succ, Z.pow_succ_r in Hn by lia.
  destruct (Z.ltb_spec n 10).
  - rewrite readDigits_digit by (apply Z.mod_pos_bound; lia).
    rewrite Z.mod_small by lia. reflexivity.
  - assert (Hdiv : 1 <= n / 10 < 2 ^ Z.of_nat fuel).
    { split; [apply Z.div_le_lower_bound; lia | apply Z.div_lt_upper_bound; lia]. }
    rewrite IH.
    + rewrite readDigits_digit by (apply Z.mod_pos_bound; lia).
      cbn [option_map]. f_equal. pose proof (Z.div_mod n 10). lia.
    + lia.
    + intros ->. change (2 ^ Z.of_nat 0) with 1 in Hdiv. lia.
Qed.

Lemma readDigits_utoa n rest digit :
  0 <= n -> Sent.readDigits (utoa n rest) 0 None digit = Sent.readDigits rest n None true.
Proof.
  intros Hn. unfold utoa. apply readDigits_utoaFuel; [|easy].
  split; [exact Hn|]. rewrite Nat2Z.inj_succ, Z2Nat.id by apply Z.log2_nonneg.
  destruct (Z.eq_dec n 0) as [-> | Hpos]; [reflexivity|].
  apply Z.log2_spec. lia.
Qed.

(** The digits of a number never start with a minus sign. *)
Lemma utoaFuel_head fuel : forall n d rest,
  0 <= d < 10 ->
  exists d' tl, 0 <= d' < 10 /\
    utoaFuel fuel n (String (digitChar d) rest) = String (digitChar d') tl.
Proof.
  induction fuel as [|fuel IH]; intros n d rest Hd; [now exists d, rest|].
  cbn [utoaFuel]. destruct (n <? 10).
  - exists (n mod 10). eexists. split; [apply Z.mod_pos_bound; lia | reflexivity].
  - apply IH. apply Z.mod_pos_bound. lia.
Qed.

Lemma numeral_utoa n rest :
  0 <= n -> Sent.numeral (utoa n rest) = Sent.readDigits rest n None true.
Proof.
  intros Hn. rewrite <- (readDigits_utoa n rest false Hn). unfold utoa.
  assert (Hhead : exists d tl, 0 <= d < 10 /\
            utoaFuel (S (Z.to_nat (Z.log2 n))) n rest = String (digitChar d) tl).
  { cbn [utoaFuel]. destruct (n <? 10).
    - exists (n mod 10), rest. split; [apply Z.mod_pos_bound; lia | reflexivity].
    - apply utoaFuel_head. apply Z.mod_pos_bound. lia. }
  destruct Hhead as (d & tl & Hd & ->).
  unfold Sent.numeral. now destruct (digitChar_spec d Hd) as (_ & _ & ->).
Qed.

Lemma readDigits_point rest acc :
  Sent.readDigits (String "." rest) acc None true = Sent.readDigits rest acc (Some 0) false.
Proof. reflexivity. Qed.

(** [fmtF] writes the numeral of [N * 10^(-prec)], signed. *)
Lemma numeral_fmtF neg N prec :
  0 <= N ->
  Sent.numeral (fmtF neg N prec) = Some (if neg then - N else N, Z.of_nat prec).
Proof.
  intros HN. unfold fmtF.
  set (p := 10 ^ Z.of_nat prec).
  set (frac := match prec with O => "" | S _ => _ end).
  assert (Hp : 0 < p) by (apply Z.pow_pos_nonneg; lia).
  assert (Hdiv : 0 <= N / p) by (apply Z.div_pos; lia).
  assert (Hfrac : Sent.readDigits frac (N / p) None true = Some (N, Z.of_nat prec)).
  { subst frac. destruct prec as [|prec'].
    - cbn [Sent.readDigits default]. subst p. change (10 ^ Z.of_nat 0) with 1.
      now rewrite Z.div_1_r.
    - rewrite readDigits_point.
      rewrite readDigits_fixedDigits by (apply Z.mod_pos_bound; lia).
      cbn [Sent.readDigits default]. fold p. rewrite Z.mod_mod by lia.
      assert (N / p * p + N mod p = N) by (pose proof (Z.div_mod N p); lia).
      repeat f_equal; lia. }
  destruct neg.
  - change ("-" +:+ utoa (N / p) frac) with (String "-" (utoa (N / p) frac)).
    unfold Sent.numeral. change (byteOf "-" =? 45) with true. cbn iota.
    now rewrite readDigits_utoa, Hfrac.
  - change ("" +:+ utoa (N / p) frac) with (utoa (N / p) frac).
    now rewrite numeral_utoa.
Qed.

Lemma roundHalfEven_nonneg n d : 0 <= n -> 0 < d -> 0 <= roundHalfEven n d.
Proof.
  intros Hn Hd. unfold roundHalfEven.
  assert (0 <= n / d) by (apply Z.div_pos; lia).
  destruct (_ ?= _); [destruct (Z.even _)| |]; lia.
Qed.

Lemma scaled_nonneg m e p : 0 <= scaled m e p.
Proof.
  unfold scaled, scale. cbn [fst snd].
  assert (0 <= 10 ^ p) by (apply Z.pow_nonneg; lia).
  assert (0 <= 2 ^ e) by (apply Z.pow_nonneg; lia).
  assert (0 <= 2 ^ (- e)) by (apply Z.pow_nonneg; lia).
  assert (e < 0 -> 0 < 2 ^ (- e)) by (intros; apply Z.pow_pos_nonneg; lia).
  destruct (Z.leb_spec 0 e); cbn [fst snd]; apply roundHalfEven_nonneg; nia.
Qed.

(** A finite float formatted with [prec >= 0] decimals is the numeral of an
    integer multiple of [10^(-prec)]. *)
Lemma numeral_FormatFloat f prec :
  isFinite f = true -> 0 <= prec ->
  exists n, Sent.numeral (FormatFloat f prec) = Some (n, prec).
Proof.
  intros Hfin Hprec. unfold isFinite in Hfin. unfold FormatFloat.
  destruct (Prim2SF f) as [s | s | | s m e]; try discriminate.
  - eexists. rewrite numeral_fmtF by lia. now rewrite Z2Nat.id.
  - destruct (Z.ltb_spec prec 0); [lia|].
    eexists. rewrite numeral_fmtF by apply scaled_nonneg. now rewrite Z2Nat.id.
Qed.

(** ** The table built by [NewBinance] *)

Lemma bind_inv {A B} (m : M A) (k : A -> M B) log r log' :
  bind m k log = (Returns r, log') ->
  exists a log1, m log = (Returns a, log1) /\ k a log1 = (Returns r, log').
Proof.
  unfold bind. destruct (m log) as [[a | msg] log1]; [|discriminate].
  intros H. now exists a, log1.
Qed.

Lemma ret_inv {A} (a r : A) log log' :
  ret a log = (Returns r, log') -> r = a /\ log' = log.
Proof. unfold ret. now intros [= <- <-]. Qed.

Lemma afterPoint_nonneg s n : model.afterPoint s = Some n -> 0 <= n.
Proof.
  induction s as [|c s IH]; cbn; [discriminate|].
  destruct (byteOf c =? 46); [|exact IH].
  intros [= <-]. unfold len. lia.
Qed.

Lemma NumDecPlaces_nonneg v : 0 <= model.NumDecPlaces v.
Proof.
  unfold model.NumDecPlaces.
  destruct (model.afterPoint _) as [n|] eqn:H; [|lia].
  now apply afterPoint_nonneg in H.
Qed.

Lemma applyFilter_precision limits filter log r log' :
  precisionFromSizes limits ->
  applyFilter limits filter log = (Returns r, log') ->
  precisionFromSizes r.
Proof.
  intros Hlimits. unfold applyFilter.
  destruct (filter !! "filterType") as [typ|]; [|now intros [= <- _]].
  intros Hrun. apply bind_inv in Hrun. destruct Hrun as (limits1 & log1 & Hlot & Hprice).
  assert (H1 : precisionFromSizes limits1).
  { destruct typ as [|t| |]; try (apply ret_inv in Hlot; now destruct Hlot as [-> _]).
    destruct (String.eqb t binance.SymbolFilterTypeLotSize);
      [|apply ret_inv in Hlot; now destruct Hlot as [-> _]].
    apply bind_inv in Hlot. destruct Hlot as (minQty & l1 & _ & Hlot).
    apply bind_inv in Hlot. destruct Hlot as (maxQty & l2 & _ & Hlot).
    apply bind_inv in Hlot. destruct Hlot as (stepSize & l3 & _ & Hlot).
    apply ret_inv in Hlot. destruct Hlot as [-> _].
    destruct Hlimits as [_ Hp]. now split. }
  destruct typ as [|t| |]; try (apply ret_inv in Hprice; now destruct Hprice as [-> _]).
  destruct (String.eqb t binance.SymbolFilterTypePriceFilter);
    [|apply ret_inv in Hprice; now destruct Hprice as [-> _]].
  apply bind_inv in Hprice. destruct Hprice as (minPrice & l1 & _ & Hprice).
  apply bind_inv in Hprice. destruct Hprice as (maxPrice & l2 & _ & Hprice).
  apply bind_inv in Hprice. destruct Hprice as (tickSize & l3 & _ & Hprice).
  apply ret_inv in Hprice. destruct Hprice as [-> _].
  destruct H1 as [Hq _]. now split.
Qed.

Lemma applyFilters_precision filters : forall limits log r log',
  precisionFromSizes limits ->
  applyFilters limits filters log = (Returns r, log') ->
  precisionFromSizes r.
Proof.
  induction filters as [|filter filters IH]; intros limits log r log' Hlimits Hrun.
  - apply ret_inv in Hrun. now destruct Hrun as [-> _].
  - cbn [applyFilters] in Hrun. apply bind_inv in Hrun.
    destruct Hrun as (limits1 & log1 & Hone & Hrest).
    eapply IH; [|exact Hrest]. eapply applyFilter_precision; eassumption.
Qed.

Lemma loadSymbols_precision symbols : forall (infos : gmap string AssetInfo) log r log',
  map_Forall (fun _ info => precisionFromSizes info) infos ->
  loadSymbols symbols infos log = (Returns r, log') ->
  map_Forall (fun _ info => precisionFromSizes info) r.
Proof.
  induction symbols as [|info symbols IH]; intros infos log r log' Hinfos Hrun.
  - apply ret_inv in Hrun. now destruct Hrun as [-> _].
  - cbn [loadSymbols] in Hrun. apply bind_inv in Hrun.
    destruct Hrun as (limits & log1 & Hlimits & Hrest).
    eapply IH; [|exact Hrest].
    apply map_Forall_insert_2; [|exact Hinfos].
    eapply applyFilters_precision; [|exact Hlimits].
    split; vm_compute; reflexivity.
Qed.

(** Every symbol of the table [NewBinance] builds has the precisions of its
    step and tick sizes. *)
Lemma NewBinance_precision NewClient options log b log' symbol info :
  NewBinance NewClient options log = (Returns (Ok b), log') ->
  assetsInfo b !! symbol = Some info ->
  precisionFromSizes info.
Proof.
  unfold NewBinance. set (exchange := fold_left _ options newBinance).
  cbn [APIKey APISecret userInfo].
  intros Hrun Hinfo.
  apply bind_inv in Hrun. destruct Hrun as (ping & l1 & _ & Hrun).
  destruct ping; [apply ret_inv in Hrun; now destruct Hrun|].
  apply bind_inv in Hrun. destruct Hrun as (user & l2 & _ & Hrun).
  destruct user as [user | err]; [|apply ret_inv in Hrun; now destruct Hrun].
  apply bind_inv in Hrun. destruct Hrun as (results & l3 & _ & Hrun).
  destruct results as [results | err]; [|apply ret_inv in Hrun; now destruct Hrun].
  apply bind_inv in Hrun. destruct Hrun as (infos & l4 & Hload & Hrun).
  apply ret_inv in Hrun. destruct Hrun as [[= ->] _]. cbn in Hinfo.
  eapply (loadSymbols_precision _ ∅ _ _ _ (map_Forall_empty _) Hload); eassumption.
Qed.

(** ** Quantization *)

(** [OrderLimit] places at most one order, with the formatted quantity and
    price. *)
Lemma OrderLimit_placed b side symbol quantity limit log :
  let sent := ordersPlaced (snd (OrderLimit b side symbol quantity limit log)) in
  sent = ordersPlaced log \/
  sent = (ordersPlaced log ++
          [binance.CreateOrderRequest symbol binance.OrderTypeLimit
             (Some binance.TimeInForceTypeGTC) side
             (formatQuantity b symbol quantity)
             (Some (formatPrice b symbol limit)) None])%list.
Proof.
  intros sent. subst sent. unfold OrderLimit, bind.
  pose proof (validate_places_no_order b side model.OrderTypeLimit symbol
                quantity (Some limit) log) as Hlog.
  destruct (validate _ _ _ _ _ _ _) as [[[err|] | msg] log1]; cbn [snd] in *;
    try (left; exact Hlog).
  unfold viaClient. destruct (client b) as [c|]; [|left; exact Hlog].
  right. unfold send, ret.
  destruct (binance.CreateOrderService c _); cbn [snd];
    now rewrite ordersPlaced_app, Hlog.
Qed.

(** C4, as the code has it: for a broker built by [NewBinance], a symbol of
    its table and a finite quantity and price, the quantity sent is a
    decimal numeral with as many decimals as the step size of the symbol,
    and the price sent one with as many decimals as its tick size: integer
    multiples of 10 to the power minus that number of decimals.  These are
    the numbers of the order that [OrderLimit] places. *)
Theorem sent_numbers_have_the_decimals_of_the_sizes
    NewClient options log b log' side symbol info quantity price :
  NewBinance NewClient options log = (Returns (Ok b), log') ->
  assetsInfo b !! symbol = Some info ->
  isFinite quantity = true ->
  isFinite price = true ->
  let decimals size n sent := Sent.numeral sent = Some (n, model.NumDecPlaces size) in
  (exists n, decimals (StepSize info) n (formatQuantity b symbol quantity)) /\
  (exists n, decimals (TickSize info) n (formatPrice b symbol price)) /\
  (ordersPlaced (snd (OrderLimit b side symbol quantity price [])) = [] \/
   exists q p n m,
     ordersPlaced (snd (OrderLimit b side symbol quantity price [])) =
       [binance.CreateOrderRequest symbol "LIMIT" (Some "GTC") side q (Some p) None] /\
     decimals (StepSize info) n q /\ decimals (TickSize info) m p).
Proof.
  intros Hnew Hinfo Hq Hp decimals. subst decimals. cbn beta.
  destruct (NewBinance_precision _ _ _ _ _ _ _ Hnew Hinfo) as [Hqty Hprice].
  assert (Hquantity : exists n, Sent.numeral (formatQuantity b symbol quantity) =
                                  Some (n, model.NumDecPlaces (StepSize info))).
  { unfold formatQuantity. rewrite Hinfo, Hqty.
    apply numeral_FormatFloat; auto using NumDecPlaces_nonneg. }
  assert (Hlimit : exists n, Sent.numeral (formatPrice b symbol price) =
                               Some (n, model.NumDecPlaces (TickSize info))).
  { unfold formatPrice. rewrite Hinfo, Hprice.
    apply numeral_FormatFloat; auto using NumDecPlaces_nonneg. }
  split; [exact Hquantity|]. split; [exact Hlimit|].
  destruct (OrderLimit_placed b side symbol quantity price []) as [-> | ->];
    [now left|right].
  destruct Hquantity as [n Hn], Hlimit as [m Hm].
  now exists (formatQuantity b symbol quantity), (formatPrice b symbol price), n, m.
Qed.

(** An instance of C4: BTCUSDT with step 0.5 and tick 0.05, and a sell of
    1.2 at 100.03. *)
Lemma sent_numbers_have_the_decimals_of_the_sizes_example :
  let info := infoOf Venues.coarse "BTCUSDT" in
  let run := OrderLimit Venues.coarse model.SideTypeSell "BTCUSDT" 1.2 100.03 [] in
  (exists n, Sent.numeral (formatQuantity Venues.coarse "BTCUSDT" 1.2) =
               Some (n, model.NumDecPlaces (StepSize info))) /\
  (exists n, Sent.numeral (formatPrice Venues.coarse "BTCUSDT" 100.03) =
               Some (n, model.NumDecPlaces (TickSize info))) /\
  (ordersPlaced (snd run) = [] \/
   exists q p n m,
     ordersPlaced (snd run) =
       [binance.CreateOrderRequest "BTCUSDT" "LIMIT" (Some "GTC") model.SideTypeSell
          q (Some p) None] /\
     Sent.numeral q = Some (n, model.NumDecPlaces (StepSize info)) /\
     Sent.numeral p = Some (m, model.NumDecPlaces (TickSize info))).
Proof.
  apply (sent_numbers_have_the_decimals_of_the_sizes
           (Venues.venue "0.50000000" "0.05000000" [Venues.kline "101.00000000"])
           [WithBinanceCredentials "key" "secret"] [] Venues.coarse
           [binance.PingRequest; binance.GetAccountRequest; binance.ExchangeInfoRequest]
           model.SideTypeSell "BTCUSDT" (infoOf Venues.coarse "BTCUSDT")
           1.2%float 100.03%float);
    vm_compute; reflexivity.
Defined.

(** C4 fails on the code: BTCUSDT has step 0.5 and tick 0.05, both pass
    validation for a sell of 1.2 at 100.03, and the order is sent with
    quantity 1.2, which is not a multiple of 0.5, and price 100.03, which is
    not a multiple of 0.05. *)
Lemma sent_numbers_are_not_multiples_of_the_sizes :
  StepSize (infoOf Venues.coarse "BTCUSDT") = 0.5%float /\
  TickSize (infoOf Venues.coarse "BTCUSDT") = 0.05%float /\
  snd (OrderLimit Venues.coarse model.SideTypeSell "BTCUSDT" 1.2 100.03 []) =
    [binance.GetAccountRequest;
     binance.CreateOrderRequest "BTCUSDT" "LIMIT" (Some "GTC") "SELL" "1.2"
       (Some "100.03") None] /\
  Sent.multipleOfSize (formatQuantity Venues.coarse "BTCUSDT" 1.2)
    (StepSize (infoOf Venues.coarse "BTCUSDT")) = false /\
  Sent.multipleOfSize (formatPrice Venues.coarse "BTCUSDT" 100.03)
    (TickSize (infoOf Venues.coarse "BTCUSDT")) = false.
Proof. vm_compute. repeat split; reflexivity. Qed.

(** C3, as the code has it: for a symbol with step size 0.001 and tick size
    0.01, whose precisions are the decimals of these sizes, the quantity
    1.23456 is formatted as 1.235, rounded to the nearest thousandth, and
    the price 100.004 as 100.00. *)
Theorem format_rounds_to_nearest b symbol info :
  assetsInfo b !! symbol = Some info ->
  StepSize info = 0.001%float ->
  TickSize info = 0.01%float ->
  precisionFromSizes info ->
  formatQuantity b symbol 1.23456 = "1.235" /\
  formatPrice b symbol 100.004 = "100.00".
Proof.
  intros Hinfo Hstep Htick [Hqty Hprice].
  unfold formatQuantity, formatPrice.
  rewrite Hinfo, Hqty, Hprice, Hstep, Htick.
  split; vm_compute; reflexivity.
Qed.

(** The instance of C3 on the table built from a venue that states the step
    size 0.00100000 and the tick size 0.01000000. *)
Lemma format_rounds_to_nearest_example :
  formatQuantity Venues.broker "BTCUSDT" 1.23456 = "1.235" /\
  formatPrice Venues.broker "BTCUSDT" 100.004 = "100.00".
Proof.
  apply (format_rounds_to_nearest Venues.broker "BTCUSDT" (infoOf Venues.broker "BTCUSDT"));
    try split; vm_compute; reflexivity.
Defined.

(** C3 fails on the code: with step size 0.001 the quantity 1.23456 is not
    formatted as 1.234. *)
Lemma quantity_is_not_truncated :
  StepSize (infoOf Venues.broker "BTCUSDT") = 0.001%float /\
  TickSize (infoOf Venues.broker "BTCUSDT") = 0.01%float /\
  formatQuantity Venues.broker "BTCUSDT" 1.23456 <> "1.234".
Proof. repeat split; try (vm_compute; reflexivity). vm_compute. discriminate. Qed.

(** * Further properties of the broker *)

(** ** Orders on a symbol the table does not hold *)

Lemma validate_unknown b side typ symbol quantity value log :
  assetsInfo b !! symbol = None ->
  validate b side typ symbol quantity value log = (Returns (Some ErrInvalidAsset), log).
Proof. intros H. unfold validate. now rewrite H. Qed.

(** X1: an order on a symbol that is not in the table is refused with
    [ErrInvalidAsset] by [validate], [OrderLimit], [OrderMarket] and
    [OrderOCO] alike, before anything is sent to the venue: the log of
    requests is unchanged (so this holds even for a broker without a
    client). *)
Theorem unknown_symbol_is_refused_unsent
    b side typ symbol quantity value price stop stopLimit log :
  assetsInfo b !! symbol = None ->
  validate b side typ symbol quantity value log = (Returns (Some ErrInvalidAsset), log) /\
  OrderLimit b side symbol quantity price log = (Returns (Err ErrInvalidAsset), log) /\
  OrderMarket b side symbol quantity log = (Returns (Err ErrInvalidAsset), log) /\
  OrderOCO b side symbol quantity price stop stopLimit log =
    (Returns (Err ErrInvalidAsset), log).
Proof.
  intros H. split; [now apply validate_unknown|].
  unfold OrderLimit, OrderMarket, OrderOCO.
  rewrite !(bind_returns _ _ _ _ _ (validate_unknown b _ _ _ _ _ _ H)).
  now repeat split.
Qed.

(** An instance of X1: ETHUSDT is not listed by the venue. *)
Lemma unknown_symbol_is_refused_unsent_example :
  validate Venues.broker model.SideTypeBuy model.OrderTypeLimit "ETHUSDT" 1 (Some 10%float) [] =
    (Returns (Some ErrInvalidAsset), []) /\
  OrderLimit Venues.broker model.SideTypeBuy "ETHUSDT" 1 10 [] =
    (Returns (Err ErrInvalidAsset), []) /\
  OrderMarket Venues.broker model.SideTypeBuy "ETHUSDT" 1 [] =
    (Returns (Err ErrInvalidAsset), []) /\
  OrderOCO Venues.broker model.SideTypeBuy "ETHUSDT" 1 10 9 8 [] =
    (Returns (Err ErrInvalidAsset), []).
Proof.
  apply (unknown_symbol_is_refused_unsent Venues.broker model.SideTypeBuy
           model.OrderTypeLimit "ETHUSDT" 1%float (Some 10%float) 10%float 9%float 8%float []).
  vm_compute. reflexivity.
Defined.

(** ** What [validate] sends *)

(** X2: [validate] only reads from the venue.  Whatever its arguments, it
    keeps the requests already logged and adds nothing, or one account
    request, or one account request followed by one request for a single
    one-minute candle of the symbol; the candle is only asked for by a buy
    without a price. *)
Theorem validate_only_reads b side typ symbol quantity value log :
  let log' := snd (validate b side typ symbol quantity value log) in
  let candle := binance.KlinesRequest symbol "1m" (Some 1) None None in
  log' = log \/
  log' = (log ++ [binance.GetAccountRequest])%list \/
  (log' = (log ++ [binance.GetAccountRequest; candle])%list /\
   side = model.SideTypeBuy /\ value = None).
Proof.
  intros log' candle. subst log'. unfold validate.
  destruct (assetsInfo b !! symbol) as [info|]; [|now left].
  case_if; [now left|].
  destruct (client b) as [c|] eqn:Hc.
  - rewrite (bind_returns _ _ _ _ _ (Account_run b c log Hc)).
    destruct (binance.GetAccountService c _) as [acc | err]; [|right; now left].
    destruct (String.eqb_spec side model.SideTypeBuy) as [-> | Hside].
    + destruct value as [price|].
      * right; left. unfold bind, ret. cbn. case_if; cbn; first [easy | now case_if].
      * right; right. split; [|easy].
        pose proof (CandlesByLimit_run b c symbol "1m" 1
                      (log ++ [binance.GetAccountRequest])%list Hc) as Hrun.
        cbn zeta in Hrun. rewrite <- app_assoc in Hrun. cbn [app] in Hrun.
        cbn [String.eqb model.SideTypeBuy Ascii.eqb Bool.eqb].
        destruct (binance.KlinesService c _) as [[|k ks] | err];
          unfold bind, ret, panic; rewrite Hrun; cbn; try easy.
        case_if; cbn; first [easy | now case_if].
    + right; left. unfold bind, ret. cbn.
      destruct (String.eqb side model.SideTypeSell); cbn; [|reflexivity].
      now case_if.
  - left. unfold bind, Account, viaClient, panic. now rewrite Hc.
Qed.

(** X3: for any side but buy, [validate] does not look at the price: with
    and without a price, and whatever the price, it sends the same requests
    and returns the same result. *)
Theorem validate_price_matters_to_buys_only b side typ symbol quantity value1 value2 log :
  side <> model.SideTypeBuy ->
  validate b side typ symbol quantity value1 log =
  validate b side typ symbol quantity value2 log.
Proof.
  intros Hside. apply String.eqb_neq in Hside. unfold validate.
  destruct (assetsInfo b !! symbol) as [info|]; [|reflexivity].
  case_if; [reflexivity|].
  unfold bind. destruct (Account b log) as [[[account | err] | msg] log1]; try reflexivity.
  now rewrite Hside.
Qed.

(** An instance of X3: a sell of 1 BTC at 110 and at no price. *)
Lemma validate_price_matters_to_buys_only_example :
  validate Venues.broker model.SideTypeSell model.OrderTypeLimit "BTCUSDT" 1
    (Some 110%float) [] =
  validate Venues.broker model.SideTypeSell model.OrderTypeLimit "BTCUSDT" 1 None [].
Proof.
  apply (validate_price_matters_to_buys_only Venues.broker model.SideTypeSell).
  discriminate.
Defined.

(** X4: [validate] checks balances for the sides buy and sell only.  For any
    other side, a quantity within the bounds of a known symbol is accepted
    as soon as the account was fetched, whatever the balances. *)
Theorem validate_accepts_other_sides b c info side typ symbol quantity value acc log :
  client b = Some c ->
  assetsInfo b !! symbol = Some info ->
  (MaxQuantity info <? quantity)%float = false ->
  (quantity <? MinQuantity info)%float = false ->
  binance.GetAccountService c (log ++ [binance.GetAccountRequest])%list = Ok acc ->
  side <> model.SideTypeBuy ->
  side <> model.SideTypeSell ->
  validate b side typ symbol quantity value log =
    (Returns None, (log ++ [binance.GetAccountRequest])%list).
Proof.
  intros Hc Hinfo Hmax Hmin Hacc Hbuy Hsell.
  apply String.eqb_neq in Hbuy, Hsell.
  rewrite (validate_not_buy b c info typ symbol quantity acc log) by assumption.
  now rewrite Hsell.
Qed.

(** An instance of X4: a quantity of 9000 BTC with the side left empty. *)
Lemma validate_accepts_other_sides_example :
  validate Venues.broker "" model.OrderTypeLimit "BTCUSDT" 9000 (Some 1000000%float) [] =
    (Returns None, ([] ++ [binance.GetAccountRequest])%list).
Proof.
  apply (validate_accepts_other_sides Venues.broker Venues.client
           (infoOf Venues.broker "BTCUSDT") "" model.OrderTypeLimit "BTCUSDT"
           9000%float (Some 1000000%float) Venues.account []);
    try discriminate; vm_compute; reflexivity.
Defined.

(** ** Errors of the venue during validation *)

(** X5: [validate] returns the venue's errors as they are.  For a known
    symbol and a quantity within bounds, a failed account request ends the
    validation with that error and nothing more is sent, not even the candle
    request of a buy without a price; and when the account was fetched, a
    failed candle request ends such a buy with the error of that request. *)
Theorem validate_returns_venue_errors b c info side typ symbol quantity value err log :
  client b = Some c ->
  assetsInfo b !! symbol = Some info ->
  (MaxQuantity info <? quantity)%float = false ->
  (quantity <? MinQuantity info)%float = false ->
  let log1 := (log ++ [binance.GetAccountRequest])%list in
  let log2 := (log ++ [binance.GetAccountRequest;
                       binance.KlinesRequest symbol "1m" (Some 1) None None])%list in
  (binance.GetAccountService c log1 = Err err ->
   validate b side typ symbol quantity value log = (Returns (Some err), log1)) /\
  (forall acc,
     binance.GetAccountService c log1 = Ok acc ->
     binance.KlinesService c log2 = Err err ->
     validate b model.SideTypeBuy typ symbol quantity None log = (Returns (Some err), log2)).
Proof.
  intros Hc Hinfo Hmax Hmin log1 log2. subst log1 log2. split.
  - intros Hacc. unfold validate. rewrite Hinfo, Hmax, Hmin. cbn [orb].
    now rewrite (bind_returns _ _ _ _ _ (Account_run b c log Hc)), Hacc.
  - intros acc Hacc Hk. unfold validate. rewrite Hinfo, Hmax, Hmin. cbn [orb].
    rewrite (bind_returns _ _ _ _ _ (Account_run b c log Hc)), Hacc.
    cbn [String.eqb model.SideTypeBuy Ascii.eqb Bool.eqb].
    pose proof (CandlesByLimit_run b c symbol "1m" 1
                  (log ++ [binance.GetAccountRequest])%list Hc) as Hrun.
    cbn zeta in Hrun. rewrite <- app_assoc in Hrun.
    cbn [app] in Hrun. rewrite Hk in Hrun.
    unfold bind, ret. now rewrite Hrun.
Qed.

(** An instance of X5: the venue refuses every request for the account, or
    every request for candles, with its own error. *)
Lemma validate_returns_venue_errors_example :
  let down := apiError "service unavailable" in
  let noAccount := Venues.withServices Venues.client (fun _ => Err down)
                     (binance.KlinesService Venues.client) in
  let noCandles := Venues.withServices Venues.client
                     (binance.GetAccountService Venues.client) (fun _ => Err down) in
  validate (Venues.through Venues.broker noAccount) model.SideTypeBuy model.OrderTypeMarket
    "BTCUSDT" 1 None [] =
    (Returns (Some down), ([] ++ [binance.GetAccountRequest])%list) /\
  validate (Venues.through Venues.broker noCandles) model.SideTypeBuy model.OrderTypeMarket
    "BTCUSDT" 1 None [] =
    (Returns (Some down),
     ([] ++ [binance.GetAccountRequest;
             binance.KlinesRequest "BTCUSDT" "1m" (Some 1) None None])%list).
Proof.
  intros down noAccount noCandles. split.
  - apply (proj1 (validate_returns_venue_errors (Venues.through Venues.broker noAccount)
                    noAccount (infoOf Venues.broker "BTCUSDT") model.SideTypeBuy
                    model.OrderTypeMarket "BTCUSDT" 1%float None down []
                    eq_refl ltac:(vm_compute; reflexivity)
                    ltac:(vm_compute; reflexivity) ltac:(vm_compute; reflexivity))).
    reflexivity.
  - apply (proj2 (validate_returns_venue_errors (Venues.through Venues.broker noCandles)
                    noCandles (infoOf Venues.broker "BTCUSDT") model.SideTypeBuy
                    model.OrderTypeMarket "BTCUSDT" 1%float None down []
                    eq_refl ltac:(vm_compute; reflexivity)
                    ltac:(vm_compute; reflexivity) ltac:(vm_compute; reflexivity))
             Venues.account); reflexivity.
Defined.

(** ** A quantity that is not a number *)

Lemma is_nan_Prim2SF x : is_nan x = true -> Prim2SF x = S754_nan.
Proof. intros H. unfold Prim2SF. now rewrite H. Qed.

Lemma ltb_nan x y : Prim2SF x = S754_nan \/ Prim2SF y = S754_nan -> (x <? y)%float = false.
Proof.
  rewrite FloatAxioms.ltb_spec. unfold SFltb.
  intros [-> | ->]; [reflexivity|]. now destruct (Prim2SF x).
Qed.

Lemma mul_nan x y :
  Prim2SF x = S754_nan \/ Prim2SF y = S754_nan -> Prim2SF (x * y)%float = S754_nan.
Proof.
  rewrite FloatAxioms.mul_spec. unfold SF64mul.
  intros [-> | ->]; [reflexivity|]. now destruct (Prim2SF x).
Qed.

(** X6: a quantity that is NaN passes [validate].  No comparison with a NaN
    holds, so for a known symbol neither the bounds nor the balance check
    refuses it, whatever the side, the price and the balances; its formatted
    form is "NaN", and [OrderLimit] sends the order with that quantity. *)
Theorem nan_quantity_passes_validation b c info side typ symbol quantity price acc log :
  client b = Some c ->
  assetsInfo b !! symbol = Some info ->
  binance.GetAccountService c (log ++ [binance.GetAccountRequest])%list = Ok acc ->
  is_nan quantity = true ->
  validate b side typ symbol quantity (Some price) log =
    (Returns None, (log ++ [binance.GetAccountRequest])%list) /\
  formatQuantity b symbol quantity = "NaN" /\
  snd (OrderLimit b side symbol quantity price log) =
    (log ++ [binance.GetAccountRequest;
             binance.CreateOrderRequest symbol "LIMIT" (Some "GTC") side "NaN"
               (Some (formatPrice b symbol price)) None])%list.
Proof.
  intros Hc Hinfo Hacc Hnan. apply is_nan_Prim2SF in Hnan.
  assert (Hmax : (MaxQuantity info <? quantity)%float = false) by (apply ltb_nan; auto).
  assert (Hmin : (quantity <? MinQuantity info)%float = false) by (apply ltb_nan; auto).
  assert (Hformat : formatQuantity b symbol quantity = "NaN").
  { unfold formatQuantity, FormatFloat. now rewrite Hnan. }
  assert (Hpass : forall typ,
            validate b side typ symbol quantity (Some price) log =
              (Returns None, (log ++ [binance.GetAccountRequest])%list)).
  { intros typ'. destruct (String.eqb_spec side model.SideTypeBuy) as [-> | Hside].
    - rewrite (validate_buy_priced b c info typ' symbol quantity acc log) by assumption.
      unfold fundsVerdict. rewrite ltb_nan; [reflexivity|].
      right. apply mul_nan. left. apply mul_nan. now left.
    - apply String.eqb_neq in Hside.
      rewrite (validate_not_buy b c info typ' symbol quantity acc log) by assumption.
      destruct (String.eqb side model.SideTypeSell); [|reflexivity].
      unfold fundsVerdict. rewrite ltb_nan; [reflexivity|].
      right. apply mul_nan. now left. }
  split; [apply Hpass|]. split; [exact Hformat|].
  unfold OrderLimit. rewrite (bind_returns _ _ _ _ _ (Hpass model.OrderTypeLimit)).
  rewrite (bind_returns _ _ _ _ _ (viaClient_run b c _ _ _ Hc)).
  rewrite Hformat, <- app_assoc. cbn [app].
  now destruct (binance.CreateOrderService c _).
Qed.

(** An instance of X6: a buy of NaN BTC at 1000000 with 100 USDT free. *)
Lemma nan_quantity_passes_validation_example :
  validate Venues.broker model.SideTypeBuy model.OrderTypeLimit "BTCUSDT" nan
    (Some 1000000%float) [] =
    (Returns None, ([] ++ [binance.GetAccountRequest])%list) /\
  formatQuantity Venues.broker "BTCUSDT" nan = "NaN" /\
  snd (OrderLimit Venues.broker model.SideTypeBuy "BTCUSDT" nan 1000000 []) =
    ([] ++ [binance.GetAccountRequest;
            binance.CreateOrderRequest "BTCUSDT" "LIMIT" (Some "GTC") model.SideTypeBuy "NaN"
              (Some (formatPrice Venues.broker "BTCUSDT" 1000000)) None])%list.
Proof.
  apply (nan_quantity_passes_validation Venues.broker Venues.client
           (infoOf Venues.broker "BTCUSDT") model.SideTypeBuy model.OrderTypeLimit
           "BTCUSDT" nan 1000000%float Venues.account []);
    vm_compute; reflexivity.
Defined.

(** ** How far the formatted number is from the value *)

Lemma roundHalfEven_nearest n d :
  0 <= n -> 0 < d -> 2 * Z.abs (roundHalfEven n d * d - n) <= d.
Proof.
  intros Hn Hd. unfold roundHalfEven.
  pose proof (Z.div_mod n d ltac:(lia)) as Hdiv.
  pose proof (Z.mod_pos_bound n d Hd) as Hmod.
  destruct (Z.compare_spec (2 * (n mod d)) d) as [Heq | Hlt | Hgt];
    [destruct (Z.even (n / d))| |]; nia.
Qed.

(** The number a finite, nonzero float is formatted to. *)
Lemma numeral_FormatFloat_finite f s m e prec :
  Prim2SF f = S754_finite s m e -> 0 <= prec ->
  Sent.numeral (FormatFloat f prec) =
    Some (if s then - scaled m e prec else scaled m e prec, prec).
Proof.
  intros Hf Hprec. unfold FormatFloat. rewrite Hf.
  destruct (Z.ltb_spec prec 0); [lia|].
  rewrite numeral_fmtF by apply scaled_nonneg. now rewrite Z2Nat.id.
Qed.

Lemma FormatFloat_nearest f prec :
  isFinite f = true -> 0 <= prec ->
  exists n, Sent.numeral (FormatFloat f prec) = Some (n, prec) /\ withinHalfUnit n prec f.
Proof.
  intros Hfin Hprec. unfold isFinite in Hfin. unfold withinHalfUnit, exact.
  destruct (Prim2SF f) as [s | s | | s m e] eqn:Hf; try discriminate.
  - exists (if s then - 0 else 0). split.
    + unfold FormatFloat. rewrite Hf, numeral_fmtF by lia. now rewrite Z2Nat.id.
    + cbn [fst snd]. destruct s; lia.
  - exists (if s then - scaled m e prec else scaled m e prec).
    split; [now apply numeral_FormatFloat_finite|].
    unfold scaled, scale. cbn [fst snd].
    assert (H10 : 0 <= 10 ^ prec) by (apply Z.pow_nonneg; lia).
    assert (H2 : 0 <= 2 ^ e) by (apply Z.pow_nonneg; lia).
    assert (H2' : e < 0 -> 0 < 2 ^ (- e)) by (intros; apply Z.pow_pos_nonneg; lia).
    assert (Hm : 0 <= Z.pos m * 10 ^ prec) by (apply Z.mul_nonneg_nonneg; lia).
    destruct (Z.leb_spec 0 e) as [He | He]; cbn [fst snd].
    + assert (Hn : 0 <= Z.pos m * 10 ^ prec * 2 ^ e) by (apply Z.mul_nonneg_nonneg; lia).
      pose proof (roundHalfEven_nearest _ 1 Hn ltac:(lia)) as Hr.
      set (r := roundHalfEven _ _) in *. destruct s; nia.
    + specialize (H2' He).
      pose proof (roundHalfEven_nearest _ (1 * 2 ^ (- e)) Hm ltac:(lia)) as Hr.
      set (r := roundHalfEven _ _) in *. destruct s; nia.
Qed.

(** X7: for a symbol of the table with non-negative precisions, the quantity
    and the price of an order are sent as the decimal numerals, with
    [QtyDecimalPrecision] and [PriceDecimalPrecision] decimals, that are
    nearest to the finite float given: they differ from its exact value by
    at most half a unit of the last decimal, upwards or downwards. *)
Theorem formatted_number_is_nearest b symbol info quantity price :
  assetsInfo b !! symbol = Some info ->
  isFinite quantity = true ->
  isFinite price = true ->
  0 <= QtyDecimalPrecision info ->
  0 <= PriceDecimalPrecision info ->
  (exists n, Sent.numeral (formatQuantity b symbol quantity) =
               Some (n, QtyDecimalPrecision info) /\
             withinHalfUnit n (QtyDecimalPrecision info) quantity) /\
  (exists n, Sent.numeral (formatPrice b symbol price) =
               Some (n, PriceDecimalPrecision info) /\
             withinHalfUnit n (PriceDecimalPrecision info) price).
Proof.
  intros Hinfo Hq Hp Hqty Hprice. unfold formatQuantity, formatPrice. rewrite Hinfo.
  split; now apply FormatFloat_nearest.
Qed.

(** An instance of X7: 1.23456 BTC at 100.004 USDT, with three and two
    decimals. *)
Lemma formatted_number_is_nearest_example :
  (exists n, Sent.numeral (formatQuantity Venues.broker "BTCUSDT" 1.23456) =
               Some (n, QtyDecimalPrecision (infoOf Venues.broker "BTCUSDT")) /\
             withinHalfUnit n (QtyDecimalPrecision (infoOf Venues.broker "BTCUSDT")) 1.23456) /\
  (exists n, Sent.numeral (formatPrice Venues.broker "BTCUSDT" 100.004) =
               Some (n, PriceDecimalPrecision (infoOf Venues.broker "BTCUSDT")) /\
             withinHalfUnit n (PriceDecimalPrecision (infoOf Venues.broker "BTCUSDT")) 100.004).
Proof.
  apply (formatted_number_is_nearest Venues.broker "BTCUSDT" (infoOf Venues.broker "BTCUSDT"));
    vm_compute; first [reflexivity | discriminate].
Defined.

(** ** Starting the broker *)

Lemma error_eqb_refl err : error_eqb err err = true.
Proof.
  induction err as [| | | before inner IH after | msg]; cbn; try reflexivity.
  - now rewrite !String.eqb_refl, IH.
  - apply String.eqb_refl.
Qed.

Lemma errorsIs_wrapped before err after : errorsIs (wrapError before err after) err = true.
Proof.
  cbn [errorsIs]. destruct err; cbn [errorsIs]; rewrite error_eqb_refl;
    now rewrite ?orb_true_r.
Qed.

(** X8: [NewBinance] stops at the first request that fails.  A failed ping is
    returned wrapped after "binance ping fail: " (and [errors.Is] finds the
    venue's error in it) with nothing else sent; with credentials, a failed
    account request is returned as it is and the exchange information is not
    asked for; a failed exchange information request is returned as it is. *)
Theorem NewBinance_stops_at_the_first_failure NewClient options err log :
  let exchange := configured options in
  let c := NewClient (APIKey exchange) (APISecret exchange) in
  let run := NewBinance NewClient options log in
  let ping := (log ++ [binance.PingRequest])%list in
  let account := (ping ++ [binance.GetAccountRequest])%list in
  let info := (log ++ startRequests (hasCredentials exchange))%list in
  (binance.PingService c ping = Some err ->
   run = (Returns (Err (wrapError "binance ping fail: " err "")), ping) /\
   errorsIs (wrapError "binance ping fail: " err "") err = true) /\
  (binance.PingService c ping = None ->
   hasCredentials exchange = true ->
   binance.GetAccountService c account = Err err ->
   run = (Returns (Err err), account)) /\
  (binance.PingService c ping = None ->
   (hasCredentials exchange = true ->
    exists acc, binance.GetAccountService c account = Ok acc) ->
   binance.ExchangeInfoService c info = Err err ->
   run = (Returns (Err err), info)).
Proof.
  intros exchange c run ping account info.
  subst run. unfold NewBinance. fold (configured options). fold exchange.
  cbn [APIKey APISecret userInfo]. fold c. fold (hasCredentials exchange).
  unfold bind, send, ret. fold ping.
  split; [|split].
  - intros ->. split; [reflexivity|apply errorsIs_wrapped].
  - intros -> -> Hacc. fold account. now rewrite Hacc.
  - intros -> Hacc Hinfo. subst info. unfold startRequests in Hinfo.
    destruct (hasCredentials exchange).
    + destruct (Hacc eq_refl) as [acc Hok]. fold account. rewrite Hok.
      subst account ping. rewrite <- !app_assoc in *. cbn [app] in *. now rewrite Hinfo.
    + cbn [app] in Hinfo. subst ping. rewrite <- !app_assoc. cbn [app]. now rewrite Hinfo.
Qed.

(** Instances of X8: a venue that refuses the ping, one that refuses the
    account request of a broker with credentials, and one that refuses the
    exchange information request of a broker without. *)
Lemma NewBinance_stops_at_the_first_failure_example :
  NewBinance (Venues.unavailable Venues.isPing) [] [] =
    (Returns (Err (wrapError "binance ping fail: " Venues.down "")),
     [binance.PingRequest]) /\
  NewBinance (Venues.unavailable Venues.isGetAccount)
    [WithBinanceCredentials "key" "secret"] [] =
    (Returns (Err Venues.down), [binance.PingRequest; binance.GetAccountRequest]) /\
  NewBinance (Venues.unavailable Venues.isExchangeInfo) [] [] =
    (Returns (Err Venues.down), [binance.PingRequest; binance.ExchangeInfoRequest]).
Proof.
  split; [|split].
  - pose proof (NewBinance_stops_at_the_first_failure
                  (Venues.unavailable Venues.isPing) [] Venues.down []) as (H & _).
    exact (proj1 (H eq_refl)).
  - pose proof (NewBinance_stops_at_the_first_failure
                  (Venues.unavailable Venues.isGetAccount)
                  [WithBinanceCredentials "key" "secret"] Venues.down []) as (_ & H & _).
    exact (H eq_refl eq_refl eq_refl).
  - pose proof (NewBinance_stops_at_the_first_failure
                  (Venues.unavailable Venues.isExchangeInfo) [] Venues.down [])
      as (_ & _ & H).
    apply H; [reflexivity | discriminate | reflexivity].
Defined.

(** The filters never touch the log. *)
Lemma fieldString_log filter key log o log' :
  fieldString filter key log = (o, log') -> log' = log.
Proof.
  unfold fieldString, ret, panic.
  destruct (filter !! key) as [[|s| |]|]; now intros [= _ <-].
Qed.

Lemma bind_log {A B} (m : M A) (k : A -> M B) log o log' :
  (forall o1 l1, m log = (o1, l1) -> l1 = log) ->
  (forall a o2 l2, k a log = (o2, l2) -> l2 = log) ->
  bind m k log = (o, log') -> log' = log.
Proof.
  intros Hm Hk. unfold bind. destruct (m log) as [[a | msg] l1].
  - rewrite (Hm _ _ eq_refl). apply Hk.
  - intros [= _ <-]. now apply (Hm _ _ eq_refl).
Qed.

Lemma ret_log {A} (a : A) log o log' : ret a log = (o, log') -> log' = log.
Proof. now intros [= _ <-]. Qed.

Lemma applyFilter_log limits filter log o log' :
  applyFilter limits filter log = (o, log') -> log' = log.
Proof.
  unfold applyFilter.
  destruct (filter !! "filterType") as [typ|]; [|apply ret_log].
  apply bind_log.
  - intros o1 l1. destruct typ as [|t| |]; try apply ret_log.
    destruct (String.eqb t _); [|apply ret_log].
    repeat (apply bind_log; [intros ? ?; apply fieldString_log | intros ? ? ?]).
    apply ret_log.
  - intros limits1 o2 l2. destruct typ as [|t| |]; try apply ret_log.
    destruct (String.eqb t _); [|apply ret_log].
    repeat (apply bind_log; [intros ? ?; apply fieldString_log | intros ? ? ?]).
    apply ret_log.
Qed.

Lemma applyFilters_log filters : forall limits log o log',
  applyFilters limits filters log = (o, log') -> log' = log.
Proof.
  induction filters as [|filter filters IH]; intros limits log o log'.
  - apply ret_log.
  - cbn [applyFilters]. apply bind_log.
    + intros o1 l1. apply applyFilter_log.
    + intros limits1 o2 l2. apply IH.
Qed.

Lemma loadSymbols_log symbols : forall infos log o log',
  loadSymbols symbols infos log = (o, log') -> log' = log.
Proof.
  induction symbols as [|info symbols IH]; intros infos log o log'.
  - apply ret_log.
  - cbn [loadSymbols]. apply bind_log.
    + intros o1 l1. apply applyFilters_log.
    + intros limits o2 l2. apply IH.
Qed.

(** A start that returns a broker, step by step. *)
Lemma NewBinance_returns NewClient options log b log' :
  NewBinance NewClient options log = (Returns (Ok b), log') ->
  let exchange := configured options in
  let c := NewClient (APIKey exchange) (APISecret exchange) in
  let ping := (log ++ [binance.PingRequest])%list in
  exists user results,
    binance.PingService c ping = None /\
    (if hasCredentials exchange
     then exists acc,
            binance.GetAccountService c (ping ++ [binance.GetAccountRequest])%list = Ok acc /\
            user = {| MakerCommission :=
                        (float64OfInt (binance.Account.MakerCommission acc) / 10000)%float;
                      TakerCommission :=
                        (float64OfInt (binance.Account.TakerCommission acc) / 10000)%float |}
     else user = userInfo exchange) /\
    log' = (log ++ startRequests (hasCredentials exchange))%list /\
    binance.ExchangeInfoService c log' = Ok results /\
    (exists infos,
       loadSymbols (binance.ExchangeInfo.Symbols results) ∅ log' = (Returns infos, log') /\
       b = {| client := Some c; assetsInfo := infos; userInfo := user;
              APIKey := APIKey exchange; APISecret := APISecret exchange |}).
Proof.
  intros Hrun exchange c ping. unfold NewBinance in Hrun.
  fold (configured options) in Hrun. fold exchange in Hrun.
  cbn [APIKey APISecret userInfo] in Hrun. fold c in Hrun.
  fold (hasCredentials exchange) in Hrun.
  unfold bind at 1, send at 1 in Hrun. fold ping in Hrun.
  destruct (binance.PingService c ping) as [err|] eqn:Hping; [discriminate|].
  unfold startRequests.
  destruct (hasCredentials exchange).
  - unfold bind at 1 2, send at 1 in Hrun.
    destruct (binance.GetAccountService c _) as [acc | err] eqn:Hacc; [|discriminate].
    unfold ret at 1 in Hrun. unfold bind at 1, send at 1 in Hrun.
    subst ping. rewrite <- !app_assoc in *. cbn [app] in *.
    destruct (binance.ExchangeInfoService c _) as [results | err] eqn:Hinfo; [|discriminate].
    unfold bind in Hrun.
    destruct (loadSymbols _ _ _) as [[infos | msg] l4] eqn:Hload; [|discriminate].
    pose proof (loadSymbols_log _ _ _ _ _ Hload) as ->.
    unfold ret in Hrun. injection Hrun as <- <-.
    eexists _, results. split; [reflexivity|]. split; [now exists acc|].
    split; [reflexivity|]. split; [exact Hinfo|]. now exists infos.
  - unfold bind at 1, ret at 1 in Hrun. unfold bind at 1, send at 1 in Hrun.
    subst ping. rewrite <- !app_assoc in *. cbn [app] in *.
    destruct (binance.ExchangeInfoService c _) as [results | err] eqn:Hinfo; [|discriminate].
    unfold bind in Hrun.
    destruct (loadSymbols _ _ _) as [[infos | msg] l4] eqn:Hload; [|discriminate].
    pose proof (loadSymbols_log _ _ _ _ _ Hload) as ->.
    unfold ret in Hrun. injection Hrun as <- <-.
    eexists _, results. split; [reflexivity|]. split; [reflexivity|].
    split; [reflexivity|]. split; [exact Hinfo|]. now exists infos.
Qed.

(** X9: a start that returns a broker has sent, after the requests already
    logged, a ping, then the account request if and only if both a key and a
    secret were given, then the exchange information request, and nothing
    else.  The broker keeps the key and the secret of the options; with
    credentials its commission rates are the account's maker and taker
    commissions divided by 10000, and without they are left as the options
    set them. *)
Theorem NewBinance_start_sequence NewClient options log b log' :
  NewBinance NewClient options log = (Returns (Ok b), log') ->
  let exchange := configured options in
  let c := NewClient (APIKey exchange) (APISecret exchange) in
  log' = (log ++ startRequests (hasCredentials exchange))%list /\
  client b = Some c /\
  APIKey b = APIKey exchange /\
  APISecret b = APISecret exchange /\
  (hasCredentials exchange = true ->
   exists acc,
     binance.GetAccountService c
       (log ++ [binance.PingRequest; binance.GetAccountRequest])%list = Ok acc /\
     MakerCommission (userInfo b) =
       (float64OfInt (binance.Account.MakerCommission acc) / 10000)%float /\
     TakerCommission (userInfo b) =
       (float64OfInt (binance.Account.TakerCommission acc) / 10000)%float) /\
  (hasCredentials exchange = false -> userInfo b = userInfo exchange).
Proof.
  intros Hrun exchange c.
  destruct (NewBinance_returns _ _ _ _ _ Hrun)
    as (user & results & _ & Huser & Hlog & _ & infos & _ & ->).
  fold exchange c in Huser, Hlog |- *. cbn [client APIKey APISecret userInfo].
  repeat split; try assumption.
  - intros Hcreds. rewrite Hcreds in Huser. destruct Huser as (acc & Hacc & ->).
    exists acc. rewrite <- app_assoc in Hacc. now cbn [app] in Hacc.
  - intros Hcreds. now rewrite Hcreds in Huser.
Qed.

(** Instances of X9: the start of the broker with credentials, whose account
    pays 10 basis points, and the start with a key and no secret. *)
Lemma NewBinance_start_sequence_example :
  snd (NewBinance (Venues.venue "0.00100000" "0.01000000" [Venues.kline "101.00000000"])
         [WithBinanceCredentials "key" "secret"] []) =
    [binance.PingRequest; binance.GetAccountRequest; binance.ExchangeInfoRequest] /\
  userInfo Venues.broker = {| MakerCommission := 0.001; TakerCommission := 0.001 |} /\
  snd (NewBinance (Venues.venue "0.00100000" "0.01000000" [Venues.kline "101.00000000"])
         [WithBinanceCredentials "key" ""] []) =
    [binance.PingRequest; binance.ExchangeInfoRequest] /\
  APIKey Venues.anonymous = "key".
Proof.
  pose proof (fun options b log' => NewBinance_start_sequence
                (Venues.venue "0.00100000" "0.01000000" [Venues.kline "101.00000000"])
                options [] b log') as H.
  cbn zeta in H.
  destruct (H [WithBinanceCredentials "key" "secret"] Venues.broker
              [binance.PingRequest; binance.GetAccountRequest; binance.ExchangeInfoRequest]
              ltac:(vm_compute; reflexivity)) as (_ & _ & _ & _ & Hcreds & _).
  destruct (Hcreds eq_refl) as (acc & Hacc & Hmaker & Htaker).
  destruct (H [WithBinanceCredentials "key" ""] Venues.anonymous
              [binance.PingRequest; binance.ExchangeInfoRequest]
              ltac:(vm_compute; reflexivity)) as (_ & _ & Hkey & _).
  split; [vm_compute; reflexivity|]. split.
  - injection Hacc as <-.
    destruct (userInfo Venues.broker) as [maker taker]. cbn in Hmaker, Htaker.
    rewrite Hmaker, Htaker. vm_compute. reflexivity.
  - split; [vm_compute; reflexivity|exact Hkey].
Defined.

(** ** The table of symbols *)

Lemma applyFilter_assets limits filter log r log' :
  applyFilter limits filter log = (Returns r, log') ->
  BaseAsset r = BaseAsset limits /\ QuoteAsset r = QuoteAsset limits.
Proof.
  unfold applyFilter.
  destruct (filter !! "filterType") as [typ|];
    [|intros Hrun; apply ret_inv in Hrun; now destruct Hrun as [-> _]].
  intros Hrun. apply bind_inv in Hrun. destruct Hrun as (limits1 & log1 & Hlot & Hprice).
  assert (H1 : BaseAsset limits1 = BaseAsset limits /\ QuoteAsset limits1 = QuoteAsset limits).
  { destruct typ as [|t| |]; try (apply ret_inv in Hlot; now destruct Hlot as [-> _]).
    destruct (String.eqb t binance.SymbolFilterTypeLotSize);
      [|apply ret_inv in Hlot; now destruct Hlot as [-> _]].
    apply bind_inv in Hlot. destruct Hlot as (minQty & l1 & _ & Hlot).
    apply bind_inv in Hlot. destruct Hlot as (maxQty & l2 & _ & Hlot).
    apply bind_inv in Hlot. destruct Hlot as (stepSize & l3 & _ & Hlot).
    apply ret_inv in Hlot. now destruct Hlot as [-> _]. }
  destruct H1 as [<- <-].
  destruct typ as [|t| |]; try (apply ret_inv in Hprice; now destruct Hprice as [-> _]).
  destruct (String.eqb t binance.SymbolFilterTypePriceFilter);
    [|apply ret_inv in Hprice; now destruct Hprice as [-> _]].
  apply bind_inv in Hprice. destruct Hprice as (minPrice & l1 & _ & Hprice).
  apply bind_inv in Hprice. destruct Hprice as (maxPrice & l2 & _ & Hprice).
  apply bind_inv in Hprice. destruct Hprice as (tickSize & l3 & _ & Hprice).
  apply ret_inv in Hprice. now destruct Hprice as [-> _].
Qed.

Lemma applyFilters_assets filters : forall limits log r log',
  applyFilters limits filters log = (Returns r, log') ->
  BaseAsset r = BaseAsset limits /\ QuoteAsset r = QuoteAsset limits.
Proof.
  induction filters as [|filter filters IH]; intros limits log r log' Hrun.
  - apply ret_inv in Hrun. now destruct Hrun as [-> _].
  - cbn [applyFilters] in Hrun. apply bind_inv in Hrun.
    destruct Hrun as (limits1 & log1 & Hone & Hrest).
    destruct (applyFilter_assets _ _ _ _ _ Hone) as [<- <-]. now apply IH in Hrest.
Qed.

(** The symbols [loadSymbols] adds to a table, and where each entry comes
    from. *)
Lemma loadSymbols_table symbols : forall (infos r : gmap string AssetInfo) log log',
  loadSymbols symbols infos log = (Returns r, log') ->
  (forall s, is_Some (r !! s) <->
             is_Some (infos !! s) \/ In s (map binance.Symbol.Symbol symbols)) /\
  (forall s info, r !! s = Some info ->
     infos !! s = Some info \/
     exists listed, In listed symbols /\ binance.Symbol.Symbol listed = s /\
       BaseAsset info = binance.Symbol.BaseAsset listed /\
       QuoteAsset info = binance.Symbol.QuoteAsset listed).
Proof.
  induction symbols as [|listed symbols IH]; intros infos r log log' Hrun.
  - apply ret_inv in Hrun. destruct Hrun as [-> _]. cbn. split; [|auto].
    intros s. tauto.
  - cbn [loadSymbols] in Hrun. apply bind_inv in Hrun.
    destruct Hrun as (limits & log1 & Hlimits & Hrest).
    apply applyFilters_assets in Hlimits. cbn in Hlimits. destruct Hlimits as [Hbase Hquote].
    destruct (IH _ _ _ _ Hrest) as [Hdom Horigin]. split.
    + intros s. rewrite Hdom. cbn [map In].
      destruct (decide (binance.Symbol.Symbol listed = s)) as [<- | Hne].
      * rewrite lookup_insert_eq. split; [auto | intros _; left; eauto].
      * rewrite lookup_insert_ne by exact Hne. tauto.
    + intros s info Hs. destruct (Horigin s info Hs) as [Hin | (sym & Hsym & Hrest')].
      * destruct (decide (binance.Symbol.Symbol listed = s)) as [<- | Hne].
        -- rewrite lookup_insert_eq in Hin. injection Hin as <-.
           right. exists listed. cbn [In]. auto.
        -- rewrite lookup_insert_ne in Hin by exact Hne. now left.
      * right. exists sym. cbn [In]. auto.
Qed.

(** X10: the table of a broker [NewBinance] returned holds exactly the
    symbols of the venue's exchange information, and every entry has the
    base and the quote asset of a listing of its symbol; no filter changes
    them. *)
Theorem NewBinance_table_lists_the_symbols NewClient options log b log' :
  NewBinance NewClient options log = (Returns (Ok b), log') ->
  exists c results,
    client b = Some c /\
    binance.ExchangeInfoService c log' = Ok results /\
    (forall s, is_Some (assetsInfo b !! s) <->
               In s (map binance.Symbol.Symbol (binance.ExchangeInfo.Symbols results))) /\
    (forall s info, assetsInfo b !! s = Some info ->
       exists listed, In listed (binance.ExchangeInfo.Symbols results) /\
         binance.Symbol.Symbol listed = s /\
         BaseAsset info = binance.Symbol.BaseAsset listed /\
         QuoteAsset info = binance.Symbol.QuoteAsset listed).
Proof.
  intros Hrun.
  destruct (NewBinance_returns _ _ _ _ _ Hrun)
    as (user & results & _ & _ & _ & Hinfo & infos & Hload & ->).
  eexists _, results. split; [reflexivity|]. split; [exact Hinfo|].
  cbn [assetsInfo].
  destruct (loadSymbols_table _ _ _ _ _ Hload) as [Hdom Horigin]. split.
  - intros s. rewrite Hdom, lookup_empty. split; [|auto].
    intros [[x Hx] | Hin]; [discriminate | exact Hin].
  - intros s info Hs. destruct (Horigin s info Hs) as [Hempty | Hlisted]; [|exact Hlisted].
    now rewrite lookup_empty in Hempty.
Qed.

(** An instance of X10: the venue lists BTCUSDT only. *)
Lemma NewBinance_table_lists_the_symbols_example :
  exists c results,
    client Venues.broker = Some c /\
    binance.ExchangeInfoService c
      [binance.PingRequest; binance.GetAccountRequest; binance.ExchangeInfoRequest] =
      Ok results /\
    (forall s, is_Some (assetsInfo Venues.broker !! s) <->
               In s (map binance.Symbol.Symbol (binance.ExchangeInfo.Symbols results))) /\
    (forall s info, assetsInfo Venues.broker !! s = Some info ->
       exists listed, In listed (binance.ExchangeInfo.Symbols results) /\
         binance.Symbol.Symbol listed = s /\
         BaseAsset info = binance.Symbol.BaseAsset listed /\
         QuoteAsset info = binance.Symbol.QuoteAsset listed).
Proof.
  apply (NewBinance_table_lists_the_symbols
           (Venues.venue "0.00100000" "0.01000000" [Venues.kline "101.00000000"])
           [WithBinanceCredentials "key" "secret"] []).
  vm_compute. reflexivity.
Defined.

(** ** Filters with missing fields *)

Lemma fieldString_outcome filter key log :
  if isString (filter !! key)
  then exists s, fieldString filter key log = (Returns s, log)
  else exists msg, fieldString filter key log = (Panics msg, log).
Proof.
  unfold fieldString, isString, ret, panic.
  destruct (filter !! key) as [[|s| |]|]; eauto.
Qed.

(** Reading the three string fields of a filter and building the limits. *)
Lemma three_fields_outcome filter k1 k2 k3 (build : string -> string -> string -> AssetInfo) log :
  let stage := do a <- fieldString filter k1;
               do b <- fieldString filter k2;
               do c <- fieldString filter k3;
               ret (build a b c) in
  if isString (filter !! k1) && isString (filter !! k2) && isString (filter !! k3)
  then exists r, stage log = (Returns r, log)
  else exists msg, stage log = (Panics msg, log).
Proof.
  intros stage. subst stage. unfold bind.
  pose proof (fieldString_outcome filter k1 log) as H1.
  pose proof (fieldString_outcome filter k2 log) as H2.
  pose proof (fieldString_outcome filter k3 log) as H3.
  destruct (isString (filter !! k1)); cbn [andb];
    [destruct H1 as [a ->] | destruct H1 as [msg ->]; eauto].
  destruct (isString (filter !! k2)); cbn [andb];
    [destruct H2 as [b' ->] | destruct H2 as [msg ->]; eauto].
  destruct (isString (filter !! k3));
    [destruct H3 as [c' ->] | destruct H3 as [msg ->]; eauto].
  unfold ret. eauto.
Qed.

Lemma bind_ret_l {A B} (a : A) (k : A -> M B) log : bind (ret a) k log = k a log.
Proof. reflexivity. Qed.

Lemma applyFilter_outcome limits filter log :
  if malformed filter
  then exists msg, applyFilter limits filter log = (Panics msg, log)
  else exists r, applyFilter limits filter log = (Returns r, log).
Proof.
  unfold malformed, applyFilter.
  destruct (filter !! "filterType") as [[|t| |]|]; try solve [unfold bind, ret; eauto].
  destruct (String.eqb_spec t binance.SymbolFilterTypeLotSize) as [-> | Hlot].
  - (* a lot-size filter is no price filter *)
    cbn [String.eqb binance.SymbolFilterTypeLotSize binance.SymbolFilterTypePriceFilter
         Ascii.eqb Bool.eqb andb orb].
    rewrite orb_false_r.
    match goal with
    | |- context [bind (fieldString filter ?k1) (fun a => bind (fieldString filter ?k2)
                    (fun b => bind (fieldString filter ?k3) (fun c => ret (@?build a b c))))] =>
        pose proof (three_fields_outcome filter k1 k2 k3 build log) as H
    end.
    cbn zeta in H.
    destruct (isString _ && isString _ && isString _); cbn [negb];
      destruct H as [r Hr]; unfold bind at 1; rewrite Hr; unfold ret; eauto.
  - cbn [andb orb]. rewrite !bind_ret_l.
    destruct (String.eqb t binance.SymbolFilterTypePriceFilter);
      cbn [andb]; [|unfold ret; eauto].
    match goal with
    | |- context [bind (fieldString filter ?k1) (fun a => bind (fieldString filter ?k2)
                    (fun b => bind (fieldString filter ?k3) (fun c => ret (@?build a b c))))] =>
        pose proof (three_fields_outcome filter k1 k2 k3 build log) as H
    end.
    cbn zeta in H.
    destruct (isString _ && isString _ && isString _); cbn [negb];
      destruct H as [r Hr]; rewrite Hr; eauto.
Qed.

Lemma applyFilters_outcome filters : forall limits log,
  if existsb malformed filters
  then exists msg, applyFilters limits filters log = (Panics msg, log)
  else exists r, applyFilters limits filters log = (Returns r, log).
Proof.
  induction filters as [|filter filters IH]; intros limits log; cbn [existsb applyFilters].
  - unfold ret. eauto.
  - pose proof (applyFilter_outcome limits filter log) as H. unfold bind.
    destruct (malformed filter); cbn [orb].
    + destruct H as [msg ->]. eauto.
    + destruct H as [r ->]. apply IH.
Qed.

Lemma loadSymbols_outcome symbols : forall infos log,
  if anyMalformed symbols
  then exists msg, loadSymbols symbols infos log = (Panics msg, log)
  else exists r, loadSymbols symbols infos log = (Returns r, log).
Proof.
  unfold anyMalformed.
  induction symbols as [|listed symbols IH]; intros infos log; cbn [existsb loadSymbols].
  - unfold ret. eauto.
  - unfold bind.
    match goal with
    | |- context [applyFilters ?limits _ _] =>
        pose proof (applyFilters_outcome (binance.Symbol.Filters listed) limits log) as H
    end.
    destruct (existsb malformed (binance.Symbol.Filters listed)); cbn [orb].
    + destruct H as [msg ->]. eauto.
    + destruct H as [r ->]. apply IH.
Qed.

(** X11: once the venue has answered the ping, the account request (if there
    are credentials) and the exchange information request, [NewBinance]
    returns a broker exactly when every lot-size and every price filter of
    every listed symbol holds its three fields as strings.  If one of them
    lacks a field, or holds one that is not a string, the start panics on the
    type assertion; filters of any other type are never looked into. *)
Theorem NewBinance_panics_on_a_malformed_filter NewClient options results log :
  let exchange := configured options in
  let c := NewClient (APIKey exchange) (APISecret exchange) in
  let sent := (log ++ startRequests (hasCredentials exchange))%list in
  binance.PingService c (log ++ [binance.PingRequest])%list = None ->
  (hasCredentials exchange = true ->
   exists acc, binance.GetAccountService c
                 (log ++ [binance.PingRequest; binance.GetAccountRequest])%list = Ok acc) ->
  binance.ExchangeInfoService c sent = Ok results ->
  if anyMalformed (binance.ExchangeInfo.Symbols results)
  then exists msg, NewBinance NewClient options log = (Panics msg, sent)
  else exists b, NewBinance NewClient options log = (Returns (Ok b), sent).
Proof.
  intros exchange c sent Hping Hacc Hinfo.
  unfold NewBinance. fold (configured options). fold exchange.
  cbn [APIKey APISecret userInfo]. fold c. fold (hasCredentials exchange).
  subst sent. unfold startRequests in *. unfold bind, send, ret. rewrite Hping.
  destruct (hasCredentials exchange); cbn [app] in *.
  - destruct (Hacc eq_refl) as [acc Hok].
    rewrite <- !app_assoc. cbn [app]. rewrite Hok. cbn beta iota.
    rewrite <- !app_assoc. cbn [app]. rewrite Hinfo. cbn beta iota.
    pose proof (loadSymbols_outcome (binance.ExchangeInfo.Symbols results) ∅
                  (log ++ [binance.PingRequest; binance.GetAccountRequest;
                           binance.ExchangeInfoRequest])%list) as Hload.
    destruct (anyMalformed _).
    + destruct Hload as [msg ->]. eauto.
    + destruct Hload as [r ->]. eauto.
  - rewrite <- !app_assoc. cbn [app]. rewrite Hinfo. cbn beta iota.
    pose proof (loadSymbols_outcome (binance.ExchangeInfo.Symbols results) ∅
                  (log ++ [binance.PingRequest; binance.ExchangeInfoRequest])%list) as Hload.
    destruct (anyMalformed _).
    + destruct Hload as [msg ->]. eauto.
    + destruct Hload as [r ->]. eauto.
Qed.

(** Instances of X11: a venue whose only symbol has a lot-size filter without
    a step size makes the start panic; with a filter of another type in its
    place the start returns a broker. *)
Lemma NewBinance_panics_on_a_malformed_filter_example :
  (exists msg,
     NewBinance
       (Venues.listing
          [Venues.symbol "BTCUSDT" "BTC" "USDT"
             [<["filterType" := binance.anyString "LOT_SIZE"]>
              (<["minQty" := binance.anyString "0.001"]>
              (<["maxQty" := binance.anyString "9000"]> ∅))]])
       [] [] =
     (Panics msg, [binance.PingRequest; binance.ExchangeInfoRequest])) /\
  (exists b,
     NewBinance
       (Venues.listing
          [Venues.symbol "BTCUSDT" "BTC" "USDT"
             [<["filterType" := binance.anyString "MIN_NOTIONAL"]>
              (<["minNotional" := binance.anyFloat64 10]> ∅)]])
       [] [] =
     (Returns (Ok b), [binance.PingRequest; binance.ExchangeInfoRequest])).
Proof.
  split.
  - exact (NewBinance_panics_on_a_malformed_filter
             (Venues.listing
                [Venues.symbol "BTCUSDT" "BTC" "USDT"
                   [<["filterType" := binance.anyString "LOT_SIZE"]>
                    (<["minQty" := binance.anyString "0.001"]>
                    (<["maxQty" := binance.anyString "9000"]> ∅))]])
             [] _ [] eq_refl ltac:(discriminate) eq_refl).
  - exact (NewBinance_panics_on_a_malformed_filter
             (Venues.listing
                [Venues.symbol "BTCUSDT" "BTC" "USDT"
                   [<["filterType" := binance.anyString "MIN_NOTIONAL"]>
                    (<["minNotional" := binance.anyFloat64 10]> ∅)]])
             [] _ [] eq_refl ltac:(discriminate) eq_refl).
Defined.

(** ** Placing single orders *)

Lemma OrderLimit_follows b side symbol quantity limit log :
  let leg := validate b side model.OrderTypeLimit symbol quantity (Some limit) log in
  let run := OrderLimit b side symbol quantity limit log in
  let order :=
    binance.CreateOrderRequest symbol "LIMIT" (Some "GTC") side
      (formatQuantity b symbol quantity) (Some (formatPrice b symbol limit)) None in
  (forall err, fst leg = Returns (Some err) -> run = (Returns (Err err), snd leg)) /\
  (ordersPlaced (snd run) = ordersPlaced log \/
   fst leg = Returns None /\ snd run = (snd leg ++ [order])%list) /\
  (forall c err, client b = Some c -> fst leg = Returns None ->
     binance.CreateOrderService c (snd leg ++ [order])%list = Err err ->
     fst run = Returns (Err err)).
Proof.
  intros leg run order.
  pose proof (validate_places_no_order b side model.OrderTypeLimit symbol
                quantity (Some limit) log) as Hlog.
  fold leg in Hlog. subst run. unfold OrderLimit, bind. fold leg.
  unfold binance.OrderTypeLimit, binance.TimeInForceTypeGTC.
  destruct leg as [[[e|] | msg] l1]; cbn [fst snd] in *.
  - split; [|split].
    + now intros err [= <-].
    + now left.
    + intros c err _ [=].
  - unfold viaClient. destruct (client b) as [c|].
    + unfold send, ret. fold order. split; [|split].
      * intros err [=].
      * right. split; [reflexivity|]. now destruct (binance.CreateOrderService c _).
      * intros c' err [= <-] _ H. now rewrite H.
    + unfold panic. cbn [fst snd]. split; [|split].
      * intros err [=].
      * now left.
      * intros c err [=].
  - split; [|split].
    + intros err [=].
    + now left.
    + intros c err _ [=].
Qed.

Lemma OrderMarket_follows b side symbol quantity log :
  let leg := validate b side model.OrderTypeMarket symbol quantity None log in
  let run := OrderMarket b side symbol quantity log in
  let order :=
    binance.CreateOrderRequest symbol "MARKET" None side
      (formatQuantity b symbol quantity) None (Some "FULL") in
  (forall err, fst leg = Returns (Some err) -> run = (Returns (Err err), snd leg)) /\
  (ordersPlaced (snd run) = ordersPlaced log \/
   fst leg = Returns None /\ snd run = (snd leg ++ [order])%list) /\
  (forall c err, client b = Some c -> fst leg = Returns None ->
     binance.CreateOrderService c (snd leg ++ [order])%list = Err err ->
     fst run = Returns (Err err)).
Proof.
  intros leg run order.
  pose proof (validate_places_no_order b side model.OrderTypeMarket symbol
                quantity None log) as Hlog.
  fold leg in Hlog. subst run. unfold OrderMarket, bind. fold leg.
  unfold binance.OrderTypeMarket, binance.NewOrderRespTypeFULL.
  destruct leg as [[[e|] | msg] l1]; cbn [fst snd] in *.
  - split; [|split].
    + now intros err [= <-].
    + now left.
    + intros c err _ [=].
  - unfold viaClient. destruct (client b) as [c|].
    + unfold send, ret. fold order. split; [|split].
      * intros err [=].
      * right. split; [reflexivity|]. now destruct (binance.CreateOrderService c _).
      * intros c' err [= <-] _ H. now rewrite H.
    + unfold panic. cbn [fst snd]. split; [|split].
      * intros err [=].
      * now left.
      * intros c err [=].
  - split; [|split].
    + intros err [=].
    + now left.
    + intros c err _ [=].
Qed.

(** X12: [OrderLimit] and [OrderMarket] place at most one order, and only
    once [validate] has returned nil: a refusal of [validate] is returned as
    the error with nothing sent after the validation; otherwise the order is
    the one request sent after it, a LIMIT order good till cancelled with the
    formatted quantity and price, or a MARKET order with the formatted
    quantity, no price and a FULL response; and an error of the venue for
    that request is returned as it is. *)
Theorem single_orders_follow_validation b side symbol quantity limit log :
  let limitLeg := validate b side model.OrderTypeLimit symbol quantity (Some limit) log in
  let marketLeg := validate b side model.OrderTypeMarket symbol quantity None log in
  let limitRun := OrderLimit b side symbol quantity limit log in
  let marketRun := OrderMarket b side symbol quantity log in
  let limitOrder :=
    binance.CreateOrderRequest symbol "LIMIT" (Some "GTC") side
      (formatQuantity b symbol quantity) (Some (formatPrice b symbol limit)) None in
  let marketOrder :=
    binance.CreateOrderRequest symbol "MARKET" None side
      (formatQuantity b symbol quantity) None (Some "FULL") in
  (forall err, fst limitLeg = Returns (Some err) ->
     limitRun = (Returns (Err err), snd limitLeg)) /\
  (forall err, fst marketLeg = Returns (Some err) ->
     marketRun = (Returns (Err err), snd marketLeg)) /\
  (ordersPlaced (snd limitRun) = ordersPlaced log \/
   fst limitLeg = Returns None /\ snd limitRun = (snd limitLeg ++ [limitOrder])%list) /\
  (ordersPlaced (snd marketRun) = ordersPlaced log \/
   fst marketLeg = Returns None /\ snd marketRun = (snd marketLeg ++ [marketOrder])%list) /\
  (forall c err, client b = Some c -> fst limitLeg = Returns None ->
     binance.CreateOrderService c (snd limitLeg ++ [limitOrder])%list = Err err ->
     fst limitRun = Returns (Err err)) /\
  (forall c err, client b = Some c -> fst marketLeg = Returns None ->
     binance.CreateOrderService c (snd marketLeg ++ [marketOrder])%list = Err err ->
     fst marketRun = Returns (Err err)).
Proof.
  intros limitLeg marketLeg limitRun marketRun limitOrder marketOrder.
  destruct (OrderLimit_follows b side symbol quantity limit log) as (Hl1 & Hl2 & Hl3).
  destruct (OrderMarket_follows b side symbol quantity log) as (Hm1 & Hm2 & Hm3).
  repeat split; assumption.
Qed.

(** Instances of X12 on a venue that rejects every order: a limit buy the
    balance does not cover is refused before anything is placed, and a
    market sell is placed and the venue's rejection returned. *)
Lemma single_orders_follow_validation_example :
  OrderLimit Venues.broker model.SideTypeBuy "BTCUSDT" 1 101 [] =
    (Returns (Err ErrInsufficientFunds), [binance.GetAccountRequest]) /\
  OrderMarket Venues.broker model.SideTypeSell "BTCUSDT" 1 [] =
    (Returns (Err (apiError "rejected")),
     [binance.GetAccountRequest;
      binance.CreateOrderRequest "BTCUSDT" "MARKET" None "SELL" "1.000" None (Some "FULL")]).
Proof.
  pose proof (single_orders_follow_validation Venues.broker model.SideTypeBuy "BTCUSDT"
                1%float 101%float []) as (Hlimit & _).
  pose proof (single_orders_follow_validation Venues.broker model.SideTypeSell "BTCUSDT"
                1%float 101%float []) as (_ & _ & _ & Hplaced & _ & Hmarket).
  split.
  - rewrite (Hlimit ErrInsufficientFunds); vm_compute; reflexivity.
  - apply injective_projections.
    + rewrite (Hmarket Venues.client (apiError "rejected")); vm_compute; reflexivity.
    + destruct Hplaced as [Hnone | [_ ->]]; [vm_compute in Hnone; discriminate|].
      vm_compute. reflexivity.
Defined.

(** ** The price of a market order *)

Lemma eqb_zero_Prim2SF x : (x =? 0)%float = true -> exists s, Prim2SF x = S754_zero s.
Proof.
  rewrite FloatAxioms.eqb_spec.
  change (Prim2SF 0) with (S754_zero false). unfold SFeqb.
  destruct (Prim2SF x) as [s | s | | s m e]; cbn; eauto; try discriminate;
    destruct s; discriminate.
Qed.

(** Zero divided by zero is not a number. *)
Lemma zero_div_zero_is_nan x y :
  (x =? 0)%float = true -> (y =? 0)%float = true -> is_nan (x / y) = true.
Proof.
  intros Hx Hy. apply eqb_zero_Prim2SF in Hx, Hy.
  destruct Hx as [sx Hx], Hy as [sy Hy].
  unfold is_nan. rewrite FloatAxioms.eqb_spec, FloatAxioms.div_spec, Hx, Hy.
  reflexivity.
Qed.

(** X13: [OrderMarket] reports as price the cumulative quote quantity divided
    by the executed quantity of the venue's answer, without looking at
    either.  When the answer reports both as zero, as for an order not filled
    yet, or when neither is a number, the order is returned without an error
    and its price is NaN, with quantity 0. *)
Theorem OrderMarket_price_of_an_unfilled_order b c side symbol quantity order log :
  client b = Some c ->
  let leg := validate b side model.OrderTypeMarket symbol quantity None log in
  let request :=
    binance.CreateOrderRequest symbol "MARKET" None side
      (formatQuantity b symbol quantity) None (Some "FULL") in
  let cost := fst (ParseFloat (binance.CreateOrderResponse.CummulativeQuoteQuantity order)) in
  let executed := fst (ParseFloat (binance.CreateOrderResponse.ExecutedQuantity order)) in
  fst leg = Returns None ->
  binance.CreateOrderService c (snd leg ++ [request])%list = Ok order ->
  exists placed,
    fst (OrderMarket b side symbol quantity log) = Returns (Ok placed) /\
    model.Order.Price placed = (cost / executed)%float /\
    model.Order.Quantity placed = executed /\
    ((cost =? 0)%float = true -> (executed =? 0)%float = true ->
     is_nan (model.Order.Price placed) = true).
Proof.
  intros Hc leg request cost executed Hleg Horder.
  unfold OrderMarket, bind. fold leg.
  destruct leg as [o l1]. cbn [fst snd] in *. subst o.
  unfold viaClient. rewrite Hc. unfold send, ret.
  unfold binance.OrderTypeMarket, binance.NewOrderRespTypeFULL. fold request.
  rewrite Horder. cbn [fst]. eexists. split; [reflexivity|]. cbn.
  split; [reflexivity|]. split; [reflexivity|].
  apply zero_div_zero_is_nan.
Qed.

(** An instance of X13: the venue accepts a market sell of 1 BTC and answers
    that nothing is executed yet. *)
Lemma OrderMarket_price_of_an_unfilled_order_example :
  exists placed,
    fst (OrderMarket Venues.trading model.SideTypeSell "BTCUSDT" 1 []) = Returns (Ok placed) /\
    is_nan (model.Order.Price placed) = true.
Proof.
  destruct (OrderMarket_price_of_an_unfilled_order Venues.trading
              (Venues.accepting Venues.unfilled Venues.pair Venues.client)
              model.SideTypeSell "BTCUSDT" 1%float Venues.unfilled []
              eq_refl ltac:(vm_compute; reflexivity) ltac:(vm_compute; reflexivity))
    as (placed & Hplaced & _ & _ & Hnan).
  exists placed. split; [exact Hplaced|].
  apply Hnan; vm_compute; reflexivity.
Defined.

(** ** The orders of an OCO *)

(** X14: the orders [OrderOCO] returns are the reports of the venue's answer,
    one order per report and in their order.  Each carries the symbol asked
    for, the list id of its report as its group, and the transaction time of
    the answer; and it carries the stop price exactly when its type is
    STOP_LOSS_LIMIT or STOP_LOSS. *)
Theorem OrderOCO_orders b side symbol quantity price stop stopLimit log orders :
  fst (OrderOCO b side symbol quantity price stop stopLimit log) = Returns (Ok orders) ->
  exists c answer,
    client b = Some c /\
    binance.CreateOCOService c
      (snd (OrderOCO b side symbol quantity price stop stopLimit log)) = Ok answer /\
    map model.Order.ExchangeID orders =
      map binance.OCOOrderReport.OrderID (binance.CreateOCOResponse.OrderReports answer) /\
    map model.Order.GroupID orders =
      map (fun r => Some (binance.OCOOrderReport.OrderListID r))
        (binance.CreateOCOResponse.OrderReports answer) /\
    Forall (fun o =>
              model.Order.Symbol o = symbol /\
              model.Order.Date o =
                wrap64 (binance.CreateOCOResponse.TransactionTime answer * 1000000) /\
              (model.Order.Type_ o = model.OrderTypeStopLossLimit \/
               model.Order.Type_ o = model.OrderTypeStopLoss ->
               model.Order.Stop o = Some stop) /\
              (model.Order.Type_ o <> model.OrderTypeStopLossLimit ->
               model.Order.Type_ o <> model.OrderTypeStopLoss ->
               model.Order.Stop o = None))
           orders.
Proof.
  unfold OrderOCO, bind.
  destruct (validate b side model.OrderTypeStopLossLimit _ _ _ _) as [[[e1|] | m1] l1];
    try discriminate.
  destruct (validate b side model.OrderTypeLimitMaker _ _ _ _) as [[[e2|] | m2] l2];
    try discriminate.
  unfold viaClient. destruct (client b) as [c|]; [|discriminate].
  unfold send, ret.
  destruct (binance.CreateOCOService c _) as [answer | err] eqn:Hanswer; [|discriminate].
  cbn [fst snd]. intros [= <-]. exists c, answer.
  split; [reflexivity|]. split; [exact Hanswer|].
  rewrite !map_map. split; [reflexivity|]. split; [reflexivity|].
  apply Forall_map. apply Forall_forall. intros r _. cbn.
  split; [reflexivity|]. split; [reflexivity|]. split.
  - intros [-> | ->]; reflexivity.
  - intros H1 H2. apply String.eqb_neq in H1, H2. now rewrite H1, H2.
Qed.

(** An instance of X14: the two legs of a sell of 1 BTC. *)
Lemma OrderOCO_orders_example :
  exists c answer,
    client Venues.trading = Some c /\
    binance.CreateOCOService c
      (snd (OrderOCO Venues.trading model.SideTypeSell "BTCUSDT" 1 110 91 90 [])) = Ok answer /\
    map model.Order.ExchangeID
      (map (ocoItem "BTCUSDT" 91 1600000000000)
           (binance.CreateOCOResponse.OrderReports Venues.pair)) =
      map binance.OCOOrderReport.OrderID (binance.CreateOCOResponse.OrderReports answer) /\
    map model.Order.GroupID
      (map (ocoItem "BTCUSDT" 91 1600000000000)
           (binance.CreateOCOResponse.OrderReports Venues.pair)) =
      map (fun r => Some (binance.OCOOrderReport.OrderListID r))
        (binance.CreateOCOResponse.OrderReports answer) /\
    Forall (fun o =>
              model.Order.Symbol o = "BTCUSDT" /\
              model.Order.Date o =
                wrap64 (binance.CreateOCOResponse.TransactionTime answer * 1000000) /\
              (model.Order.Type_ o = model.OrderTypeStopLossLimit \/
               model.Order.Type_ o = model.OrderTypeStopLoss ->
               model.Order.Stop o = Some 91%float) /\
              (model.Order.Type_ o <> model.OrderTypeStopLossLimit ->
               model.Order.Type_ o <> model.OrderTypeStopLoss ->
               model.Order.Stop o = None))
           (map (ocoItem "BTCUSDT" 91 1600000000000)
                (binance.CreateOCOResponse.OrderReports Venues.pair)).
Proof.
  apply (OrderOCO_orders Venues.trading model.SideTypeSell "BTCUSDT"
           1%float 110%float 91%float 90%float []).
  vm_compute. reflexivity.
Defined.

(** ** Candles *)

(** X15: the candles [CandlesByLimit] and [CandlesByPeriod] return are the
    klines of the venue's answer, one candle per kline and in their order;
    every one is marked complete and carries the symbol asked for.  Each
    call sends one request: for the last [limit] klines, or for the klines
    between the two instants in milliseconds, the nanoseconds given divided
    by a million towards zero. *)
Theorem candles_are_complete_and_named b symbol period limit start end_ log :
  let byLimit := CandlesByLimit b symbol period limit log in
  let byPeriod := CandlesByPeriod b symbol period start end_ log in
  let named (candles : list model.Candle.t) (sent : list binance.Request)
        (request : binance.Request) :=
    exists c data,
      client b = Some c /\ sent = (log ++ [request])%list /\
      binance.KlinesService c sent = Ok data /\
      map model.Candle.Time candles =
        map (fun k => wrap64 (binance.Kline.OpenTime k * 1000000)) data /\
      map model.Candle.Trades candles = map binance.Kline.TradeNum data /\
      Forall (fun candle => model.Candle.Symbol candle = symbol /\
                            model.Candle.Complete candle = true) candles in
  (forall candles, fst byLimit = Returns (Ok candles) ->
     named candles (snd byLimit)
       (binance.KlinesRequest symbol period (Some limit) None None)) /\
  (forall candles, fst byPeriod = Returns (Ok candles) ->
     named candles (snd byPeriod)
       (binance.KlinesRequest symbol period None
          (Some (Z.quot start 1000000)) (Some (Z.quot end_ 1000000)))).
Proof.
  intros byLimit byPeriod named. subst byLimit byPeriod named.
  unfold CandlesByLimit, CandlesByPeriod, bind, viaClient.
  destruct (client b) as [c|]; [|split; intros candles [=]].
  unfold send, ret. split; intros candles;
    destruct (binance.KlinesService c _) as [data | err] eqn:Hdata; try discriminate;
    cbn [fst snd]; intros [= <-]; exists c, data;
    (split; [reflexivity|]); (split; [reflexivity|]); (split; [exact Hdata|]);
    rewrite !map_map; (split; [reflexivity|]); (split; [reflexivity|]);
    apply Forall_map, Forall_forall; intros k _; now split.
Qed.

(** An instance of X15: the one candle of the venue, asked for by limit and
    by period. *)
Lemma candles_are_complete_and_named_example :
  let named (run : outcome (result (list model.Candle.t)) * list binance.Request) :=
    exists candles,
      fst run = Returns (Ok candles) /\
      Forall (fun candle => model.Candle.Symbol candle = "BTCUSDT" /\
                            model.Candle.Complete candle = true) candles in
  named (CandlesByLimit Venues.broker "BTCUSDT" "1h" 500 []) /\
  named (CandlesByPeriod Venues.broker "BTCUSDT" "1h"
           1600000000000999999 1600003600000000000 []) /\
  snd (CandlesByPeriod Venues.broker "BTCUSDT" "1h"
         1600000000000999999 1600003600000000000 []) =
    [binance.KlinesRequest "BTCUSDT" "1h" None (Some 1600000000000) (Some 1600003600000)].
Proof.
  pose proof (candles_are_complete_and_named Venues.broker "BTCUSDT" "1h" 500
                1600000000000999999 1600003600000000000 []) as [HbyLimit HbyPeriod].
  split; [|split].
  - eexists. split; [vm_compute; reflexivity|].
    edestruct HbyLimit as (c & data & _ & _ & _ & _ & _ & Hall);
      [vm_compute; reflexivity | exact Hall].
  - eexists. split; [vm_compute; reflexivity|].
    edestruct HbyPeriod as (c & data & _ & _ & _ & _ & _ & Hall);
      [vm_compute; reflexivity | exact Hall].
  - edestruct HbyPeriod as (c & data & _ & -> & _); [vm_compute; reflexivity|].
    vm_compute. reflexivity.
Defined.

(** ** Instants *)

Lemma wrap64_small z : - 2 ^ 63 <= z < 2 ^ 63 -> wrap64 z = z.
Proof. intros H. unfold wrap64. rewrite Z.mod_small; lia. Qed.

(** X16: the instants of the venue, in milliseconds, become nanoseconds
    without overflow as long as they lie within 9223372036854 milliseconds of
    the epoch (until the year 2262): the time of a candle, from a kline or
    from a websocket kline, and the date of an order are then exactly the
    instant times a million.  One millisecond later the product no longer
    fits 64 bits and the time wraps around to a negative instant. *)
Theorem instants_convert_without_overflow symbol k ws order :
  let inRange t := - 9223372036854 <= t <= 9223372036854 in
  (inRange (binance.Kline.OpenTime k) ->
   model.Candle.Time (CandleFromKline symbol k) = binance.Kline.OpenTime k * 1000000) /\
  (inRange (binance.WsKline.StartTime ws) ->
   model.Candle.Time (CandleFromWsKline symbol ws) = binance.WsKline.StartTime ws * 1000000) /\
  (inRange (binance.Order.Time order) ->
   model.Order.Date (newOrder order) = binance.Order.Time order * 1000000) /\
  (binance.Kline.OpenTime k = 9223372036855 ->
   model.Candle.Time (CandleFromKline symbol k) = - 9223372036854551616).
Proof.
  intros inRange. subst inRange. cbn beta.
  split; [|split; [|split]].
  - intros H. cbn. apply wrap64_small. lia.
  - intros H. cbn. apply wrap64_small. lia.
  - intros H. unfold newOrder. destruct (_ && _); cbn; apply wrap64_small; lia.
  - intros H. cbn. rewrite H. reflexivity.
Qed.

(** An instance of X16: the candle opened 1600000000000 ms after the epoch. *)
Lemma instants_convert_without_overflow_example :
  model.Candle.Time (CandleFromKline "BTCUSDT" (Venues.kline "101")) =
    1600000000000 * 1000000.
Proof.
  apply (instants_convert_without_overflow "BTCUSDT" (Venues.kline "101")
           {| binance.WsKline.StartTime := 0; binance.WsKline.Open := "";
              binance.WsKline.Close := ""; binance.WsKline.High := "";
              binance.WsKline.Low := ""; binance.WsKline.Volume := "";
              binance.WsKline.TradeNum := 0; binance.WsKline.IsFinal := false |}
           {| binance.Order.Symbol := ""; binance.Order.OrderID := 0;
              binance.Order.Price := ""; binance.Order.OrigQuantity := "";
              binance.Order.ExecutedQuantity := "";
              binance.Order.CummulativeQuoteQuantity := "";
              binance.Order.Status := ""; binance.Order.Type_ := "";
              binance.Order.Side := ""; binance.Order.Time := 0 |}).
  cbn. lia.
Defined.

(** ** Orders read back from the venue *)

(** X17: [Order] and [Orders] send one request and return the venue's orders
    converted one by one, in their order, or the venue's error.  An order
    with fills, whose cumulative quote quantity and executed quantity are
    both above zero, is reported at its average price, the first divided by
    the second, with the executed quantity; an order of which either is
    zero is reported at its own price with its original quantity, so no
    order is priced by a division by zero. *)
Theorem orders_read_back b c symbol id limit log :
  client b = Some c ->
  let one := (log ++ [binance.GetOrderRequest symbol id])%list in
  let many := (log ++ [binance.ListOrdersRequest symbol limit])%list in
  let cost o := fst (ParseFloat (binance.Order.CummulativeQuoteQuantity o)) in
  let executed o := fst (ParseFloat (binance.Order.ExecutedQuantity o)) in
  Order b symbol id log =
    (Returns match binance.GetOrderService c one with
             | Ok o => Ok (newOrder o)
             | Err err => Err err
             end, one) /\
  Orders b symbol limit log =
    (Returns match binance.ListOrdersService c many with
             | Ok listed => Ok (map newOrder listed)
             | Err err => Err err
             end, many) /\
  (forall o, (0 <? cost o)%float = true -> (0 <? executed o)%float = true ->
     model.Order.Price (newOrder o) = (cost o / executed o)%float /\
     model.Order.Quantity (newOrder o) = executed o) /\
  (forall o, (cost o =? 0)%float = true \/ (executed o =? 0)%float = true ->
     model.Order.Price (newOrder o) = fst (ParseFloat (binance.Order.Price o)) /\
     model.Order.Quantity (newOrder o) = fst (ParseFloat (binance.Order.OrigQuantity o))) /\
  (forall o, model.Order.ExchangeID (newOrder o) = binance.Order.OrderID o /\
             model.Order.Symbol (newOrder o) = binance.Order.Symbol o /\
             model.Order.Stop (newOrder o) = None /\
             model.Order.GroupID (newOrder o) = None).
Proof.
  intros Hc one many cost executed. subst cost executed. cbn beta.
  split; [|split; [|split; [|split]]].
  - unfold Order. rewrite (bind_returns _ _ _ _ _ (viaClient_run b c _ _ log Hc)).
    fold one. now destruct (binance.GetOrderService c one).
  - unfold Orders. rewrite (bind_returns _ _ _ _ _ (viaClient_run b c _ _ log Hc)).
    fold many. now destruct (binance.ListOrdersService c many).
  - intros o Hcost Hexecuted. unfold newOrder. now rewrite Hcost, Hexecuted.
  - intros o Hzero. unfold newOrder.
    assert (Hno : ((0 <? fst (ParseFloat (binance.Order.CummulativeQuoteQuantity o)))%float &&
                   (0 <? fst (ParseFloat (binance.Order.ExecutedQuantity o)))%float) = false).
    { destruct Hzero as [H | H]; apply float_eqb_not_ltb in H; destruct H as [_ H];
        rewrite H; [reflexivity | apply andb_false_r]. }
    now rewrite Hno.
  - intros o. unfold newOrder. now destruct (_ && _).
Qed.

(** An instance of X17: the venue knows no order 28 and lists no order. *)
Lemma orders_read_back_example :
  Order Venues.broker "BTCUSDT" 28 [] =
    (Returns (Err (apiError "unknown order")), [binance.GetOrderRequest "BTCUSDT" 28]) /\
  Orders Venues.broker "BTCUSDT" 10 [] =
    (Returns (Ok []), [binance.ListOrdersRequest "BTCUSDT" 10]).
Proof.
  destruct (orders_read_back Venues.broker Venues.client "BTCUSDT" 28 10 []
              ltac:(vm_compute; reflexivity)) as (Hone & Hmany & _).
  split; [exact Hone | exact Hmany].
Defined.

(** ** A symbol listed without a lot-size filter *)

Lemma applyFilter_keeps_quantity limits filter log r log' :
  notLotSize filter = true ->
  applyFilter limits filter log = (Returns r, log') ->
  MinQuantity r = MinQuantity limits /\ MaxQuantity r = MaxQuantity limits /\
  QtyDecimalPrecision r = QtyDecimalPrecision limits.
Proof.
  unfold notLotSize, applyFilter.
  destruct (filter !! "filterType") as [typ|];
    [|intros _ Hrun; apply ret_inv in Hrun; now destruct Hrun as [-> _]].
  intros Hnot Hrun. apply bind_inv in Hrun. destruct Hrun as (limits1 & log1 & Hlot & Hprice).
  assert (limits1 = limits) as ->.
  { destruct typ as [|t| |]; try (apply ret_inv in Hlot; now destruct Hlot).
    apply negb_true_iff in Hnot. rewrite Hnot in Hlot.
    apply ret_inv in Hlot. now destruct Hlot. }
  destruct typ as [|t| |]; try (apply ret_inv in Hprice; now destruct Hprice as [-> _]).
  destruct (String.eqb t binance.SymbolFilterTypePriceFilter);
    [|apply ret_inv in Hprice; now destruct Hprice as [-> _]].
  apply bind_inv in Hprice. destruct Hprice as (minPrice & l1 & _ & Hprice).
  apply bind_inv in Hprice. destruct Hprice as (maxPrice & l2 & _ & Hprice).
  apply bind_inv in Hprice. destruct Hprice as (tickSize & l3 & _ & Hprice).
  apply ret_inv in Hprice. now destruct Hprice as [-> _].
Qed.

Lemma applyFilters_keeps_quantity filters : forall limits log r log',
  forallb notLotSize filters = true ->
  applyFilters limits filters log = (Returns r, log') ->
  MinQuantity r = MinQuantity limits /\ MaxQuantity r = MaxQuantity limits /\
  QtyDecimalPrecision r = QtyDecimalPrecision limits.
Proof.
  induction filters as [|filter filters IH]; intros limits log r log' Hnot Hrun.
  - apply ret_inv in Hrun. now destruct Hrun as [-> _].
  - cbn [forallb] in Hnot. apply andb_true_iff in Hnot. destruct Hnot as [Hone Hrest].
    cbn [applyFilters] in Hrun. apply bind_inv in Hrun.
    destruct Hrun as (limits1 & log1 & Hfirst & Hothers).
    destruct (applyFilter_keeps_quantity _ _ _ _ _ Hone Hfirst) as (<- & <- & <-).
    now apply IH in Hothers.
Qed.

Lemma loadSymbols_unbounded s symbols : forall (infos r : gmap string AssetInfo) log log',
  (forall listed, In listed symbols -> binance.Symbol.Symbol listed = s ->
     forallb notLotSize (binance.Symbol.Filters listed) = true) ->
  (forall info, infos !! s = Some info -> unbounded info) ->
  loadSymbols symbols infos log = (Returns r, log') ->
  forall info, r !! s = Some info -> unbounded info.
Proof.
  induction symbols as [|listed symbols IH]; intros infos r log log' Hnot Hinfos Hrun.
  - apply ret_inv in Hrun. now destruct Hrun as [-> _].
  - cbn [loadSymbols] in Hrun. apply bind_inv in Hrun.
    destruct Hrun as (limits & log1 & Hlimits & Hrest).
    eapply IH; [| |exact Hrest].
    + intros l Hin. apply Hnot. now right.
    + intros info. destruct (decide (binance.Symbol.Symbol listed = s)) as [Heq | Hne].
      * rewrite <- Heq, lookup_insert_eq. intros [= <-].
        apply applyFilters_keeps_quantity in Hlimits; [|apply Hnot; [now left | exact Heq]].
        exact Hlimits.
      * rewrite lookup_insert_ne by exact Hne. apply Hinfos.
Qed.

(** X18: a symbol that the venue lists without a lot-size filter gets no
    quantity bounds: its minimum and maximum quantity stay 0, and its
    quantity precision 0.  [validate] then refuses every quantity above
    zero and every quantity below zero for it, without asking the venue. *)
Theorem symbol_without_lot_size_takes_no_quantity
    NewClient options log b log' c results s info :
  NewBinance NewClient options log = (Returns (Ok b), log') ->
  client b = Some c ->
  binance.ExchangeInfoService c log' = Ok results ->
  (forall listed, In listed (binance.ExchangeInfo.Symbols results) ->
     binance.Symbol.Symbol listed = s ->
     forallb notLotSize (binance.Symbol.Filters listed) = true) ->
  assetsInfo b !! s = Some info ->
  unbounded info /\
  forall side typ quantity value sent,
    (0 <? quantity)%float = true \/ (quantity <? 0)%float = true ->
    validate b side typ s quantity value sent = (Returns (Some (quantityError info)), sent).
Proof.
  intros Hrun Hc Hresults Hnot Hinfo.
  destruct (NewBinance_returns _ _ _ _ _ Hrun)
    as (user & results' & _ & _ & _ & Hinfo' & infos & Hload & ->).
  cbn [client assetsInfo] in *. injection Hc as <-.
  rewrite Hresults in Hinfo'. injection Hinfo' as <-.
  assert (Hzero : unbounded info).
  { eapply (loadSymbols_unbounded s _ ∅); [exact Hnot | | exact Hload | exact Hinfo].
    intros i. now rewrite lookup_empty. }
  split; [exact Hzero|].
  destruct Hzero as (Hmin & Hmax & _).
  intros side typ quantity value sent Hq. unfold validate. cbn [assetsInfo].
  rewrite Hinfo, Hmin, Hmax. unfold PrimFloat.zero.
  destruct Hq as [-> | ->]; [reflexivity | now rewrite orb_true_r].
Qed.

(** An instance of X18: ETHUSDT is listed with a price filter only, and a
    sell of 0.5 ETH is refused. *)
Lemma symbol_without_lot_size_takes_no_quantity_example :
  let listed := [Venues.symbol "ETHUSDT" "ETH" "USDT"
                   [Venues.priceFilter "0.01000000" "100000.00000000" "0.01000000"]] in
  let b := Venues.brokerOf (NewBinance (Venues.listing listed) [] []) in
  unbounded (infoOf b "ETHUSDT") /\
  validate b model.SideTypeSell model.OrderTypeLimit "ETHUSDT" 0.5 (Some 2000%float) [] =
    (Returns (Some (wrapError "" ErrInvalidQuantity ": min: 0.000000 max: 0.000000")), []).
Proof.
  intros listed b.
  destruct (symbol_without_lot_size_takes_no_quantity (Venues.listing listed) [] [] b
              [binance.PingRequest; binance.ExchangeInfoRequest]
              (Venues.listing listed "" "")
              {| binance.ExchangeInfo.Symbols := listed |}
              "ETHUSDT" (infoOf b "ETHUSDT")
              ltac:(vm_compute; reflexivity) ltac:(vm_compute; reflexivity) eq_refl)
    as [Hzero Hrefused].
  - intros l [<- | []] _. vm_compute. reflexivity.
  - vm_compute. reflexivity.
  - split; [exact Hzero|].
    rewrite Hrefused; [|left; vm_compute; reflexivity].
    vm_compute. reflexivity.
Defined.
